(** * Alpha2_Rag: the invoice RAG pipeline, embedded in Rocq

    The four scripts of the repository are embedded shallowly:
    - [Py]: the fragment of Python the scripts rely on (JSON values,
      truthiness, [str], [repr], [json.dumps], exceptions);
    - [Effects]: the world the scripts act on (standard output, JSON files,
      the vector store, the external providers) and the state-and-exception
      monad the stateful code is written in;
    - [CreateChunks]: [create_chunks.py];
    - [BuildVectordb]: [build_vectordb.py];
    - [QueryRag]: [query_rag.py].

    Strings are Rocq strings; a character is read as a code point in
    U+0000..U+00FF.  The messages of built-in exceptions are those of
    CPython 3.12. *)

From Stdlib Require Import ZArith String Ascii List Lia Bool.
From stdpp Require Import gmap strings list pretty.

#[local] Set Warnings "-register-all".
#[local] Open Scope string_scope.
#[local] Open Scope list_scope.

(* ===================================================================== *)
(** * Python values and their textual forms *)
(* ===================================================================== *)

Module Py.

(** Characters that cannot be written inside a Rocq string literal. *)
Definition TAB : ascii := "009".
Definition LF : ascii := "010".
Definition CR : ascii := "013".
Definition BS : ascii := "008".
Definition FF : ascii := "012".
Definition DQUOTE : ascii := "034".
Definition SQUOTE : ascii := "039".
Definition BACKSLASH : ascii := "092".

Definition chr (c : ascii) : string := String c EmptyString.
Definition nl : string := chr LF.

(** A float is never computed with by the scripts: it is only tested for
    truth and printed.  A finite float is carried by its [repr] text. *)
Inductive pyfloat :=
| FNan
| FInf (negative : bool)
| FFinite (repr : string) (nonzero : bool).

(** What [json.load] returns.  A [dict] keeps its insertion order, so it is
    an association list; [dict_get] reads the first binding of a key. *)
Inductive value :=
| VNone
| VBool (b : bool)
| VInt (n : Z)
| VFloat (x : pyfloat)
| VStr (s : string)
| VList (items : list value)
| VDict (items : list (string * value)).

Abbreviation dict := (list (string * value)).

Fixpoint dict_get (d : dict) (k : string) : option value :=
  match d with
  | [] => None
  | (k', v) :: d' => if String.eqb k' k then Some v else dict_get d' k
  end.

(** [k in d] *)
Definition dict_contains (d : dict) (k : string) : bool :=
  match dict_get d k with Some _ => true | None => false end.

(** [bool(v)] *)
Definition py_bool (v : value) : bool :=
  match v with
  | VNone => false
  | VBool b => b
  | VInt n => negb (n =? 0)%Z
  | VFloat FNan => true
  | VFloat (FInf _) => true
  | VFloat (FFinite _ nz) => nz
  | VStr s => negb (String.eqb s "")
  | VList l => match l with [] => false | _ => true end
  | VDict d => match d with [] => false | _ => true end
  end.

(** A flat scalar: neither a list nor a mapping. *)
Definition is_scalar (v : value) : bool :=
  match v with
  | VList _ | VDict _ => false
  | _ => true
  end.

(** ** [repr] of a string *)

Definition hex_digit (n : N) : ascii :=
  match String.get (N.to_nat n) "0123456789abcdef" with
  | Some c => c
  | None => "0"%char
  end.

Definition hex2 (c : ascii) : string :=
  let n := N_of_ascii c in
  String (hex_digit (n / 16)) (String (hex_digit (n mod 16)) EmptyString).

Fixpoint str_mem (c : ascii) (s : string) : bool :=
  match s with
  | EmptyString => false
  | String c' s' => Ascii.eqb c c' || str_mem c s'
  end.

(** [str.isprintable] on U+0000..U+00FF. *)
Definition isprintable (c : ascii) : bool :=
  let n := N_of_ascii c in
  ((32 <=? n) && (n <=? 126) || (161 <=? n) && (n <=? 172) || (174 <=? n))%N.

Definition repr_char (quote c : ascii) : string :=
  if Ascii.eqb c quote || Ascii.eqb c BACKSLASH then String BACKSLASH (chr c)
  else if Ascii.eqb c TAB then String BACKSLASH "t"
  else if Ascii.eqb c LF then String BACKSLASH "n"
  else if Ascii.eqb c CR then String BACKSLASH "r"
  else if isprintable c then chr c
  else String BACKSLASH ("x" +:+ hex2 c).

Fixpoint str_flat_map (f : ascii -> string) (s : string) : string :=
  match s with
  | EmptyString => EmptyString
  | String c s' => f c +:+ str_flat_map f s'
  end.

Definition str_repr (s : string) : string :=
  let quote := if str_mem SQUOTE s && negb (str_mem DQUOTE s)
               then DQUOTE else SQUOTE in
  chr quote +:+ str_flat_map (repr_char quote) s +:+ chr quote.

(** ** [repr] and [str] of a value *)

Definition float_repr (x : pyfloat) : string :=
  match x with
  | FNan => "nan"
  | FInf neg => if neg then "-inf" else "inf"
  | FFinite r _ => r
  end.

Fixpoint py_repr (v : value) : string :=
  match v with
  | VNone => "None"
  | VBool b => if b then "True" else "False"
  | VInt n => pretty n
  | VFloat x => float_repr x
  | VStr s => str_repr s
  | VList l => "[" +:+ String.concat ", " (map py_repr l) +:+ "]"
  | VDict d =>
      "{" +:+ String.concat ", "
                (map (fun kv => match kv with
                                | (k, x) => str_repr k +:+ ": " +:+ py_repr x
                                end) d) +:+ "}"
  end.

(** [str(v)], which is also what an f-string field [{v}] renders. *)
Definition py_str (v : value) : string :=
  match v with
  | VStr s => s
  | _ => py_repr v
  end.

(** ** [json.dumps] with its default arguments *)

Definition json_char (c : ascii) : string :=
  if Ascii.eqb c DQUOTE || Ascii.eqb c BACKSLASH then String BACKSLASH (chr c)
  else if Ascii.eqb c LF then String BACKSLASH "n"
  else if Ascii.eqb c CR then String BACKSLASH "r"
  else if Ascii.eqb c TAB then String BACKSLASH "t"
  else if Ascii.eqb c BS then String BACKSLASH "b"
  else if Ascii.eqb c FF then String BACKSLASH "f"
  else let n := N_of_ascii c in
       if ((32 <=? n) && (n <=? 126))%N then chr c
       else String BACKSLASH ("u00" +:+ hex2 c).

Definition json_str (s : string) : string :=
  chr DQUOTE +:+ str_flat_map json_char s +:+ chr DQUOTE.

Definition json_float (x : pyfloat) : string :=
  match x with
  | FNan => "NaN"
  | FInf neg => if neg then "-Infinity" else "Infinity"
  | FFinite r _ => r
  end.

Fixpoint json_dumps (v : value) : string :=
  match v with
  | VNone => "null"
  | VBool b => if b then "true" else "false"
  | VInt n => pretty n
  | VFloat x => json_float x
  | VStr s => json_str s
  | VList l => "[" +:+ String.concat ", " (map json_dumps l) +:+ "]"
  | VDict d =>
      "{" +:+ String.concat ", "
                (map (fun kv => match kv with
                                | (k, x) => json_str k +:+ ": " +:+ json_dumps x
                                end) d) +:+ "}"
  end.

(** ** Exceptions *)

(** [Exc] is an instance of [Exception]; [BaseExc] is one of the exceptions
    outside it ([KeyboardInterrupt], [SystemExit], [GeneratorExit]).  [msg]
    is [str(e)]. *)
Inductive exc :=
| Exc (cls msg : string)
| BaseExc (cls msg : string).

Definition exc_str (e : exc) : string :=
  match e with Exc _ m | BaseExc _ m => m end.

Definition KeyError (k : string) : exc := Exc "KeyError" (str_repr k).
Definition IndexError : exc := Exc "IndexError" "list index out of range".
Definition EOFError : exc := Exc "EOFError" "EOF when reading a line".
Definition TypeError (msg : string) : exc := Exc "TypeError" msg.
Definition AttributeError (msg : string) : exc := Exc "AttributeError" msg.
Definition ValueError (msg : string) : exc := Exc "ValueError" msg.

Inductive res (A : Type) :=
| Ok (a : A)
| Raise (e : exc).
Arguments Ok {A} a.
Arguments Raise {A} e.

(** [type(v).__name__] *)
Definition type_name (v : value) : string :=
  match v with
  | VNone => "NoneType"
  | VBool _ => "bool"
  | VInt _ => "int"
  | VFloat _ => "float"
  | VStr _ => "str"
  | VList _ => "list"
  | VDict _ => "dict"
  end.

(** [v[k]] for a string key [k] *)
Definition getitem (v : value) (k : string) : res value :=
  match v with
  | VDict d => match dict_get d k with
               | Some x => Ok x
               | None => Raise (KeyError k)
               end
  | VList _ =>
      Raise (TypeError "list indices must be integers or slices, not str")
  | VStr _ => Raise (TypeError "string indices must be integers, not 'str'")
  | _ => Raise (TypeError ("'" +:+ type_name v +:+ "' object is not subscriptable"))
  end.

End Py.

(* ===================================================================== *)
(** * The world the scripts act on *)
(* ===================================================================== *)

Module Effects.
Import Py.

(** [embeddings.tolist()]: a vector of floats. *)
Definition embedding := list pyfloat.

(** One stored tuple of a collection; the id is the key it is stored under. *)
Record entry := Entry {
  e_embedding : embedding;
  e_document : value;
  e_metadata : dict
}.

Record collection := Collection {
  c_metadata : dict;
  c_entries : gmap string entry
}.

(** What the outside can observe of a run, in order. *)
Inductive event :=
| Printed (text : string)       (* print(text) *)
| Prompted (text : string)      (* the prompt written by input(text) *)
| Encoded (texts : list value)  (* embedder.encode(texts) *)
| Queried (n_results : Z)       (* collection.query(..., n_results) *)
| Generated (prompt : string).  (* llm.generate_content(prompt) *)

Section World.

(** The state of whatever is outside the program and not modelled (the
    network, the models behind the providers): a provider call reads and
    updates it, so a provider may answer the same request differently at
    different times. *)
Context {Ext : Type}.

Record world := World {
  trace : list event;
  files : gmap string value;               (* path -> parsed JSON document *)
  chroma : gmap (string * string) collection; (* (db_path, name) -> collection *)
  ext : Ext
}.

(** Computations that read and change the world and may raise. *)
Definition M (A : Type) : Type := world -> res A * world.

Definition ret {A} (a : A) : M A := fun w => (Ok a, w).
Definition raise {A} (e : exc) : M A := fun w => (Raise e, w).
Definition bind {A B} (m : M A) (k : A -> M B) : M B :=
  fun w => match m w with
           | (Ok a, w') => k a w'
           | (Raise e, w') => (Raise e, w')
           end.

(** A pure computation that may raise. *)
Definition lift {A} (r : res A) : M A := fun w => (r, w).

Definition emit (e : event) : M unit :=
  fun w => (Ok tt, World (trace w ++ [e]) (files w) (chroma w) (ext w)).

Definition print (text : string) : M unit := emit (Printed text).

(** A call to an external provider [f]: logged, then answered by [f]. *)
Definition call {A} (e : event) (f : Ext -> res A * Ext) : M A :=
  fun w => let '(r, x) := f (ext w) in
           (r, World (trace w ++ [e]) (files w) (chroma w) x).

(** [with open(path) as f: json.load(f)] *)
Definition read_json (path : string) : M value :=
  fun w => match files w !! path with
           | Some v => (Ok v, w)
           | None => (Raise (Exc "FileNotFoundError"
                         ("[Errno 2] No such file or directory: " +:+ str_repr path)), w)
           end.

(** [with open(path, 'w') as f: json.dump(v, f, ...)] *)
Definition write_json (path : string) (v : value) : M unit :=
  fun w => (Ok tt, World (trace w) (<[path := v]> (files w)) (chroma w) (ext w)).

(** [for x in xs: body(x)] *)
Fixpoint for_each {A} (xs : list A) (body : A -> M unit) : M unit :=
  match xs with
  | [] => ret tt
  | x :: xs' => bind (body x) (fun _ => for_each xs' body)
  end.

(** [try: m / except: pass] catches whatever is raised. *)
Definition try_except_pass (m : M unit) : M unit :=
  fun w => match m w with
           | (Ok _, w') => (Ok tt, w')
           | (Raise _, w') => (Ok tt, w')
           end.

(** [try: m / except Exception as e: handler(e)] lets what is not an
    [Exception] through. *)
Definition try_except_Exception (m : M unit) (handler : exc -> M unit) : M unit :=
  fun w => match m w with
           | (Ok _, w') => (Ok tt, w')
           | (Raise (Exc cls msg), w') => handler (Exc cls msg) w'
           | (Raise (BaseExc cls msg), w') => (Raise (BaseExc cls msg), w')
           end.

End World.

Arguments world : clear implicits.
Arguments M : clear implicits.

End Effects.

Declare Scope py_scope.
Delimit Scope py_scope with py.
Notation "'let*' x ':=' c 'in' k" := (Effects.bind c (fun x => k))
  (at level 10, x name, c at level 100, k at level 200) : py_scope.
Notation "c ';;' k" := (Effects.bind c (fun _ => k))
  (at level 100, k at level 200, right associativity) : py_scope.

(** The same for pure computations that may raise. *)
Definition res_bind {A B} (r : Py.res A) (k : A -> Py.res B) : Py.res B :=
  match r with
  | Py.Ok a => k a
  | Py.Raise e => Py.Raise e
  end.

Declare Scope res_scope.
Delimit Scope res_scope with res.
Notation "'let?' x ':=' c 'in' k" := (res_bind c (fun x => k))
  (at level 10, x name, c at level 100, k at level 200) : res_scope.

(** [for x in xs: acc = body(acc, x)], stopping at the first exception. *)
Fixpoint res_for {A S} (xs : list A) (body : S -> A -> Py.res S) (acc : S) : Py.res S :=
  match xs with
  | [] => Py.Ok acc
  | x :: xs' => res_bind (body acc x) (res_for xs' body)
  end.

(** A list comprehension [[f(x) for x in xs]]. *)
Fixpoint res_map {A B} (f : A -> Py.res B) (xs : list A) : Py.res (list B) :=
  match xs with
  | [] => Py.Ok []
  | x :: xs' => res_bind (f x) (fun y => res_bind (res_map f xs') (fun ys => Py.Ok (y :: ys)))
  end.

(* ===================================================================== *)
(** * create_chunks.py *)
(* ===================================================================== *)

Module CreateChunks.
Import Py Effects.

(** The [field_mapping] dict of [format_invoice_as_text], in its order. *)
Definition field_mapping : list (string * string) :=
  [ ("company", "Company");
    ("vendor", "Vendor");
    ("invoice_number", "Invoice Number");
    ("invoice_date", "Date");
    ("due_date", "Due Date");
    ("total", "Total Amount");
    ("subtotal", "Subtotal");
    ("tax", "Tax");
    ("address", "Address");
    ("items", "Line Items") ].

(** [key in field_mapping] *)
Definition in_field_mapping (key : string) : bool :=
  existsb (fun fl => String.eqb (fst fl) key) field_mapping.

(** The body of the first loop: one preferred field. *)
Definition format_mapped_field (invoice_data : dict)
    (text_parts : list string) (fl : string * string) : list string :=
  let '(field, label) := fl in
  match dict_get invoice_data field with
  | Some value =>
      match value with
      | VList l =>
          if py_bool value
          then text_parts ++ [label +:+ ": " +:+ String.concat ", " (map py_str l)]
          else text_parts
      | VDict _ => text_parts ++ [label +:+ ": " +:+ json_dumps value]
      | _ =>
          if py_bool value
          then text_parts ++ [label +:+ ": " +:+ py_str value]
          else text_parts
      end
  | None => text_parts
  end.

(** The body of the second loop: one item of the record. *)
Definition format_other_field (text_parts : list string)
    (item : string * value) : list string :=
  let '(key, value) := item in
  if negb (in_field_mapping key) && py_bool value
  then text_parts ++ [key +:+ ": " +:+ py_str value]
  else text_parts.

(** [text_parts] as it stands before the final join. *)
Definition format_text_parts (invoice_data : dict) : list string :=
  let text_parts := [] in
  let text_parts := fold_left (format_mapped_field invoice_data) field_mapping text_parts in
  let text_parts := fold_left format_other_field invoice_data text_parts in
  text_parts.

Definition format_invoice_as_text (invoice_data : dict) : string :=
  String.concat nl (format_text_parts invoice_data).

(** [needle in haystack] on strings *)
Definition str_contains (needle haystack : string) : bool :=
  match String.index 0 needle haystack with Some _ => true | None => false end.

(** [format_invoice_as_text] called on whatever [invoice['data']] holds.
    The annotation asks for a dict; on anything else the first loop's
    [field in invoice_data] or the second loop's [.items()] raises. *)
Definition format_invoice_as_text_of (data : value) : res string :=
  match data with
  | VDict d => Ok (format_invoice_as_text d)
  | VList l =>
      if existsb (fun fl => existsb (fun x => match x with
                                             | VStr s => String.eqb s (fst fl)
                                             | _ => false
                                             end) l) field_mapping
      then Raise (TypeError "list indices must be integers or slices, not str")
      else Raise (AttributeError "'list' object has no attribute 'items'")
  | VStr s =>
      if existsb (fun fl => str_contains (fst fl) s) field_mapping
      then Raise (TypeError "string indices must be integers, not 'str'")
      else Raise (AttributeError "'str' object has no attribute 'items'")
  | _ => Raise (TypeError ("argument of type '" +:+ type_name data +:+ "' is not iterable"))
  end.

(** The chunk built from one invoice: the body of the loop of
    [create_invoice_chunks], without the [append]. *)
Definition invoice_chunk (invoice : value) : res value :=
  (let? data := getitem invoice "data" in
   let? text := format_invoice_as_text_of data in
   let? file_name := getitem invoice "file_name" in
   let full_text := "Invoice: " +:+ py_str file_name +:+ nl +:+ nl +:+ text in
   let? id := getitem invoice "id" in
   let? file_name := getitem invoice "file_name" in
   let? metadata := getitem invoice "metadata" in
   let? source_index := getitem metadata "source_index" in
   let? metadata := getitem invoice "metadata" in
   let? has_image := getitem metadata "has_image" in
   let? data := getitem invoice "data" in
   Ok (VDict [ ("id", id);
               ("text", VStr full_text);
               ("metadata", VDict [ ("file_name", file_name);
                                    ("source_index", source_index);
                                    ("has_image", has_image);
                                    ("structured_data", data) ]) ]))%res.

(** [for x in v] *)
Definition py_iter (v : value) : res (list value) :=
  match v with
  | VList l => Ok l
  | VDict d => Ok (map (fun kv => VStr (fst kv)) d)
  | VStr s => Ok (map (fun c => VStr (chr c)) (list_ascii_of_string s))
  | _ => Raise (TypeError ("'" +:+ type_name v +:+ "' object is not iterable"))
  end.

(** The loop: [chunks = []; for invoice in invoices: chunks.append({...})]. *)
Definition build_chunks (invoices : list value) : res (list value) :=
  res_for invoices
    (fun chunks invoice =>
       (let? chunk := invoice_chunk invoice in Ok (chunks ++ [chunk]))%res)
    [].

(** [chunks[0]['text'][:500]] *)
Definition sample_text (chunks : list value) : res string :=
  match chunks with
  | [] => Raise IndexError
  | chunk :: _ =>
      (let? text := getitem chunk "text" in
       match text with
       | VStr s => Ok (String.substring 0 500 s)
       | VList l => Ok (py_str (VList (take 500 l)))
       | _ => Raise (TypeError ("'" +:+ type_name text +:+ "' object is not subscriptable"))
       end)%res
  end.

Section Run.
Context {Ext : Type}.

Definition create_invoice_chunks (data_file output_file : string)
  : M Ext (list value) :=
  (print ("Loading invoice data from " +:+ data_file);;
   let* invoices := read_json data_file in
   let* invoices := lift (py_iter invoices) in
   let* chunks := lift (build_chunks invoices) in
   write_json output_file (VList chunks);;
   print ("Created " +:+ pretty (Z.of_nat (length chunks)) +:+ " invoice chunks");;
   print ("Saved to " +:+ output_file);;
   print (nl +:+ "Sample chunk:");;
   let* sample := lift (sample_text chunks) in
   print sample;;
   ret chunks)%py.

End Run.

End CreateChunks.

(* ===================================================================== *)
(** * The vector store *)
(* ===================================================================== *)

(** ChromaDB is a library the scripts call; only its interface is fixed
    here.  What a release of the library does with an id that is already
    stored, with an id repeated inside one [add], and which documents and
    metadata it accepts, is a [policy]: everything below holds for every
    policy. *)
Module Chroma.
Import Py Effects.

Inductive on_existing :=
| Overwrite   (* the new record replaces the stored one *)
| Keep        (* the new record is ignored *)
| Reject.     (* the call raises *)

Record policy := Policy {
  rejects_batch_duplicates : bool;
  existing_id : on_existing;
  accepts : value -> dict -> bool
}.

Definition as_id (v : value) : res string :=
  match v with
  | VStr s => Ok s
  | _ => Raise (ValueError ("Expected ID to be a str, got " +:+ py_repr v))
  end.

(** The records of one [add] call, validated. *)
Definition records (p : policy) (ids documents : list value)
    (embeddings : list embedding) (metadatas : list dict)
  : res (list (string * entry)) :=
  if negb (Nat.eqb (length documents) (length ids)
           && Nat.eqb (length embeddings) (length ids)
           && Nat.eqb (length metadatas) (length ids))
  then Raise (ValueError "Unequal lengths for fields")
  else
    res_map (fun r => match r with
                      | (id, (document, (emb, meta))) =>
                          (let? key := as_id id in
                           if accepts p document meta
                           then Ok (key, Entry emb document meta)
                           else Raise (ValueError "Expected a valid document and metadata"))%res
                      end)
            (zip ids (zip documents (zip embeddings metadatas))).

Definition add_record (p : policy) (entries : gmap string entry)
    (r : string * entry) : res (gmap string entry) :=
  match entries !! fst r with
  | None => Ok (<[fst r := snd r]> entries)
  | Some _ =>
      match existing_id p with
      | Overwrite => Ok (<[fst r := snd r]> entries)
      | Keep => Ok entries
      | Reject => Raise (Exc "IDAlreadyExistsError" (fst r))
      end
  end.

Definition add_records (p : policy) (entries : gmap string entry)
    (rs : list (string * entry)) : res (gmap string entry) :=
  if rejects_batch_duplicates p && negb (bool_decide (NoDup (map fst rs)))
  then Raise (Exc "DuplicateIDError" "Expected IDs to be unique")
  else res_for rs (add_record p) entries.

(** A collection handle: the path of the client and the collection's name. *)
Abbreviation handle := (string * string)%type.

Section Client.
Context {Ext : Type}.

Definition set_chroma (c : gmap (string * string) collection) (w : world Ext)
  : world Ext :=
  World (trace w) (files w) c (ext w).

(** [client.delete_collection(name=...)] *)
Definition delete_collection (db_path name : string) : M Ext unit :=
  fun w => match chroma w !! (db_path, name) with
           | Some _ => (Ok tt, set_chroma (delete (db_path, name) (chroma w)) w)
           | None => (Raise (ValueError ("Collection " +:+ name +:+ " does not exist.")), w)
           end.

(** [client.create_collection(name=..., metadata=...)] *)
Definition create_collection (db_path name : string) (metadata : dict)
  : M Ext handle :=
  fun w => match chroma w !! (db_path, name) with
           | Some _ => (Raise (Exc "UniqueConstraintError"
                                 ("Collection " +:+ name +:+ " already exists")), w)
           | None => (Ok (db_path, name),
                      set_chroma (<[(db_path, name) := Collection metadata ∅]> (chroma w)) w)
           end.

(** [collection.add(ids=..., documents=..., embeddings=..., metadatas=...)] *)
Definition collection_add (p : policy) (h : handle) (ids documents : list value)
    (embeddings : list embedding) (metadatas : list dict) : M Ext unit :=
  fun w => match chroma w !! h with
           | None => (Raise (ValueError ("Collection " +:+ snd h +:+ " does not exist.")), w)
           | Some c =>
               match res_bind (records p ids documents embeddings metadatas)
                              (add_records p (c_entries c)) with
               | Ok entries =>
                   (Ok tt, set_chroma (<[h := Collection (c_metadata c) entries]> (chroma w)) w)
               | Raise e => (Raise e, w)
               end
           end.

(** [collection.count()] *)
Definition collection_count (h : handle) : M Ext nat :=
  fun w => match chroma w !! h with
           | None => (Raise (ValueError ("Collection " +:+ snd h +:+ " does not exist.")), w)
           | Some c => (Ok (size (c_entries c)), w)
           end.

End Client.

End Chroma.

(* ===================================================================== *)
(** * build_vectordb.py *)
(* ===================================================================== *)

Module BuildVectordb.
Import Py Effects Chroma.

(** [len(v)] *)
Definition py_len (v : value) : res nat :=
  match v with
  | VList l => Ok (length l)
  | VDict d => Ok (length d)
  | VStr s => Ok (String.length s)
  | _ => Raise (TypeError ("object of type '" +:+ type_name v +:+ "' has no len()"))
  end.

(** [range(0, stop, step)] *)
Definition py_range (stop : nat) (step : Z) : res (list nat) :=
  if (step =? 0)%Z then Raise (ValueError "range() arg 3 must not be zero")
  else if (step <? 0)%Z then Ok []
  else let b := Z.to_nat step in
       Ok (map (fun k => k * b) (seq 0 ((stop + b - 1) / b))).

(** The elements a loop over [chunks[i:i+n]] visits. *)
Definition batch_of (chunks : value) (i n : nat) : res (list value) :=
  match chunks with
  | VList l => Ok (take n (drop i l))
  | VStr s => Ok (map (fun c => VStr (chr c))
                      (list_ascii_of_string (String.substring i n s)))
  | VDict _ =>
      Raise (Exc "KeyError" ("slice(" +:+ pretty i +:+ ", " +:+ pretty (i + n) +:+ ", None)"))
  | _ => Raise (TypeError ("'" +:+ type_name chunks +:+ "' object is not subscriptable"))
  end.

(** The [meta] dict built for one chunk. *)
Definition chunk_meta (chunk : value) : res dict :=
  (let? metadata := getitem chunk "metadata" in
   let? file_name := getitem metadata "file_name" in
   let? metadata := getitem chunk "metadata" in
   let? source_index := getitem metadata "source_index" in
   let? metadata := getitem chunk "metadata" in
   let? has_image := getitem metadata "has_image" in
   Ok [ ("file_name", file_name);
        ("source_index", source_index);
        ("has_image", has_image) ])%res.

(** [metadatas = []; for chunk in batch: metadatas.append(meta)] *)
Definition batch_metadatas (batch : list value) : res (list dict) :=
  res_for batch
    (fun metadatas chunk =>
       (let? meta := chunk_meta chunk in Ok (metadatas ++ [meta]))%res)
    [].

Section Run.
Context {Ext : Type}.

(** [SentenceTransformer(model).encode(texts, ...).tolist()], by model name. *)
Variable SentenceTransformer :
  string -> list value -> Ext -> res (list embedding) * Ext.

Variable p : policy.

(** The body of the batch loop. *)
Definition index_batch (embedder : list value -> Ext -> res (list embedding) * Ext)
    (collection : handle) (chunks : value) (batch_size : Z) (i : nat)
  : M Ext unit :=
  (let* batch := lift (batch_of chunks i (Z.to_nat batch_size)) in
   let* ids := lift (res_map (fun chunk => getitem chunk "id") batch) in
   let* texts := lift (res_map (fun chunk => getitem chunk "text") batch) in
   let* metadatas := lift (batch_metadatas batch) in
   let* embeddings := call (Encoded texts) (embedder texts) in
   collection_add p collection ids texts embeddings metadatas)%py.

Definition build_invoice_vectordb
    (chunks_file db_path collection_name embedding_model : string)
    (batch_size : Z) : M Ext handle :=
  (print "Building invoice vector database...";;
   print ("Loading chunks from " +:+ chunks_file);;
   let* chunks := read_json chunks_file in
   let* n := lift (py_len chunks) in
   print ("Total invoices: " +:+ pretty n);;
   print ("Loading embedding model: " +:+ embedding_model);;
   let embedder := SentenceTransformer embedding_model in
   print ("Initializing ChromaDB at " +:+ db_path);;
   try_except_pass
     (delete_collection db_path collection_name;;
      print "Deleted existing collection");;
   let* collection :=
     create_collection db_path collection_name [("hnsw:space", VStr "cosine")] in
   print "⚡ Generating embeddings and storing in ChromaDB...";;
   let* starts := lift (py_range n batch_size) in
   for_each starts (index_batch embedder collection chunks batch_size);;
   print (nl +:+ "Invoice vector database built successfully!");;
   print ("Location: " +:+ db_path);;
   print ("Collection: " +:+ collection_name);;
   let* count := collection_count collection in
   print ("Total invoices indexed: " +:+ pretty count);;
   ret collection)%py.

End Run.

End BuildVectordb.

(* ===================================================================== *)
(** * query_rag.py *)
(* ===================================================================== *)

Module QueryRag.
Import Py Effects.

(** What [collection.query] returns: one list of documents and one list of
    metadata dicts per query embedding. *)
Record query_result := QueryResult {
  documents : list (list string);
  metadatas : list (list dict)
}.

(** [l[0]] *)
Definition first {A} (l : list A) : res A :=
  match l with
  | [] => Raise IndexError
  | x :: _ => Ok x
  end.

(** [enumerate(l, 1)] *)
Definition enumerate1 {A} (l : list A) : list (nat * A) :=
  zip (seq 1 (length l)) l.

(** [str.isspace] of one character, on U+0000..U+00FF. *)
Definition isspace (c : ascii) : bool :=
  let n := N_of_ascii c in
  ((9 <=? n) && (n <=? 13) || (28 <=? n) && (n <=? 32)
   || (n =? 133) || (n =? 160))%N.

Fixpoint lstrip (s : string) : string :=
  match s with
  | EmptyString => EmptyString
  | String c s' => if isspace c then lstrip s' else s
  end.

Fixpoint str_rev_onto (s acc : string) : string :=
  match s with
  | EmptyString => acc
  | String c s' => str_rev_onto s' (String c acc)
  end.

Definition str_rev (s : string) : string := str_rev_onto s EmptyString.

(** [s.strip()] *)
Definition strip (s : string) : string :=
  str_rev (lstrip (str_rev (lstrip s))).

Definition lower_char (c : ascii) : ascii :=
  let n := N_of_ascii c in
  if ((65 <=? n) && (n <=? 90)
      || (192 <=? n) && (n <=? 222) && negb (n =? 215))%N
  then ascii_of_N (n + 32)
  else c.

(** [s.lower()] *)
Fixpoint lower (s : string) : string :=
  match s with
  | EmptyString => EmptyString
  | String c s' => String (lower_char c) (lower s')
  end.

(** [s * n] *)
Fixpoint str_repeat (s : string) (n : nat) : string :=
  match n with
  | O => EmptyString
  | S n' => s +:+ str_repeat s n'
  end.

(** [query.lower() in ['quit', 'exit', 'q']] *)
Definition is_exit_command (query : string) : bool :=
  existsb (String.eqb (lower query)) ["quit"; "exit"; "q"].

Definition no_results_message : string :=
  "No relevant invoices found in the database.".

(** The f-string prompt of [generate_answer]. *)
Definition build_prompt (context query : string) : string :=
  "You are an invoice analysis assistant. Answer questions based on the invoice data provided."
  +:+ nl +:+ nl
  +:+ "Invoice Data:" +:+ nl
  +:+ context +:+ nl +:+ nl
  +:+ "Question: " +:+ query +:+ nl +:+ nl
  +:+ "Provide a clear, concise answer based on the invoice information above. If the answer requires specific amounts or dates, include them in your response."
  +:+ nl +:+ nl
  +:+ "Answer:".

(** The header and body of one retrieved invoice. *)
Definition context_block (i : nat) (doc : string) (file_name : value) : string :=
  "--- Invoice " +:+ pretty i +:+ " (" +:+ py_str file_name +:+ ") ---" +:+ nl +:+ doc.

(** [format_retrieved_context]; it does not use [self]. *)
Definition format_retrieved_context (results : query_result) : res string :=
  (let? documents := first (documents results) in
   let? metadatas := first (metadatas results) in
   let? context_parts :=
     res_for (enumerate1 (zip documents metadatas))
       (fun context_parts item =>
          match item with
          | (i, (doc, meta)) =>
              let? file_name := getitem (VDict meta) "file_name" in
              Ok (context_parts ++ [context_block i doc file_name])
          end)
       [] in
   Ok (String.concat (nl +:+ nl) context_parts))%res.

Section Session.
Context {Ext : Type}.

(** The object built by [InvoiceRAG.__init__]: its three providers. *)
Record InvoiceRAG := {
  (* self.llm.generate_content(prompt).text *)
  llm : string -> Ext -> res string * Ext;
  (* self.embedder.encode(query).tolist() *)
  embedder : string -> Ext -> res embedding * Ext;
  (* self.collection.query(query_embeddings=..., n_results=...) *)
  collection : list embedding -> Z -> Ext -> res query_result * Ext
}.

Definition retrieve (self : InvoiceRAG) (query : string) (n_results : Z)
  : M Ext query_result :=
  (let* query_embedding := call (Encoded [VStr query]) (embedder self query) in
   let* results :=
     call (Queried n_results) (collection self [query_embedding] n_results) in
   ret results)%py.

Definition generate_answer (self : InvoiceRAG) (query : string) (n_results : Z)
  : M Ext string :=
  (print (nl +:+ "Query: " +:+ query);;
   let* results := retrieve self query n_results in
   let* documents := lift (first (documents results)) in
   match documents with
   | [] => ret no_results_message
   | _ =>
       print ("Retrieved " +:+ pretty (length documents) +:+ " relevant invoices");;
       let* context := lift (format_retrieved_context results) in
       let prompt := build_prompt context query in
       print "Generating answer with Gemini...";;
       let* response := call (Generated prompt) (llm self prompt) in
       ret response
   end)%py.

(** The [while True] loop of [chat], over the lines standard input will
    deliver; at the end of input, [input] raises [EOFError]. *)
Fixpoint chat_loop (self : InvoiceRAG) (stdin : list string) : M Ext unit :=
  match stdin with
  | [] => (emit (Prompted (nl +:+ "You: "));; raise EOFError)%py
  | line :: rest =>
      (emit (Prompted (nl +:+ "You: "));;
       let query := strip line in
       if is_exit_command query then print "Goodbye!"
       else if String.eqb query "" then chat_loop self rest
       else
         try_except_Exception
           (let* answer := generate_answer self query 5 in
            print (nl +:+ "Assistant: " +:+ answer))
           (fun e => print ("Error: " +:+ exc_str e));;
         chat_loop self rest)%py
  end.

Definition chat (self : InvoiceRAG) (stdin : list string) : M Ext unit :=
  (print (nl +:+ str_repeat "=" 60);;
   print "Invoice RAG System (type 'quit' to exit)";;
   print (str_repeat "=" 60);;
   print (nl +:+ "Example queries:");;
   print "  - What is the total amount for invoice X?";;
   print "  - Which invoices are from company Y?";;
   print "  - Show me invoices from January 2023";;
   print "  - What are the highest value invoices?";;
   print (str_repeat "=" 60);;
   chat_loop self stdin)%py.

End Session.

Arguments InvoiceRAG : clear implicits.

End QueryRag.

(* ===================================================================== *)
(** * The vocabulary of the statements *)
(* ===================================================================== *)

Module Spec.
Import Py Effects Chroma CreateChunks BuildVectordb QueryRag.

(** ** The Formatter as the specification words it

    One line per present, non-empty field, [<Label>: <value>]; a list is
    rendered as its comma-joined stringified elements, a nested mapping in
    serialized form, a scalar directly; preferred fields first, in the
    preferred order, then the remaining fields in iteration order. *)

Definition render (v : value) : string :=
  match v with
  | VList l => String.concat ", " (map py_str l)
  | VDict _ => json_dumps v
  | _ => py_str v
  end.

Definition preferred_lines (render : value -> string) (record : dict) : list string :=
  flat_map (fun fl => match dict_get record (fst fl) with
                      | Some v => if py_bool v then [snd fl +:+ ": " +:+ render v] else []
                      | None => []
                      end) field_mapping.

Definition remaining_lines (render : value -> string) (record : dict) : list string :=
  flat_map (fun kv => if negb (in_field_mapping (fst kv)) && py_bool (snd kv)
                      then [fst kv +:+ ": " +:+ render (snd kv)] else []) record.

(** The Formatter of the specification: every value goes through [render]. *)
Definition format_as_specified (record : dict) : string :=
  String.concat nl (preferred_lines render record ++ remaining_lines render record).

(** The Formatter with the remaining fields rendered by [str]. *)
Definition format_preferred_rendered (record : dict) : string :=
  String.concat nl (preferred_lines render record ++ remaining_lines py_str record).

(** What the first loop of [format_invoice_as_text] appends for one
    preferred field. *)
Definition mapped_line (invoice_data : dict) (fl : string * string) : list string :=
  format_mapped_field invoice_data [] fl.

(** No preferred field of the record holds an empty mapping. *)
Definition no_empty_preferred_mapping (record : dict) : Prop :=
  forall field, in_field_mapping field = true -> dict_get record field <> Some (VDict []).

(** ** Provider calls *)

(** The prompts sent to the generation provider, read off a trace. *)
Definition generation_calls (t : list event) : list string :=
  flat_map (fun e => match e with Generated prompt => [prompt] | _ => [] end) t.

(** ** Records and chunks *)

(** A record as [download_data.py] writes it: [id], [file_name], a [data]
    mapping, and a [metadata] mapping with [source_index] and [has_image]. *)
Definition well_formed_invoice (invoice : value) : bool :=
  match invoice with
  | VDict d =>
      match dict_get d "id", dict_get d "file_name",
            dict_get d "data", dict_get d "metadata" with
      | Some _, Some _, Some (VDict _), Some (VDict m) =>
          dict_contains m "source_index" && dict_contains m "has_image"
      | _, _, _, _ => false
      end
  | _ => false
  end.

(** Every value of the chunk's metadata mapping is a flat scalar. *)
Definition metadata_is_flat (chunk : value) : bool :=
  match getitem chunk "metadata" with
  | Ok (VDict m) => forallb (fun kv => is_scalar (snd kv)) m
  | _ => false
  end.

(** The text of the chunk of a record: the header line naming the file, a
    blank line, the Formatter's output. *)
Definition chunk_text (file_name : value) (data : dict) : string :=
  "Invoice: " +:+ py_str file_name +:+ nl +:+ nl +:+ format_invoice_as_text data.

(** ** A record, its chunk and a world holding the records file *)

Definition example_invoice : value :=
  VDict [ ("id", VStr "invoice_0");
          ("file_name", VStr "acme.png");
          ("data", VDict [("total", VInt 100); ("vendor", VStr "Acme"); ("notes", VStr "")]);
          ("metadata", VDict [("source_index", VInt 0); ("has_image", VBool true)]) ].

Definition example_chunk : value :=
  VDict [ ("id", VStr "invoice_0");
          ("text", VStr ("Invoice: acme.png" +:+ nl +:+ nl
                         +:+ "Vendor: Acme" +:+ nl +:+ "Total Amount: 100"));
          ("metadata",
           VDict [ ("file_name", VStr "acme.png");
                   ("source_index", VInt 0);
                   ("has_image", VBool true);
                   ("structured_data",
                    VDict [("total", VInt 100); ("vendor", VStr "Acme");
                           ("notes", VStr "")]) ]) ].

Definition example_world : world unit :=
  World [] {[ "data/invoices_data.json" := VList [example_invoice] ]} ∅ tt.

(** ** The Indexer *)

(** The record [r] is what the Indexer stores for [chunk]: under the chunk's
    id, the chunk's text, the three metadata entries read from the chunk,
    and an embedding that is [good] for the text. *)
Definition stored_as (good : value -> embedding -> Prop)
    (chunk : value) (r : string * entry) : Prop :=
  getitem chunk "id" = Ok (VStr (fst r))
  /\ getitem chunk "text" = Ok (e_document (snd r))
  /\ chunk_meta chunk = Ok (e_metadata (snd r))
  /\ good (e_document (snd r)) (e_embedding (snd r)).

(** A chunk the Indexer can read: a string [id], a [text], and a
    [metadata] mapping with the three entries the Indexer copies. *)
Definition well_formed_chunk (chunk : value) : bool :=
  match getitem chunk "id", getitem chunk "text", chunk_meta chunk with
  | Ok (VStr _), Ok _, Ok _ => true
  | _, _, _ => false
  end.

(** What [chunk["id"]] evaluates to, chunk by chunk. *)
Definition chunk_ids (chunks : list value) : list (res value) :=
  (fun chunk => getitem chunk "id") <$> chunks.

(** The metadata the build creates its collection with. *)
Definition cosine : dict := [("hnsw:space", VStr "cosine")].

(** ** A chunks file, a store that already holds the collection, and an
    embedding provider *)

Definition second_chunk : value :=
  VDict [ ("id", VStr "invoice_1");
          ("text", VStr "Invoice: globex.png");
          ("metadata",
           VDict [ ("file_name", VStr "globex.png");
                   ("source_index", VInt 1);
                   ("has_image", VBool true);
                   ("structured_data", VDict []) ]) ].

Definition third_chunk : value :=
  VDict [ ("id", VStr "invoice_2");
          ("text", VStr "Invoice: initech.png");
          ("metadata",
           VDict [ ("file_name", VStr "initech.png");
                   ("source_index", VInt 2);
                   ("has_image", VBool false);
                   ("structured_data", VDict [("vendor", VStr "Initech")]) ]) ].

Definition example_chunks : list value :=
  [example_chunk; second_chunk; third_chunk].

Definition stale_collection : Effects.collection :=
  Collection [] {[ "stale" := Entry [] (VStr "left over") [] ]}.

Definition index_world : world unit :=
  World [] {[ "data/chunks.json" := VList example_chunks ]}
        {[ ("./chroma_db", "invoices_collection") := stale_collection ]} tt.

(** An embedding that depends on the text alone. *)
Definition example_encode (text : value) : embedding :=
  [FFinite (pretty (String.length (py_str text))) true].

Definition example_transformer
  : string -> list value -> unit -> res (list embedding) * unit :=
  fun _ texts x => (Ok (example_encode <$> texts), x).

(** Ids repeated in one call are refused, stored ids are kept. *)
Definition example_policy : policy := Policy true Keep (fun _ _ => true).

(** The world a build with the given batch size leaves. *)
Definition indexed_world (batch_size : Z) : world unit :=
  snd (build_invoice_vectordb example_transformer example_policy
         "data/chunks.json" "./chroma_db" "invoices_collection"
         "all-MiniLM-L6-v2" batch_size index_world).

(** ** Two sessions *)

(** A session whose collection matches nothing. *)
Definition empty_rag : InvoiceRAG unit :=
  {| llm := fun prompt x => (Ok "unused", x);
     embedder := fun query x => (Ok [FFinite "0.25" true], x);
     collection := fun embeddings n x => (Ok (QueryResult [[]] [[]]), x) |}.

(** A session whose collection returns one invoice and whose generation
    provider is out of quota. *)
Definition quota_rag : InvoiceRAG unit :=
  {| llm := fun prompt x => (Raise (Exc "ResourceExhausted" "429 quota exceeded"), x);
     embedder := fun query x => (Ok [FFinite "0.25" true], x);
     collection := fun embeddings n x =>
       (Ok (QueryResult [["Invoice: acme.png"]] [[ [("file_name", VStr "acme.png")] ]]), x) |}.

Definition start_world : world unit := World [] ∅ ∅ tt.

End Spec.

(* ===================================================================== *)
(** * download_data.py *)
(* ===================================================================== *)

Module DownloadData.
Import Py Effects.

(** [json.dumps(v, indent=2)]: one item per line, two spaces per level. *)
Definition newline_indent (level : nat) : string :=
  nl +:+ String.concat "" (replicate (2 * level) " ").

Fixpoint json_dumps_indent (level : nat) (v : value) : string :=
  match v with
  | VList [] => "[]"
  | VList l =>
      "[" +:+ newline_indent (S level)
      +:+ String.concat ("," +:+ newline_indent (S level))
            (map (json_dumps_indent (S level)) l)
      +:+ newline_indent level +:+ "]"
  | VDict [] => "{}"
  | VDict d =>
      "{" +:+ newline_indent (S level)
      +:+ String.concat ("," +:+ newline_indent (S level))
            (map (fun kv => match kv with
                            | (k, x) => json_str k +:+ ": "
                                        +:+ json_dumps_indent (S level) x
                            end) d)
      +:+ newline_indent level +:+ "}"
  | _ => json_dumps v
  end.

(** [ground_truth.get('gt_parse', {})] *)
Definition get_gt_parse (ground_truth : value) : res value :=
  match ground_truth with
  | VDict d => match dict_get d "gt_parse" with
               | Some x => Ok x
               | None => Ok (VDict [])
               end
  | _ => Raise (AttributeError ("'" +:+ type_name ground_truth
                               +:+ "' object has no attribute 'get'"))
  end.

Section Run.
Context {Ext Image : Type}.

(** A row of the train split: its columns, each present or not. *)
Record item := Item {
  item_ground_truth : option string;
  item_file_name : option value;
  item_image : option Image
}.

(** [json.loads], the parser of the standard library. *)
Variable json_loads : string -> res value.

(** [load_dataset(name)['train']] and [image.save(path)]. *)
Variable load_dataset : string -> Ext -> res (list item) * Ext.
Variable image_save : Image -> string -> Ext -> res unit * Ext.

(** A provider call that leaves nothing on the trace. *)
Definition call_quiet {A} (f : Ext -> res A * Ext) : M Ext A :=
  fun w => let '(r, x) := f (ext w) in
           (r, World (trace w) (files w) (chroma w) x).

(** [item['ground_truth']] *)
Definition get_ground_truth (row : item) : res string :=
  match item_ground_truth row with
  | Some s => Ok s
  | None => Raise (KeyError "ground_truth")
  end.

(** The [invoice_data] dict built for the row at position [idx]. *)
Definition invoice_record (idx : nat) (row : item) : res value :=
  (let? text := get_ground_truth row in
   let? ground_truth := json_loads text in
   let file_name := match item_file_name row with
                    | Some x => x
                    | None => VStr ("invoice_" +:+ pretty idx)
                    end in
   let? data := get_gt_parse ground_truth in
   Ok (VDict [ ("id", VStr ("invoice_" +:+ pretty idx));
               ("file_name", file_name);
               ("data", data);
               ("metadata",
                VDict [ ("source_index", VInt (Z.of_nat idx));
                        ("has_image",
                         VBool (match item_image row with
                                | Some _ => true
                                | None => false
                                end)) ]) ]))%res.

(** The body of the loop over [enumerate(ds['train'])]. *)
Definition process_item (output_dir : string) (save_images : bool)
    (processed_data : list value) (entry : nat * item) : M Ext (list value) :=
  (let '(idx, row) := entry in
   let* invoice_data := lift (invoice_record idx row) in
   let processed_data := processed_data ++ [invoice_data] in
   match save_images, item_image row with
   | true, Some image =>
       call_quiet (image_save image
                     (output_dir +:+ "/images/invoice_" +:+ pretty idx +:+ ".png"));;
       ret processed_data
   | _, _ => ret processed_data
   end)%py.

(** [for x in xs: acc = body(acc, x)] with effects. *)
Fixpoint for_acc {A S} (xs : list A) (body : S -> A -> M Ext S) (acc : S)
  : M Ext S :=
  match xs with
  | [] => ret acc
  | x :: xs' => bind (body acc x) (for_acc xs' body)
  end.

(** [download_invoice_dataset]; the directories it creates are not part of
    the world. *)
Definition download_invoice_dataset (dataset_name output_dir : string)
    (save_images : bool) : M Ext (list value) :=
  (print ("Downloading dataset: " +:+ dataset_name);;
   let* train := call_quiet (load_dataset dataset_name) in
   let* processed_data :=
     for_acc (zip (seq 0 (length train)) train)
       (process_item output_dir save_images) [] in
   let output_file := output_dir +:+ "/invoices_data.json" in
   write_json output_file (VList processed_data);;
   print ("Processed " +:+ pretty (length processed_data) +:+ " invoices");;
   print ("Saved to " +:+ output_file);;
   print (nl +:+ "Sample invoice structure:");;
   let* sample := lift (match processed_data with
                        | [] => Raise IndexError
                        | x :: _ => Ok x
                        end) in
   print (json_dumps_indent 0 sample);;
   ret processed_data)%py.

End Run.

Arguments item : clear implicits.

End DownloadData.

(* ===================================================================== *)
(** * query_rag.py: the constructor and the programmatic search *)
(* ===================================================================== *)

Module InvoiceSearch.
Import Py Effects Chroma QueryRag.

(** One element of the list [search_invoices] returns. *)
Definition found_invoice (doc : string) (meta : dict) : res value :=
  (let? file_name := getitem (VDict meta) "file_name" in
   let? source_index := getitem (VDict meta) "source_index" in
   Ok (VDict [ ("file_name", file_name);
               ("content", VStr doc);
               ("source_index", source_index) ]))%res.

Section Session.
Context {Ext : Type}.

Definition search_invoices (self : InvoiceRAG Ext) (query : string) (n_results : Z)
  : M Ext (list value) :=
  (let* results := retrieve self query n_results in
   let* documents := lift (first (documents results)) in
   let* metadatas := lift (first (metadatas results)) in
   lift (res_for (zip documents metadatas)
           (fun invoices item =>
              match item with
              | (doc, meta) =>
                  res_bind (found_invoice doc meta)
                           (fun invoice => Ok (invoices ++ [invoice]))
              end)
           []))%py.

(** [os.getenv] after [load_dotenv()]: the environment is outside the
    program. *)
Variable getenv : string -> Ext -> option string.


End Session.

End InvoiceSearch.

(* ===================================================================== *)
(** * The vocabulary of the statements about the whole pipeline *)
(* ===================================================================== *)

Module Pipeline.
Import Py Effects Chroma CreateChunks BuildVectordb QueryRag Spec.
Import DownloadData InvoiceSearch.

(** [text_parts] after the first loop of [format_invoice_as_text]. *)
Definition preferred_part (invoice_data : dict) : list string :=
  fold_left (format_mapped_field invoice_data) field_mapping [].

(** What [invoice['id']] evaluates to, record by record. *)
Definition record_ids (invoices : list value) : list (res value) :=
  (fun invoice => getitem invoice "id") <$> invoices.

(** A record whose [metadata] entry is missing. *)
Definition headless_invoice : value :=
  VDict [ ("id", VStr "invoice_7");
          ("file_name", VStr "lost.png");
          ("data", VDict [("vendor", VStr "Acme")]) ].

Definition headless_world : world unit :=
  World [] {[ "data/invoices_data.json" := VList [example_invoice; headless_invoice] ]}
        ∅ tt.

Definition empty_records_world : world unit :=
  World [] {[ "data/invoices_data.json" := VList [] ]} ∅ tt.

(** ** The Indexer and the rest of the world *)

Section Frames.
Context {Ext : Type}.

(** From [w] to [w'] no file changed, and no collection other than [h]. *)
Definition untouched_outside (h : handle) (w w' : world Ext) : Prop :=
  files w' = files w
  /\ forall key, key <> h -> chroma w' !! key = chroma w !! key.

(** Whatever its outcome, [m] changes no file and no collection but [h]. *)
Definition confined_to {A} (h : handle) (m : M Ext A) : Prop :=
  forall w r w', m w = (r, w') -> untouched_outside h w w'.




End Frames.

(** A store that holds, besides the collection to rebuild, a collection of
    receipts. *)
Definition shared_store_world : world unit :=
  World [] {[ "data/chunks.json" := VList example_chunks ]}
        {[ ("./chroma_db", "invoices_collection") := stale_collection;
           ("./chroma_db", "receipts") := stale_collection ]} tt.

(** ** Sessions *)

(** Every character of [s] is whitespace. *)
Fixpoint all_space (s : string) : bool :=
  match s with
  | EmptyString => true
  | String c s' => isspace c && all_space s'
  end.

(** A session whose providers all answer. *)
Definition answering_rag : InvoiceRAG unit :=
  {| llm := fun prompt x => (Ok "The total is 100.", x);
     embedder := fun query x => (Ok [FFinite "0.25" true], x);
     collection := fun embeddings n x =>
       (Ok (QueryResult [["Invoice: acme.png"]]
              [[ [("file_name", VStr "acme.png"); ("source_index", VInt 0);
                  ("has_image", VBool true)] ]]), x) |}.

(** A session interrupted from the keyboard while the answer is generated. *)
Definition interrupted_rag : InvoiceRAG unit :=
  {| llm := fun prompt x => (Raise (BaseExc "KeyboardInterrupt" ""), x);
     embedder := fun query x => (Ok [FFinite "0.25" true], x);
     collection := fun embeddings n x =>
       (Ok (QueryResult [["Invoice: acme.png"]] [[ [("file_name", VStr "acme.png")] ]]), x) |}.

(** A session whose embedding provider is unreachable. *)
Definition offline_rag : InvoiceRAG unit :=
  {| llm := fun prompt x => (Ok "unused", x);
     embedder := fun query x => (Raise (Exc "ConnectionError" "unreachable"), x);
     collection := fun embeddings n x => (Ok (QueryResult [[]] [[]]), x) |}.



(** ** A dataset of two rows *)

(** A parser that knows the ground truths of the two rows. *)
Definition example_json_loads (text : string) : res value :=
  if String.eqb text "ground truth of row 0"
  then Ok (VDict [("gt_parse", VDict [("vendor", VStr "Acme"); ("total", VInt 100)])])
  else if String.eqb text "ground truth of row 1"
  then Ok (VDict [("other", VInt 1)])
  else Raise (Exc "JSONDecodeError" "Expecting value: line 1 column 1 (char 0)").

Definition example_rows : list (item nat) :=
  [ Item (Some "ground truth of row 0") None (Some 7);
    Item (Some "ground truth of row 1") (Some (VStr "globex.png")) None ].

Definition broken_rows : list (item nat) :=
  [ Item (Some "ground truth of row 0") None (Some 7);
    Item (Some "not json") None None ].

Definition example_load_dataset (rows : list (item nat))
  : string -> unit -> res (list (item nat)) * unit :=
  fun _ x => (Ok rows, x).

Definition example_image_save : nat -> string -> unit -> res unit * unit :=
  fun _ _ x => (Ok tt, x).

(** The download of a dataset of the given rows into [data], from an empty
    world. *)
Definition example_download (rows : list (item nat)) (save_images : bool)
  : res (list value) * world unit :=
  download_invoice_dataset example_json_loads (example_load_dataset rows)
    example_image_save "katanaml-org/invoices-donut-data-v1" "data"
    save_images start_world.

Definition downloaded_records (save_images : bool) : list value :=
  match fst (example_download example_rows save_images) with
  | Ok records => records
  | Raise _ => []
  end.

(** A world without a chunks file. *)
Definition no_chunks_world : world unit :=
  World [] ∅ {[ ("./chroma_db", "invoices_collection") := stale_collection ]} tt.

End Pipeline.

(* ===================================================================== *)
(** * Properties *)
(* ===================================================================== *)

Import Py Effects Chroma CreateChunks BuildVectordb QueryRag Spec.

(** ** The Formatter *)

Lemma fold_left_append {A B} (f : B -> list A) (l : list B) (acc : list A) :
  fold_left (fun acc x => acc ++ f x) l acc = acc ++ flat_map f l.
Proof.
  revert acc. induction l as [|x l IH]; intros acc; simpl.
  - by rewrite app_nil_r.
  - by rewrite IH, app_assoc.
Qed.

Lemma fold_left_pointwise {A B} (f g : A -> B -> A) (l : list B) (acc : A) :
  (forall a x, f a x = g a x) -> fold_left f l acc = fold_left g l acc.
Proof.
  intros Hfg. revert acc. induction l as [|x l IH]; intros acc; simpl; [done|].
  by rewrite Hfg, IH.
Qed.

Lemma format_mapped_field_acc d tp fl :
  format_mapped_field d tp fl = tp ++ mapped_line d fl.
Proof.
  unfold mapped_line, format_mapped_field. destruct fl as [field label].
  destruct (dict_get d field) as [v|]; [|by rewrite app_nil_r].
  destruct v; try (destruct (py_bool _)); simpl; by rewrite ?app_nil_r.
Qed.

Lemma format_other_field_acc tp kv :
  format_other_field tp kv = tp ++ format_other_field [] kv.
Proof.
  unfold format_other_field. destruct kv as [k v].
  destruct (negb _ && _); simpl; by rewrite ?app_nil_r.
Qed.

Lemma format_text_parts_flat d :
  format_text_parts d
  = flat_map (mapped_line d) field_mapping ++ flat_map (format_other_field []) d.
Proof.
  unfold format_text_parts.
  rewrite (fold_left_pointwise _ (fun acc kv => acc ++ format_other_field [] kv))
    by (intros; apply format_other_field_acc).
  rewrite fold_left_append.
  rewrite (fold_left_pointwise _ (fun acc fl => acc ++ mapped_line d fl))
    by (intros; apply format_mapped_field_acc).
  by rewrite fold_left_append.
Qed.

Lemma flat_map_pointwise_in {A B} (f g : A -> list B) (l : list A) :
  (forall x, In x l -> f x = g x) -> flat_map f l = flat_map g l.
Proof.
  induction l as [|x l IH]; intros Hfg; simpl; [done|].
  rewrite Hfg by (by left). rewrite IH; [done|].
  intros y Hy. apply Hfg. by right.
Qed.

Lemma in_field_mapping_In fl : In fl field_mapping -> in_field_mapping (fst fl) = true.
Proof.
  intros Hin. unfold in_field_mapping. apply existsb_exists.
  exists fl. split; [done|]. apply String.eqb_refl.
Qed.

Lemma dict_get_In (d : dict) k v : dict_get d k = Some v -> In (k, v) d.
Proof.
  induction d as [|[k' v'] d IH]; simpl; [done|].
  destruct (String.eqb_spec k' k) as [->|Hne].
  - intros [= ->]. by left.
  - intros Hget. right. by apply IH.
Qed.


(** C4 (defect in the code).  The Formatter is to emit no line for a field
    whose value is falsy, the empty mapping included.  On the record
    [{"company": {}}] the code emits the line [Company: {}] although the
    empty mapping is falsy: the mapping branch of the first loop appends
    without the emptiness test its sibling branches make. *)
Theorem format_emits_line_for_empty_mapping :
  py_bool (VDict []) = false
  /\ format_text_parts [("company", VDict [])] = ["Company: {}"]
  /\ format_invoice_as_text [("company", VDict [])] = "Company: {}".
Proof. repeat split. Qed.

(** C5 (as stated, refuted).  The record [{"tags": ["a", "b"]}] has a list
    under a field that is not a preferred one: the code renders it with
    [str], brackets and quotes included, not as comma-joined elements. *)
Lemma format_remaining_list_not_comma_joined :
  format_invoice_as_text [("tags", VList [VStr "a"; VStr "b"])] = "tags: ['a', 'b']"
  /\ format_as_specified [("tags", VList [VStr "a"; VStr "b"])] = "tags: a, b"
  /\ format_invoice_as_text [("tags", VList [VStr "a"; VStr "b"])]
     <> format_as_specified [("tags", VList [VStr "a"; VStr "b"])].
Proof. repeat split. discriminate. Qed.

(** C5 (amended).  For every record in which no preferred field holds an
    empty mapping, the Formatter emits one line [<Label>: <value>] per
    present, non-empty field: first the preferred fields in the preferred
    order, a list rendered as its comma-joined stringified elements, a
    mapping as JSON, a scalar directly; then the remaining fields in
    iteration order, under their own name and rendered by [str] whatever
    their type.  The lines are newline-joined, the empty record yields the
    empty string, and [{total: 100, vendor: "Acme", notes: ""}] yields
    [Vendor: Acme] and [Total Amount: 100] on two lines. *)
Theorem format_invoice_as_text_lines (record : dict) :
  (no_empty_preferred_mapping record ->
   format_invoice_as_text record = format_preferred_rendered record)
  /\ format_invoice_as_text [] = ""
  /\ format_invoice_as_text
       [("total", VInt 100); ("vendor", VStr "Acme"); ("notes", VStr "")]
     = "Vendor: Acme" +:+ nl +:+ "Total Amount: 100".
Proof.
  split; [|by split].
  intros Hne. unfold format_invoice_as_text, format_preferred_rendered.
  rewrite format_text_parts_flat. f_equal. f_equal.
  - unfold preferred_lines. apply flat_map_pointwise_in.
    intros [field label] Hfl. unfold mapped_line, format_mapped_field. simpl.
    destruct (dict_get record field) as [v|] eqn:Hget; [|done].
    destruct v as [| | | | |l|d']; try done.
    destruct d' as [|kv d']; [|done].
    exfalso. apply (Hne field); [|done].
    apply (in_field_mapping_In _ Hfl).
  - unfold remaining_lines. apply flat_map_pointwise_in.
    intros [k v] _. unfold format_other_field. simpl.
    by destruct (negb (in_field_mapping k) && py_bool v).
Qed.

Lemma format_invoice_as_text_lines_witness :
  no_empty_preferred_mapping
    [("vendor", VStr "Acme"); ("items", VList [VStr "bolt"; VInt 2]);
     ("address", VDict [("city", VStr "Paris")]); ("tags", VList [VInt 1])]
  /\ format_invoice_as_text
       [("vendor", VStr "Acme"); ("items", VList [VStr "bolt"; VInt 2]);
        ("address", VDict [("city", VStr "Paris")]); ("tags", VList [VInt 1])]
     = format_preferred_rendered
         [("vendor", VStr "Acme"); ("items", VList [VStr "bolt"; VInt 2]);
          ("address", VDict [("city", VStr "Paris")]); ("tags", VList [VInt 1])].
Proof.
  assert (Hne : no_empty_preferred_mapping
    [("vendor", VStr "Acme"); ("items", VList [VStr "bolt"; VInt 2]);
     ("address", VDict [("city", VStr "Paris")]); ("tags", VList [VInt 1])]).
  { intros field _. cbn [dict_get].
    repeat match goal with |- context [String.eqb ?a field] =>
      destruct (String.eqb a field) end; discriminate. }
  split; [exact Hne|].
  exact (proj1 (format_invoice_as_text_lines _) Hne).
Defined.

(** ** Computations that may raise *)

Lemma res_bind_Ok_inv {A B} (r : res A) (k : A -> res B) (b : B) :
  res_bind r k = Ok b -> exists a, r = Ok a /\ k a = Ok b.
Proof. destruct r as [a|e]; simpl; [eauto|done]. Qed.

Ltac res_inv H :=
  repeat match type of H with
         | res_bind ?r ?k = Ok ?b =>
             let a := fresh "a" in
             let Ha := fresh "Ha" in
             apply res_bind_Ok_inv in H as (a & Ha & H)
         end.

Lemma res_for_app {A S} (xs ys : list A) (body : S -> A -> res S) (acc : S) :
  res_for (xs ++ ys) body acc = res_bind (res_for xs body acc) (res_for ys body).
Proof.
  revert acc. induction xs as [|x xs IH]; intros acc; simpl; [done|].
  destruct (body acc x); simpl; [apply IH|done].
Qed.

(** A loop that appends one computed element per iteration is a
    comprehension. *)
Lemma res_for_append {A B} (f : A -> res B) (xs : list A) (acc : list B) :
  res_for xs (fun acc x => res_bind (f x) (fun y => Ok (acc ++ [y]))) acc
  = res_bind (res_map f xs) (fun ys => Ok (acc ++ ys)).
Proof.
  revert acc. induction xs as [|x xs IH]; intros acc; simpl.
  - by rewrite app_nil_r.
  - destruct (f x) as [y|e]; simpl; [|done].
    rewrite IH. destruct (res_map f xs) as [ys|e]; simpl; [|done].
    by rewrite <- app_assoc.
Qed.

Lemma res_map_Forall2 {A B} (f : A -> res B) (xs : list A) (ys : list B) :
  res_map f xs = Ok ys <-> Forall2 (fun x y => f x = Ok y) xs ys.
Proof.
  revert ys. induction xs as [|x xs IH]; intros ys; simpl.
  - split; [intros [= <-]; constructor|by inversion 1].
  - split.
    + intros H. res_inv H. injection H as <-. constructor; [done|by apply IH].
    + inversion 1 as [|? y ? ys' Hx Hxs]; subst. rewrite Hx. simpl.
      apply IH in Hxs. by rewrite Hxs.
Qed.

Lemma res_map_total {A B} (f : A -> res B) (xs : list A) :
  Forall (fun x => exists y, f x = Ok y) xs -> exists ys, res_map f xs = Ok ys.
Proof.
  induction 1 as [|x xs [y Hy] _ [ys Hys]]; simpl; [by eexists|].
  rewrite Hy, Hys. simpl. by eexists.
Qed.

(** ** The Chunk Builder *)

Lemma build_chunks_map invoices :
  build_chunks invoices = res_map invoice_chunk invoices.
Proof.
  unfold build_chunks. rewrite (res_for_append invoice_chunk).
  by destruct (res_map invoice_chunk invoices).
Qed.

Lemma getitem_Ok_inv v k x :
  getitem v k = Ok x -> exists d, v = VDict d /\ dict_get d k = Some x.
Proof.
  destruct v as [| | | | | |d]; simpl; try done.
  destruct (dict_get d k) eqn:Hget; [|done]. intros [= <-]. eauto.
Qed.

Lemma format_invoice_as_text_of_Ok_inv data text :
  format_invoice_as_text_of data = Ok text ->
  exists d, data = VDict d /\ text = format_invoice_as_text d.
Proof.
  destruct data as [| | | | s|l|d]; unfold format_invoice_as_text_of; try done.
  - by destruct (existsb _ field_mapping).
  - by destruct (existsb _ field_mapping).
  - intros [= <-]. eauto.
Qed.

(** What a successful iteration of the loop has read and built. *)
Lemma invoice_chunk_Ok_inv invoice chunk :
  invoice_chunk invoice = Ok chunk ->
  exists id file_name data metadata source_index has_image,
    getitem invoice "id" = Ok id
    /\ getitem invoice "file_name" = Ok file_name
    /\ getitem invoice "data" = Ok (VDict data)
    /\ getitem invoice "metadata" = Ok metadata
    /\ getitem metadata "source_index" = Ok source_index
    /\ getitem metadata "has_image" = Ok has_image
    /\ chunk = VDict [ ("id", id);
                       ("text", VStr (chunk_text file_name data));
                       ("metadata", VDict [ ("file_name", file_name);
                                            ("source_index", source_index);
                                            ("has_image", has_image);
                                            ("structured_data", VDict data) ]) ].
Proof.
  unfold invoice_chunk. intros H.
  apply res_bind_Ok_inv in H as (data & Hdata & H).
  apply res_bind_Ok_inv in H as (text & Htext & H).
  apply res_bind_Ok_inv in H as (file_name & Hfn & H).
  apply res_bind_Ok_inv in H as (id & Hid & H).
  apply res_bind_Ok_inv in H as (file_name' & Hfn' & H).
  apply res_bind_Ok_inv in H as (metadata & Hmeta & H).
  apply res_bind_Ok_inv in H as (source_index & Hsi & H).
  apply res_bind_Ok_inv in H as (metadata' & Hmeta' & H).
  apply res_bind_Ok_inv in H as (has_image & Hhi & H).
  apply res_bind_Ok_inv in H as (data' & Hdata' & H).
  apply format_invoice_as_text_of_Ok_inv in Htext as (d & -> & ->).
  assert (file_name' = file_name) as -> by congruence.
  assert (metadata' = metadata) as -> by congruence.
  assert (data' = VDict d) as -> by congruence.
  injection H as <-.
  by exists id, file_name, d, metadata, source_index, has_image.
Qed.

Lemma invoice_chunk_total invoice :
  well_formed_invoice invoice = true -> exists chunk, invoice_chunk invoice = Ok chunk.
Proof.
  unfold well_formed_invoice, invoice_chunk, dict_contains.
  destruct invoice as [| | | | | |d]; try done. simpl.
  destruct (dict_get d "id") as [id|]; [|done].
  destruct (dict_get d "file_name") as [fn|]; [|done].
  destruct (dict_get d "data") as [[| | | | | |data]|]; try done.
  destruct (dict_get d "metadata") as [[| | | | | |m]|]; try done.
  simpl.
  destruct (dict_get m "source_index") as [si|]; [|done].
  destruct (dict_get m "has_image") as [hi|]; [|done].
  intros _. simpl. by eexists.
Qed.

Lemma build_chunks_Forall2 invoices chunks :
  build_chunks invoices = Ok chunks <->
  Forall2 (fun invoice chunk => invoice_chunk invoice = Ok chunk) invoices chunks.
Proof. rewrite build_chunks_map. apply res_map_Forall2. Qed.

Lemma build_chunks_total invoices :
  Forall (fun invoice => well_formed_invoice invoice = true) invoices ->
  exists chunks, build_chunks invoices = Ok chunks.
Proof.
  intros Hwf. rewrite build_chunks_map. apply res_map_total.
  eapply Forall_impl; [exact Hwf|]. apply invoice_chunk_total.
Qed.

Lemma sample_text_total invoice invoices chunks :
  build_chunks (invoice :: invoices) = Ok chunks ->
  exists sample, sample_text chunks = Ok sample.
Proof.
  intros H. apply build_chunks_Forall2 in H.
  inversion H as [|? chunk ? chunks' Hc _]; subst.
  apply invoice_chunk_Ok_inv in Hc as (id & fn & d & m & si & hi & _ & _ & _ & _ & _ & _ & ->).
  simpl. by eexists.
Qed.

Section CreateChunksRun.
Context {Ext : Type}.

(** The run of the script once the records are loaded and the loop went
    through: the chunk list is written to [output_file], and returned unless
    the sample print raises. *)
Lemma create_invoice_chunks_run data_file output_file (w : world Ext) invoices chunks :
  files w !! data_file = Some (VList invoices) ->
  build_chunks invoices = Ok chunks ->
  files (snd (create_invoice_chunks data_file output_file w)) !! output_file
    = Some (VList chunks)
  /\ (forall sample, sample_text chunks = Ok sample ->
        fst (create_invoice_chunks data_file output_file w) = Ok chunks).
Proof.
  intros Hfile Hbuild.
  unfold create_invoice_chunks, bind, print, emit, read_json, lift, write_json, ret.
  simpl. rewrite Hfile. simpl. rewrite Hbuild. simpl.
  destruct (sample_text chunks) as [sample|e]; simpl.
  - split; [apply lookup_insert_eq|done].
  - split; [apply lookup_insert_eq|done].
Qed.

(** C8.  For every list of records, each as the download step writes it,
    the Chunk Builder produces exactly one chunk per record: the chunk list
    it writes to the output file (and returns, when the list is not empty)
    has the length of the input, the chunk at each position carries the id
    of the record at that position, and its text is the header line
    [Invoice: <file_name>], a blank line, and the Formatter's output for the
    record's data. *)
Theorem create_invoice_chunks_one_per_record
    data_file output_file (w : world Ext) (invoices : list value) :
  files w !! data_file = Some (VList invoices) ->
  Forall (fun invoice => well_formed_invoice invoice = true) invoices ->
  exists chunks,
    files (snd (create_invoice_chunks data_file output_file w)) !! output_file
      = Some (VList chunks)
    /\ (invoices <> [] ->
        fst (create_invoice_chunks data_file output_file w) = Ok chunks)
    /\ length chunks = length invoices
    /\ forall i invoice, invoices !! i = Some invoice ->
         exists chunk id file_name data,
           chunks !! i = Some chunk
           /\ getitem invoice "id" = Ok id
           /\ getitem invoice "file_name" = Ok file_name
           /\ getitem invoice "data" = Ok (VDict data)
           /\ getitem chunk "id" = Ok id
           /\ getitem chunk "text"
              = Ok (VStr ("Invoice: " +:+ py_str file_name +:+ nl +:+ nl
                          +:+ format_invoice_as_text data)).
Proof.
  intros Hfile Hwf.
  destruct (build_chunks_total invoices Hwf) as [chunks Hbuild].
  destruct (create_invoice_chunks_run data_file output_file w invoices chunks
              Hfile Hbuild) as [Hwritten Hreturned].
  exists chunks. split; [done|]. split.
  { intros Hne. destruct invoices as [|invoice invoices']; [done|].
    destruct (sample_text_total _ _ _ Hbuild) as [sample Hsample]. eauto. }
  apply build_chunks_Forall2 in Hbuild. split.
  { symmetry. by eapply Forall2_length. }
  intros i invoice Hi.
  destruct (Forall2_lookup_l _ _ _ _ _ Hbuild Hi) as (chunk & Hchunk & Hc).
  apply invoice_chunk_Ok_inv in Hc
    as (id & fn & d & m & si & hi & Hid & Hfn & Hd & _ & _ & _ & ->).
  eexists _, id, fn, d. by repeat split.
Qed.

End CreateChunksRun.

Lemma create_invoice_chunks_one_per_record_witness :
  exists chunks,
    files (snd (create_invoice_chunks "data/invoices_data.json" "data/chunks.json"
                  example_world)) !! "data/chunks.json"
      = Some (VList chunks)
    /\ ([example_invoice] <> [] ->
        fst (create_invoice_chunks "data/invoices_data.json" "data/chunks.json"
               example_world) = Ok chunks)
    /\ length chunks = length [example_invoice]
    /\ forall i invoice, [example_invoice] !! i = Some invoice ->
         exists chunk id file_name data,
           chunks !! i = Some chunk
           /\ getitem invoice "id" = Ok id
           /\ getitem invoice "file_name" = Ok file_name
           /\ getitem invoice "data" = Ok (VDict data)
           /\ getitem chunk "id" = Ok id
           /\ getitem chunk "text"
              = Ok (VStr ("Invoice: " +:+ py_str file_name +:+ nl +:+ nl
                          +:+ format_invoice_as_text data)).
Proof.
  apply (create_invoice_chunks_one_per_record
           "data/invoices_data.json" "data/chunks.json" example_world
           [example_invoice]).
  - reflexivity.
  - repeat constructor.
Defined.

(** C3 (as stated, refuted).  The chunk built from [example_invoice] carries
    the record's [data] mapping under [structured_data]: its metadata is not
    flat. *)
Lemma chunk_metadata_not_flat :
  build_chunks [example_invoice] = Ok [example_chunk]
  /\ getitem example_chunk "metadata"
     = Ok (VDict [ ("file_name", VStr "acme.png");
                   ("source_index", VInt 0);
                   ("has_image", VBool true);
                   ("structured_data",
                    VDict [("total", VInt 100); ("vendor", VStr "Acme");
                           ("notes", VStr "")]) ])
  /\ metadata_is_flat example_chunk = false.
Proof. repeat split. Qed.

(** C3 (amended).  For every list of records the Chunk Builder goes through,
    the metadata mapping of each chunk has exactly four entries, in this
    order: [file_name], [source_index] and [has_image], copied from the
    record, and [structured_data], which holds the record's [data] mapping
    itself.  Every chunk's metadata therefore holds a nested mapping: it is
    never flat. *)
Theorem chunk_metadata_entries (invoices chunks : list value) :
  build_chunks invoices = Ok chunks ->
  Forall2 (fun invoice chunk =>
             exists file_name metadata source_index has_image data,
               getitem invoice "file_name" = Ok file_name
               /\ getitem invoice "metadata" = Ok metadata
               /\ getitem metadata "source_index" = Ok source_index
               /\ getitem metadata "has_image" = Ok has_image
               /\ getitem invoice "data" = Ok (VDict data)
               /\ getitem chunk "metadata"
                  = Ok (VDict [ ("file_name", file_name);
                                ("source_index", source_index);
                                ("has_image", has_image);
                                ("structured_data", VDict data) ])
               /\ metadata_is_flat chunk = false)
          invoices chunks.
Proof.
  intros Hbuild. apply build_chunks_Forall2 in Hbuild.
  eapply Forall2_impl; [exact Hbuild|].
  intros invoice chunk Hc. simpl in Hc.
  apply invoice_chunk_Ok_inv in Hc
    as (id & fn & d & m & si & hi & Hid & Hfn & Hd & Hm & Hsi & Hhi & ->).
  exists fn, m, si, hi, d. repeat split; try done.
  unfold metadata_is_flat. simpl. by rewrite !andb_false_r.
Qed.

Lemma chunk_metadata_entries_witness :
  Forall2 (fun invoice chunk =>
             exists file_name metadata source_index has_image data,
               getitem invoice "file_name" = Ok file_name
               /\ getitem invoice "metadata" = Ok metadata
               /\ getitem metadata "source_index" = Ok source_index
               /\ getitem metadata "has_image" = Ok has_image
               /\ getitem invoice "data" = Ok (VDict data)
               /\ getitem chunk "metadata"
                  = Ok (VDict [ ("file_name", file_name);
                                ("source_index", source_index);
                                ("has_image", has_image);
                                ("structured_data", VDict data) ])
               /\ metadata_is_flat chunk = false)
          [example_invoice] [example_chunk].
Proof.
  apply (chunk_metadata_entries [example_invoice] [example_chunk]).
  reflexivity.
Defined.

(** ** The Context Assembler *)

Lemma res_for_pointwise {A S} (body body' : S -> A -> res S) (xs : list A) (acc : S) :
  (forall acc x, body acc x = body' acc x) ->
  res_for xs body acc = res_for xs body' acc.
Proof.
  intros Hb. revert acc. induction xs as [|x xs IH]; intros acc; simpl; [done|].
  rewrite Hb. destruct (body' acc x); simpl; [apply IH|done].
Qed.

Lemma enumerate1_lookup {A} (l : list A) i n x :
  enumerate1 l !! i = Some (n, x) <-> n = S i /\ l !! i = Some x.
Proof.
  unfold enumerate1. rewrite lookup_zip_with.
  destruct (l !! i) as [y|] eqn:Hy.
  - rewrite lookup_seq_lt by (by eapply lookup_lt_Some). simpl.
    split; [intros [= <- <-]; done|intros [-> [= ->]]; done].
  - rewrite lookup_seq_ge by (by apply lookup_ge_None). simpl.
    split; [done|by intros [_ ?]].
Qed.

Lemma enumerate1_length {A} (l : list A) : length (enumerate1 l) = length l.
Proof.
  unfold enumerate1. rewrite length_zip_with, length_seq. lia.
Qed.

(** C9.  For every retrieval result whose metadata all name a file, the
    Context Assembler emits one block per (document, metadata) pair, in
    result order: the block at 1-based position i is the header
    [--- Invoice i (<file_name>) ---], a newline, and the raw document
    text; the blocks are joined by a blank line.  The empty result yields
    the empty string. *)
Theorem format_retrieved_context_blocks
    (docs : list string) (metas : list dict)
    (more_docs : list (list string)) (more_metas : list (list dict)) :
  (Forall (fun meta => dict_contains meta "file_name" = true) metas ->
   exists blocks,
     format_retrieved_context (QueryResult (docs :: more_docs) (metas :: more_metas))
       = Ok (String.concat (nl +:+ nl) blocks)
     /\ length blocks = min (length docs) (length metas)
     /\ forall i doc meta,
          docs !! i = Some doc -> metas !! i = Some meta ->
          exists file_name,
            dict_get meta "file_name" = Some file_name
            /\ blocks !! i
               = Some ("--- Invoice " +:+ pretty (S i) +:+ " (" +:+ py_str file_name
                       +:+ ") ---" +:+ nl +:+ doc))
  /\ format_retrieved_context (QueryResult ([] :: more_docs) (metas :: more_metas))
     = Ok "".
Proof.
  split; [|done]. intros Hnames.
  unfold format_retrieved_context. simpl.
  set (pairs := zip docs metas).
  set (block := fun item : nat * (string * dict) =>
                  res_bind (getitem (VDict (snd (snd item))) "file_name")
                    (fun file_name =>
                       Ok (context_block (fst item) (fst (snd item)) file_name))).
  rewrite (res_for_pointwise _
             (fun acc item => res_bind (block item) (fun y => Ok (acc ++ [y]))))
    by (intros acc [i [doc meta]]; unfold block; simpl;
        by destruct (dict_get meta "file_name")).
  rewrite res_for_append.
  destruct (res_map_total block (enumerate1 pairs)) as [blocks Hblocks].
  { apply Forall_forall. intros [n [doc meta]] Hin.
    apply list_elem_of_lookup in Hin as [i Hi].
    apply enumerate1_lookup in Hi as [-> Hi].
    unfold pairs in Hi. rewrite lookup_zip_with in Hi.
    destruct (docs !! i) as [doc'|]; [|done]. simpl in Hi.
    destruct (metas !! i) as [meta'|] eqn:Hmeta; [|done]. simpl in Hi.
    injection Hi as -> ->.
    assert (Hn : dict_contains meta "file_name" = true).
    { eapply (proj1 (Forall_forall _ _) Hnames).
      apply list_elem_of_lookup. eauto. }
    unfold block, dict_contains in *. simpl.
    destruct (dict_get meta "file_name"); [by eexists|done]. }
  rewrite Hblocks. simpl. exists blocks. split; [done|].
  apply res_map_Forall2 in Hblocks. split.
  { rewrite <- (Forall2_length _ _ _ Hblocks), enumerate1_length.
    unfold pairs. by rewrite length_zip_with. }
  intros i doc meta Hdoc Hmeta.
  assert (Hi : enumerate1 pairs !! i = Some (S i, (doc, meta))).
  { apply enumerate1_lookup. split; [done|].
    unfold pairs. by rewrite lookup_zip_with, Hdoc, Hmeta. }
  destruct (Forall2_lookup_l _ _ _ _ _ Hblocks Hi) as (b & Hb & Hblock).
  unfold block in Hblock. simpl in Hblock.
  destruct (dict_get meta "file_name") as [file_name|]; [|done].
  injection Hblock as <-. by exists file_name.
Qed.

Lemma format_retrieved_context_blocks_witness :
  exists blocks,
    format_retrieved_context
      (QueryResult [["Invoice: acme.png"; "Invoice: globex.png"]]
                   [[ [("file_name", VStr "acme.png")];
                      [("file_name", VStr "globex.png"); ("source_index", VInt 1)] ]])
      = Ok (String.concat (nl +:+ nl) blocks)
    /\ length blocks = 2
    /\ forall i doc meta,
         ["Invoice: acme.png"; "Invoice: globex.png"] !! i = Some doc ->
         [ [("file_name", VStr "acme.png")];
           [("file_name", VStr "globex.png"); ("source_index", VInt 1)] ] !! i
           = Some meta ->
         exists file_name,
           dict_get meta "file_name" = Some file_name
           /\ blocks !! i
              = Some ("--- Invoice " +:+ pretty (S i) +:+ " (" +:+ py_str file_name
                      +:+ ") ---" +:+ nl +:+ doc).
Proof.
  apply (proj1 (format_retrieved_context_blocks
                  ["Invoice: acme.png"; "Invoice: globex.png"]
                  [ [("file_name", VStr "acme.png")];
                    [("file_name", VStr "globex.png"); ("source_index", VInt 1)] ]
                  [] [])).
  repeat constructor.
Defined.

(** ** The Answer Generator *)

Section Session.
Context {Ext : Type}.
Implicit Types (self : InvoiceRAG Ext) (w : world Ext).

(** C1.  For every query whose retrieval returns zero documents,
    [generate_answer] returns exactly the string
    [No relevant invoices found in the database.]; what it did is print the
    query, call the embedder and query the collection, and nothing else: the
    generation provider was not called. *)
Theorem generate_answer_no_documents self query n_results w
    query_embedding x1 results x2 :
  embedder self query (ext w) = (Ok query_embedding, x1) ->
  collection self [query_embedding] n_results x1 = (Ok results, x2) ->
  first (documents results) = Ok [] ->
  generate_answer self query n_results w
    = (Ok "No relevant invoices found in the database.",
       World (trace w ++ [ Printed (nl +:+ "Query: " +:+ query);
                           Encoded [VStr query];
                           Queried n_results ])
             (files w) (chroma w) x2)
  /\ generation_calls (trace (snd (generate_answer self query n_results w)))
     = generation_calls (trace w).
Proof.
  intros Henc Hquery Hdocs.
  assert (Hrun : generate_answer self query n_results w
    = (Ok "No relevant invoices found in the database.",
       World (trace w ++ [ Printed (nl +:+ "Query: " +:+ query);
                           Encoded [VStr query];
                           Queried n_results ])
             (files w) (chroma w) x2)).
  { unfold generate_answer, retrieve, bind, print, emit, call, lift, ret. simpl.
    rewrite Henc. simpl. rewrite Hquery. simpl. rewrite Hdocs. simpl.
    by rewrite <- !app_assoc. }
  split; [exact Hrun|]. rewrite Hrun. simpl.
  unfold generation_calls. rewrite flat_map_app. simpl. by rewrite app_nil_r.
Qed.

End Session.

Lemma generate_answer_no_documents_witness :
  generate_answer empty_rag "invoices from Acme" 5 start_world
    = (Ok "No relevant invoices found in the database.",
       World (trace start_world
                ++ [ Printed (nl +:+ "Query: " +:+ "invoices from Acme");
                     Encoded [VStr "invoices from Acme"];
                     Queried 5 ])
             (files start_world) (chroma start_world) tt)
  /\ generation_calls
       (trace (snd (generate_answer empty_rag "invoices from Acme" 5 start_world)))
     = generation_calls (trace start_world).
Proof.
  apply (generate_answer_no_documents empty_rag "invoices from Acme" 5 start_world
           [FFinite "0.25" true] tt (QueryResult [[]] [[]]) tt);
    reflexivity.
Defined.

(** ** The interactive session *)

Section Chat.
Context {Ext : Type}.
Implicit Types (self : InvoiceRAG Ext) (w : world Ext).

Lemma is_exit_command_spec query :
  is_exit_command query = true
  <-> lower query = "quit" \/ lower query = "exit" \/ lower query = "q".
Proof.
  unfold is_exit_command. cbn [existsb]. rewrite orb_false_r, !orb_true_iff.
  rewrite !String.eqb_eq. intuition congruence.
Qed.

(** The loop raises only when standard input ends, or when what is raised
    is not an [Exception]. *)
Lemma chat_loop_raises self stdin w e w' :
  chat_loop self stdin w = (Raise e, w') ->
  e = EOFError \/ exists cls msg, e = BaseExc cls msg.
Proof.
  revert w. induction stdin as [|line rest IH]; intros w.
  - cbn [chat_loop]. unfold bind, emit, raise. simpl. intros [= <- _]. by left.
  - cbn [chat_loop]. unfold bind at 1. unfold emit at 1. cbv beta iota zeta.
    destruct (is_exit_command (strip line)); [by unfold print, emit|].
    destruct (String.eqb (strip line) ""); [apply IH|].
    unfold bind at 1. unfold try_except_Exception.
    match goal with |- context [bind ?m ?k ?w0] => destruct (bind m k w0) as [[[]|[cls msg|cls msg]] w1] end.
    + apply IH.
    + unfold print, emit. apply IH.
    + intros [= <- _]. right. eauto.
Qed.

(** C2.  In the interactive session, an input whose stripped, lowercased
    form is [quit], [exit] or [q] ends the loop at once: after the prompt
    only [Goodbye!] is printed, no provider is called and the lines that
    follow are not read.  For any other non-empty input, an error raised
    while the query is processed is caught, reported as [Error: <message>],
    and the loop goes on with the next line.  The session as a whole raises
    only when standard input ends or when what is raised is not an
    [Exception]. *)
Theorem chat_exit_and_resilience self line rest w :
  ((lower (strip line) = "quit" \/ lower (strip line) = "exit"
    \/ lower (strip line) = "q") ->
   chat_loop self (line :: rest) w
   = (Ok tt, World (trace w ++ [Prompted (nl +:+ "You: "); Printed "Goodbye!"])
                   (files w) (chroma w) (ext w)))
  /\ (lower (strip line) <> "quit" -> lower (strip line) <> "exit" ->
      lower (strip line) <> "q" -> strip line <> "" ->
      forall cls msg w',
        generate_answer self (strip line) 5
          (World (trace w ++ [Prompted (nl +:+ "You: ")]) (files w) (chroma w) (ext w))
        = (Raise (Exc cls msg), w') ->
        chat_loop self (line :: rest) w
        = chat_loop self rest
            (World (trace w' ++ [Printed ("Error: " +:+ msg)])
                   (files w') (chroma w') (ext w')))
  /\ (forall stdin e w',
        chat self stdin w = (Raise e, w') ->
        e = EOFError \/ exists cls msg, e = BaseExc cls msg).
Proof.
  split; [|split].
  - intros Hexit. apply is_exit_command_spec in Hexit.
    cbn [chat_loop]. unfold bind, print, emit. simpl. rewrite Hexit.
    simpl. by rewrite <- app_assoc.
  - intros Hquit Hexit Hq Hne cls msg w' Hgen.
    assert (Hcmd : is_exit_command (strip line) = false).
    { apply not_true_is_false. rewrite is_exit_command_spec. tauto. }
    assert (Hempty : String.eqb (strip line) "" = false)
      by (by apply String.eqb_neq).
    cbn [chat_loop]. unfold bind at 1. unfold emit at 1. cbv beta iota zeta.
    rewrite Hcmd, Hempty.
    unfold bind at 1. unfold try_except_Exception.
    unfold bind at 1. simpl. rewrite Hgen. by unfold print, emit.
  - intros stdin e w'. unfold chat, bind, print, emit. simpl.
    apply chat_loop_raises.
Qed.

End Chat.

Lemma chat_exit_and_resilience_witness :
  chat_loop quota_rag ["  QUIT "; "never read"] start_world
  = (Ok tt, World (trace start_world ++ [Prompted (nl +:+ "You: "); Printed "Goodbye!"])
                  (files start_world) (chroma start_world) (ext start_world))
  /\ chat_loop quota_rag [" total for acme? "; "q"] start_world
     = chat_loop quota_rag ["q"]
         (World
            (trace (snd (generate_answer quota_rag "total for acme?" 5
                           (World [Prompted (nl +:+ "You: ")] ∅ ∅ tt)))
               ++ [Printed ("Error: " +:+ "429 quota exceeded")])
            ∅ ∅ tt).
Proof.
  split.
  - apply (proj1 (chat_exit_and_resilience quota_rag "  QUIT " ["never read"]
                    start_world)).
    left. reflexivity.
  - apply (proj1 (proj2 (chat_exit_and_resilience quota_rag " total for acme? "
                           ["q"] start_world))
             ltac:(discriminate) ltac:(discriminate) ltac:(discriminate)
             ltac:(discriminate) "ResourceExhausted" "429 quota exceeded"
             (snd (generate_answer quota_rag "total for acme?" 5
                     (World [Prompted (nl +:+ "You: ")] ∅ ∅ tt)))).
    reflexivity.
Defined.

(** ** The vector store *)

Lemma records_zip_inv (p : policy) ids documents embeddings metadatas rs :
  length documents = length ids ->
  length embeddings = length ids ->
  length metadatas = length ids ->
  res_map (fun r => match r with
                    | (id, (document, (emb, meta))) =>
                        res_bind (as_id id) (fun key =>
                          if accepts p document meta
                          then Ok (key, Entry emb document meta)
                          else Raise (ValueError "Expected a valid document and metadata"))
                    end)
          (zip ids (zip documents (zip embeddings metadatas))) = Ok rs ->
  ids = (fun r => VStr (fst r)) <$> rs
  /\ documents = (fun r => e_document (snd r)) <$> rs
  /\ embeddings = (fun r => e_embedding (snd r)) <$> rs
  /\ metadatas = (fun r => e_metadata (snd r)) <$> rs.
Proof.
  revert documents embeddings metadatas rs.
  induction ids as [|id ids IH];
    intros [|doc docs] [|emb embs] [|meta metas] rs; simpl; try done.
  - by intros _ _ _ [= <-].
  - intros [= Hd] [= He] [= Hm] H.
    apply res_bind_Ok_inv in H as (r & Hr & H).
    apply res_bind_Ok_inv in H as (rs' & Hrs & H). injection H as <-.
    apply res_bind_Ok_inv in Hr as (key & Hkey & Hr).
    destruct (accepts p doc meta); [|done]. injection Hr as <-.
    destruct id; try done. injection Hkey as ->.
    destruct (IH docs embs metas rs' Hd He Hm Hrs) as (-> & -> & -> & ->).
    done.
Qed.

Lemma records_inv (p : policy) ids documents embeddings metadatas rs :
  records p ids documents embeddings metadatas = Ok rs ->
  ids = (fun r => VStr (fst r)) <$> rs
  /\ documents = (fun r => e_document (snd r)) <$> rs
  /\ embeddings = (fun r => e_embedding (snd r)) <$> rs
  /\ metadatas = (fun r => e_metadata (snd r)) <$> rs.
Proof.
  unfold records.
  destruct (Nat.eqb_spec (length documents) (length ids)) as [Hd|]; [|done].
  destruct (Nat.eqb_spec (length embeddings) (length ids)) as [He|]; [|done].
  destruct (Nat.eqb_spec (length metadatas) (length ids)) as [Hm|]; [|done].
  simpl. by apply records_zip_inv.
Qed.

Lemma add_records_inv (p : policy) entries rs entries' :
  add_records p entries rs = Ok entries' ->
  res_for rs (add_record p) entries = Ok entries'.
Proof. unfold add_records. by destruct (_ && _). Qed.

(** Whatever the policy, a stored record is one that was there before or
    one of the added records. *)
Lemma add_record_origin (p : policy) rs entries entries' k e :
  res_for rs (add_record p) entries = Ok entries' ->
  entries' !! k = Some e ->
  entries !! k = Some e \/ (k, e) ∈ rs.
Proof.
  revert entries. induction rs as [|[k0 e0] rs IH]; intros entries; simpl.
  - intros [= <-]. by left.
  - intros H He. apply res_bind_Ok_inv in H as (entries1 & H1 & H).
    destruct (IH _ H He) as [Hin|Hin]; [|right; by right].
    unfold add_record in H1. simpl in H1.
    assert (Hcases : entries1 = <[k0 := e0]> entries \/ entries1 = entries).
    { destruct (entries !! k0); [destruct (existing_id p)|]; try done;
        injection H1 as <-; auto. }
    destruct Hcases as [-> | ->]; [|by left].
    destruct (decide (k0 = k)) as [->|Hne].
    + rewrite lookup_insert_eq in Hin. injection Hin as ->. right. by left.
    + rewrite lookup_insert_ne in Hin by done. by left.
Qed.

(** Every added record leaves its id stored. *)
Lemma add_record_stored (p : policy) rs entries entries' k :
  res_for rs (add_record p) entries = Ok entries' ->
  is_Some (entries !! k) \/ k ∈ rs.*1 ->
  is_Some (entries' !! k).
Proof.
  revert entries. induction rs as [|[k0 e0] rs IH]; intros entries; simpl.
  - intros [= <-] [H|H]; [done|by apply elem_of_nil in H].
  - intros H Hk. apply res_bind_Ok_inv in H as (entries1 & H1 & H).
    apply (IH _ H).
    unfold add_record in H1. simpl in H1.
    destruct (decide (k0 = k)) as [->|Hne].
    + left. destruct (entries !! k) eqn:Hlook;
        [destruct (existing_id p)|]; try done; injection H1 as <-;
        rewrite ?lookup_insert_eq, ?Hlook; done.
    + destruct Hk as [Hk|Hk].
      * left. destruct (entries !! k0);
          [destruct (existing_id p)|]; try done; injection H1 as <-;
          rewrite ?lookup_insert_ne by done; done.
      * apply elem_of_cons in Hk as [->|Hk]; [done|by right].
Qed.

(** With pairwise-distinct fresh ids every record is inserted. *)
Lemma add_record_fresh (p : policy) rs entries :
  NoDup rs.*1 ->
  (forall k, k ∈ rs.*1 -> entries !! k = None) ->
  exists entries',
    res_for rs (add_record p) entries = Ok entries'
    /\ size entries' = size entries + length rs
    /\ forall k e, (k, e) ∈ rs -> entries' !! k = Some e.
Proof.
  revert entries. induction rs as [|[k0 e0] rs IH]; intros entries Hnd Hfresh.
  - exists entries. simpl. split; [done|]. split; [lia|].
    intros k e H. by apply elem_of_nil in H.
  - simpl in Hnd. apply NoDup_cons in Hnd as [Hk0 Hnd].
    simpl. unfold add_record at 1. simpl.
    rewrite (Hfresh k0) by (simpl; by left). simpl.
    destruct (IH (<[k0 := e0]> entries) Hnd) as (entries' & Hrun & Hsize & Hall).
    { intros k Hk. rewrite lookup_insert_ne; [apply Hfresh; simpl; by right|].
      intros ->. done. }
    exists entries'. split; [done|]. split.
    + rewrite Hsize, map_size_insert_None by (apply Hfresh; simpl; by left).
      simpl. lia.
    + intros k e Hin. apply elem_of_cons in Hin as [[= -> ->]|Hin]; [|by apply Hall].
      assert (Hs : is_Some (entries' !! k0)).
      { eapply add_record_stored; [exact Hrun|]. left.
        rewrite lookup_insert_eq. by eexists. }
      destruct Hs as [e Hs].
      destruct (add_record_origin _ _ _ _ _ _ Hrun Hs) as [Ho|Ho].
      * rewrite lookup_insert_eq in Ho. by rewrite Hs, Ho.
      * exfalso. apply Hk0. apply list_elem_of_fmap. by exists (k0, e).
Qed.

(** ** The batches *)

(** The batches of the loop, put end to end, are the chunk list. *)
Lemma batches_concat {A} (l : list A) (n m : nat) :
  0 < n -> length l <= m * n ->
  concat (map (fun i => take n (drop i l)) (map (fun k => k * n) (seq 0 m))) = l.
Proof.
  intros Hn. revert l. induction m as [|m IH]; intros l Hlen.
  - simpl in *. destruct l; [done|simpl in Hlen; lia].
  - cbn [seq map concat]. rewrite <- seq_shift. simpl.
    transitivity (take n l ++ drop n l); [f_equal|apply take_drop].
    etransitivity; [|apply (IH (drop n l)); rewrite length_drop; lia].
    f_equal. rewrite !map_map. apply map_ext. intros k.
    rewrite drop_drop; repeat f_equal; lia.
Qed.

Lemma py_range_batches {A} (l : list A) (batch_size : Z) starts :
  (1 <= batch_size)%Z ->
  py_range (length l) batch_size = Ok starts ->
  concat (map (fun i => take (Z.to_nat batch_size) (drop i l)) starts) = l.
Proof.
  intros Hb. unfold py_range.
  destruct (Z.eqb_spec batch_size 0); [lia|].
  destruct (Z.ltb_spec batch_size 0); [lia|].
  intros [= <-]. apply batches_concat; [lia|].
  set (size := Z.to_nat batch_size). assert (0 < size) by lia.
  pose proof (Nat.div_mod (length l + size - 1) size ltac:(lia)) as Hdiv.
  pose proof (Nat.mod_upper_bound (length l + size - 1) size ltac:(lia)) as Hmod.
  nia.
Qed.

(** ** The Indexer *)

Section Build.
Context {Ext : Type}.
Implicit Types (w : world Ext).

Lemma bind_Ok_inv {A B} (m : M Ext A) (k : A -> M Ext B) w b w' :
  bind m k w = (Ok b, w') ->
  exists a w1, m w = (Ok a, w1) /\ k a w1 = (Ok b, w').
Proof.
  unfold bind. destruct (m w) as [[a|e] w1]; [eauto|done].
Qed.

Lemma lift_Ok_inv {A} (r : res A) w a w' :
  lift r w = (Ok a, w') -> r = Ok a /\ w' = w.
Proof. unfold lift. by intros [= -> ->]. Qed.

Lemma call_Ok_inv {A} (e : event) (f : Ext -> res A * Ext) w a w' :
  call e f w = (Ok a, w') ->
  f (ext w) = (Ok a, ext w') /\ files w' = files w /\ chroma w' = chroma w.
Proof.
  unfold call. destruct (f (ext w)) as [r x]. by intros [= -> <-].
Qed.

Lemma collection_add_Ok_inv (p : policy) h ids documents embeddings metadatas w w' :
  collection_add p h ids documents embeddings metadatas w = (Ok tt, w') ->
  exists c rs entries,
    chroma w !! h = Some c
    /\ records p ids documents embeddings metadatas = Ok rs
    /\ res_for rs (add_record p) (c_entries c) = Ok entries
    /\ chroma w' = <[h := Collection (c_metadata c) entries]> (chroma w)
    /\ files w' = files w.
Proof.
  unfold collection_add. destruct (chroma w !! h) as [c|]; [|done].
  destruct (records p ids documents embeddings metadatas) as [rs|] eqn:Hrs;
    [|done]. simpl.
  destruct (add_records p (c_entries c) rs) as [entries|] eqn:Hadd; [|done].
  intros [= <-]. exists c, rs, entries. repeat split; try done.
  by apply add_records_inv.
Qed.

Lemma batch_metadatas_Forall2 batch metadatas :
  batch_metadatas batch = Ok metadatas <->
  Forall2 (fun chunk meta => chunk_meta chunk = Ok meta) batch metadatas.
Proof.
  unfold batch_metadatas. rewrite (res_for_append chunk_meta).
  rewrite <- res_map_Forall2. by destruct (res_map chunk_meta batch).
Qed.

Lemma Forall2_conj {A B} (P Q : A -> B -> Prop) (l : list A) (k : list B) :
  Forall2 P l k -> Forall2 Q l k -> Forall2 (fun x y => P x y /\ Q x y) l k.
Proof.
  intros HP. revert Q. induction HP; intros Q HQ; inversion HQ; subst;
    constructor; auto.
Qed.

Lemma Forall2_same {A} (Q : A -> A -> Prop) (l : list A) :
  Forall2 Q l l -> Forall (fun x => Q x x) l.
Proof.
  induction l as [|x l IH]; [constructor|].
  inversion 1; subst. constructor; auto.
Qed.

Variable SentenceTransformer :
  string -> list value -> Ext -> res (list embedding) * Ext.
Variable p : policy.
Variable model : string.

(** What is known of the embeddings the provider returns. *)
Variable good : value -> embedding -> Prop.
Hypothesis good_embeddings :
  forall texts x embeddings x',
    SentenceTransformer model texts x = (Ok embeddings, x') ->
    length embeddings = length texts ->
    Forall2 good texts embeddings.

(** One successful iteration of the batch loop adds the records of its
    batch, one after the other, to the collection. *)
Lemma index_batch_Ok_inv h (chunks : list value) batch_size i w w' c :
  index_batch p (SentenceTransformer model) h (VList chunks) batch_size i w
    = (Ok tt, w') ->
  chroma w !! h = Some c ->
  exists rs entries,
    Forall2 (stored_as good) (take (Z.to_nat batch_size) (drop i chunks)) rs
    /\ res_for rs (add_record p) (c_entries c) = Ok entries
    /\ chroma w' = <[h := Collection (c_metadata c) entries]> (chroma w)
    /\ files w' = files w.
Proof.
  unfold index_batch. intros H Hc.
  apply bind_Ok_inv in H as (batch & w1 & Hbatch & H).
  apply lift_Ok_inv in Hbatch as [Hbatch ->]. simpl in Hbatch.
  injection Hbatch as <-.
  apply bind_Ok_inv in H as (ids & w1 & Hids & H).
  apply lift_Ok_inv in Hids as [Hids ->].
  apply bind_Ok_inv in H as (texts & w1 & Htexts & H).
  apply lift_Ok_inv in Htexts as [Htexts ->].
  apply bind_Ok_inv in H as (metadatas & w1 & Hmetas & H).
  apply lift_Ok_inv in Hmetas as [Hmetas ->].
  apply bind_Ok_inv in H as (embeddings & w1 & Hembs & H).
  apply call_Ok_inv in Hembs as (Hembs & Hfiles & Hchroma).
  apply collection_add_Ok_inv in H
    as (c' & rs & entries & Hc' & Hrs & Hadd & Hchroma' & Hfiles').
  rewrite Hchroma, Hc in Hc'. injection Hc' as <-.
  exists rs, entries. split; [|by rewrite Hchroma', Hchroma, Hfiles', Hfiles].
  apply records_inv in Hrs as (Hi & Ht & He & Hm).
  apply res_map_Forall2 in Hids. apply res_map_Forall2 in Htexts.
  apply batch_metadatas_Forall2 in Hmetas.
  assert (Hgood : Forall2 good texts embeddings).
  { eapply good_embeddings; [exact Hembs|].
    rewrite He, Ht, !length_fmap. done. }
  rewrite Hi in Hids. rewrite Ht in Htexts, Hgood. rewrite Hm in Hmetas.
  rewrite He in Hgood.
  apply Forall2_fmap_r in Hids. apply Forall2_fmap_r in Htexts.
  apply Forall2_fmap_r in Hmetas. apply Forall2_fmap_1 in Hgood.
  unfold stored_as.
  apply Forall2_conj; [exact Hids|].
  apply Forall2_conj; [exact Htexts|].
  apply Forall2_conj; [exact Hmetas|].
  apply Forall_Forall2_r; [by eapply Forall2_length|].
  apply Forall2_same in Hgood.
  eapply Forall_impl; [exact Hgood|]. by intros r Hr _.
Qed.


(** The whole loop adds the records of all the batches, in order. *)
Lemma index_loop_Ok_inv h (chunks : list value) batch_size starts w w' c :
  for_each starts
    (index_batch p (SentenceTransformer model) h (VList chunks) batch_size) w
    = (Ok tt, w') ->
  chroma w !! h = Some c ->
  exists rs entries,
    Forall2 (stored_as good)
      (concat (map (fun i => take (Z.to_nat batch_size) (drop i chunks)) starts)) rs
    /\ res_for rs (add_record p) (c_entries c) = Ok entries
    /\ chroma w' = <[h := Collection (c_metadata c) entries]> (chroma w)
    /\ files w' = files w.
Proof.
  revert w c. induction starts as [|i starts IH]; intros w c; simpl.
  - unfold ret. intros [= <-] Hc. exists [], (c_entries c). simpl.
    repeat split; try done. rewrite insert_id; [done|]. by destruct c.
  - intros H Hc. apply bind_Ok_inv in H as ([] & w1 & Hbatch & H).
    destruct (index_batch_Ok_inv _ _ _ _ _ _ _ Hbatch Hc)
      as (rs1 & entries1 & Hrs1 & Hadd1 & Hchroma1 & Hfiles1).
    destruct (IH w1 (Collection (c_metadata c) entries1) H)
      as (rs2 & entries2 & Hrs2 & Hadd2 & Hchroma2 & Hfiles2).
    { by rewrite Hchroma1, lookup_insert_eq. }
    simpl in *. exists (rs1 ++ rs2), entries2. repeat split.
    + by apply Forall2_app.
    + by rewrite res_for_app, Hadd1.
    + by rewrite Hchroma2, Hchroma1, insert_insert_eq.
    + by rewrite Hfiles2.
Qed.

Lemma print_Ok_inv text w (a : unit) w' :
  print text w = (Ok a, w') ->
  files w' = files w /\ chroma w' = chroma w /\ ext w' = ext w.
Proof. unfold print, emit. by intros [= <- <-]. Qed.

(** The old collection, if there is one, is gone before the new one is
    created: the build starts from the empty collection. *)
Lemma recreate_collection db_path name metadata w h w' :
  bind (try_except_pass
          (bind (delete_collection db_path name)
                (fun _ => print "Deleted existing collection")))
       (fun _ => create_collection db_path name metadata) w = (Ok h, w') ->
  h = (db_path, name)
  /\ chroma w' = <[(db_path, name) := Collection metadata ∅]> (chroma w)
  /\ files w' = files w.
Proof.
  unfold bind, try_except_pass, delete_collection, create_collection, print, emit.
  destruct (chroma w !! (db_path, name)) as [c|] eqn:Hc; simpl.
  - rewrite lookup_delete_eq. intros [= <- <-]. simpl.
    by rewrite insert_delete_eq.
  - rewrite Hc. by intros [= <- <-].
Qed.

(** A successful build leaves, under the collection's name, the records of
    the chunks added one after the other to the empty collection. *)
Lemma build_Ok_inv chunks_file db_path name batch_size w h w' (chunks : list value) :
  files w !! chunks_file = Some (VList chunks) ->
  (1 <= batch_size)%Z ->
  build_invoice_vectordb SentenceTransformer p chunks_file db_path name model
    batch_size w = (Ok h, w') ->
  h = (db_path, name)
  /\ exists rs entries,
       Forall2 (stored_as good) chunks rs
       /\ res_for rs (add_record p) ∅ = Ok entries
       /\ chroma w' = <[(db_path, name) := Collection cosine entries]> (chroma w).
Proof.
  intros Hfile Hb H. unfold build_invoice_vectordb in H.
  apply bind_Ok_inv in H as (? & w1 & Hs1 & H). apply print_Ok_inv in Hs1 as (Hf1 & Hc1 & _).
  apply bind_Ok_inv in H as (? & w2 & Hs2 & H). apply print_Ok_inv in Hs2 as (Hf2 & Hc2 & _).
  apply bind_Ok_inv in H as (v & w3 & Hs3 & H).
  unfold read_json in Hs3. rewrite Hf2, Hf1, Hfile in Hs3. injection Hs3 as <- <-.
  apply bind_Ok_inv in H as (n & w4 & Hs4 & H).
  apply lift_Ok_inv in Hs4 as [Hn ->]. simpl in Hn. injection Hn as <-.
  apply bind_Ok_inv in H as (? & w5 & Hs5 & H). apply print_Ok_inv in Hs5 as (Hf5 & Hc5 & _).
  apply bind_Ok_inv in H as (? & w6 & Hs6 & H). apply print_Ok_inv in Hs6 as (Hf6 & Hc6 & _).
  apply bind_Ok_inv in H as (? & w7 & Hs7 & H). apply print_Ok_inv in Hs7 as (Hf7 & Hc7 & _).
  apply bind_Ok_inv in H as (? & w8 & Hs8 & H).
  apply bind_Ok_inv in H as (h' & w9 & Hs9 & H).
  assert (Hre : h' = (db_path, name)
                /\ chroma w9 = <[(db_path, name) := Collection cosine ∅]> (chroma w7)
                /\ files w9 = files w7).
  { apply recreate_collection. unfold bind at 1. by rewrite Hs8. }
  destruct Hre as (-> & Hc9 & Hf9). clear Hs8 Hs9.
  apply bind_Ok_inv in H as (? & w10 & Hs10 & H). apply print_Ok_inv in Hs10 as (Hf10 & Hc10 & _).
  apply bind_Ok_inv in H as (starts & w11 & Hs11 & H).
  apply lift_Ok_inv in Hs11 as [Hstarts ->].
  apply bind_Ok_inv in H as ([] & w12 & Hloop & H).
  destruct (index_loop_Ok_inv _ _ _ _ _ _ (Collection cosine ∅) Hloop)
    as (rs & entries & Hrs & Hadd & Hc12 & Hf12).
  { by rewrite Hc10, Hc9, lookup_insert_eq. }
  rewrite (py_range_batches _ _ _ Hb Hstarts) in Hrs.
  apply bind_Ok_inv in H as (? & w13 & Hs13 & H). apply print_Ok_inv in Hs13 as (Hf13 & Hc13 & _).
  apply bind_Ok_inv in H as (? & w14 & Hs14 & H). apply print_Ok_inv in Hs14 as (Hf14 & Hc14 & _).
  apply bind_Ok_inv in H as (? & w15 & Hs15 & H). apply print_Ok_inv in Hs15 as (Hf15 & Hc15 & _).
  apply bind_Ok_inv in H as (count & w16 & Hs16 & H).
  assert (Hc16 : chroma w16 = chroma w15).
  { unfold collection_count in Hs16.
    match type of Hs16 with
    | match ?x with _ => _ end = _ => destruct x; [|discriminate Hs16]
    end.
    by injection Hs16 as _ <-. }
  apply bind_Ok_inv in H as (? & w17 & Hs17 & H). apply print_Ok_inv in Hs17 as (Hf17 & Hc17 & _).
  unfold ret in H. injection H as <- <-.
  split; [done|]. exists rs, entries. repeat split; try done.
  rewrite Hc17, Hc16, Hc15, Hc14, Hc13, Hc12, Hc10, Hc9, Hc7, Hc6, Hc5, Hc2, Hc1.
  simpl. by rewrite insert_insert_eq.
Qed.

End Build.

Lemma chunk_meta_Ok_inv chunk meta :
  chunk_meta chunk = Ok meta ->
  exists metadata file_name source_index has_image,
    getitem chunk "metadata" = Ok metadata
    /\ getitem metadata "file_name" = Ok file_name
    /\ getitem metadata "source_index" = Ok source_index
    /\ getitem metadata "has_image" = Ok has_image
    /\ meta = [ ("file_name", file_name);
                ("source_index", source_index);
                ("has_image", has_image) ].
Proof.
  unfold chunk_meta. intros H.
  apply res_bind_Ok_inv in H as (metadata & Hm & H).
  apply res_bind_Ok_inv in H as (file_name & Hfn & H).
  apply res_bind_Ok_inv in H as (metadata1 & Hm1 & H).
  apply res_bind_Ok_inv in H as (source_index & Hsi & H).
  apply res_bind_Ok_inv in H as (metadata2 & Hm2 & H).
  apply res_bind_Ok_inv in H as (has_image & Hhi & H).
  assert (metadata1 = metadata) as -> by congruence.
  assert (metadata2 = metadata) as -> by congruence.
  injection H as <-.
  by exists metadata, file_name, source_index, has_image.
Qed.

(** When the embedding of a text is a function of the text, the record
    stored for a chunk is a function of the chunk. *)
Lemma stored_as_functional (encode : value -> embedding) chunks rs1 rs2 :
  Forall2 (stored_as (fun text emb => emb = encode text)) chunks rs1 ->
  Forall2 (stored_as (fun text emb => emb = encode text)) chunks rs2 ->
  rs1 = rs2.
Proof.
  intros H1. revert rs2. induction H1 as [|chunk r1 chunks rs1 Hr1 _ IH];
    intros rs2 H2; inversion H2 as [|? r2 ? rs2' Hr2 Hrest]; subst; [done|].
  f_equal; [|by apply IH].
  destruct r1 as [k1 [emb1 doc1 meta1]], r2 as [k2 [emb2 doc2 meta2]].
  destruct Hr1 as (Hi1 & Ht1 & Hm1 & He1), Hr2 as (Hi2 & Ht2 & Hm2 & He2).
  simpl in *. congruence.
Qed.

Section BuildProperties.
Context {Ext : Type}.
Variable SentenceTransformer :
  string -> list value -> Ext -> res (list embedding) * Ext.
Variable p : policy.
Variable model : string.
Implicit Types (w : world Ext).

Lemma any_embeddings texts x (embeddings : list embedding) x' :
  SentenceTransformer model texts x = (Ok embeddings, x') ->
  length embeddings = length texts ->
  Forall2 (fun _ _ => True) texts embeddings.
Proof. intros _ Hlen. by apply Forall2_true. Qed.

(** Two successful builds over the same chunk list leave the same
    collection, whatever the batch sizes and whatever the store held. *)
Lemma build_deterministic (encode : value -> embedding)
    file1 file2 db_path name b1 b2 w1 w2 h1 h2 w1' w2' (chunks : list value) :
  (forall texts x embeddings x',
     SentenceTransformer model texts x = (Ok embeddings, x') ->
     embeddings = encode <$> texts) ->
  files w1 !! file1 = Some (VList chunks) ->
  files w2 !! file2 = Some (VList chunks) ->
  (1 <= b1)%Z -> (1 <= b2)%Z ->
  build_invoice_vectordb SentenceTransformer p file1 db_path name model b1 w1
    = (Ok h1, w1') ->
  build_invoice_vectordb SentenceTransformer p file2 db_path name model b2 w2
    = (Ok h2, w2') ->
  h1 = h2
  /\ exists entries,
       chroma w1' = <[(db_path, name) := Collection cosine entries]> (chroma w1)
       /\ chroma w2' = <[(db_path, name) := Collection cosine entries]> (chroma w2).
Proof.
  intros Hdet Hf1 Hf2 Hb1 Hb2 H1 H2.
  assert (Hgood : forall texts x embeddings x',
            SentenceTransformer model texts x = (Ok embeddings, x') ->
            length embeddings = length texts ->
            Forall2 (fun text emb => emb = encode text) texts embeddings).
  { intros texts x embeddings x' Hcall _. rewrite (Hdet _ _ _ _ Hcall).
    apply Forall2_fmap_r. by apply Forall_Forall2_diag, Forall_forall. }
  destruct (build_Ok_inv SentenceTransformer p model _ Hgood _ _ _ _ _ _ _ _
              Hf1 Hb1 H1) as (-> & rs1 & entries1 & Hrs1 & Hadd1 & Hc1).
  destruct (build_Ok_inv SentenceTransformer p model _ Hgood _ _ _ _ _ _ _ _
              Hf2 Hb2 H2) as (-> & rs2 & entries2 & Hrs2 & Hadd2 & Hc2).
  split; [done|].
  assert (rs2 = rs1) as -> by (symmetry; by eapply stored_as_functional).
  assert (entries2 = entries1) as -> by congruence.
  by exists entries1.
Qed.


Lemma stored_ids_NoDup (good : value -> embedding -> Prop) chunks rs :
  Forall2 (stored_as good) chunks rs -> NoDup (chunk_ids chunks) -> NoDup rs.*1.
Proof.
  intros Hrs Hnd.
  apply (NoDup_fmap_1 (fun k => Ok (VStr k))).
  replace ((fun k => Ok (VStr k)) <$> rs.*1) with (chunk_ids chunks); [done|].
  unfold chunk_ids. rewrite <- list_fmap_compose.
  apply list_eq_Forall2, Forall2_fmap_2.
  eapply Forall2_impl; [exact Hrs|]. by intros chunk r (Hid & _).
Qed.



(** C10.  After a successful build (batch size at least 1), every entry of
    the collection carries as metadata exactly the three entries
    [file_name], [source_index] and [has_image], read from the metadata of
    a chunk with the entry's id; no [structured_data] entry, nor any other
    entry of the chunk's metadata, is stored.  Every chunk's id is stored. *)
Theorem indexed_metadata_three_keys
    chunks_file db_path name batch_size w h w' (chunks : list value) :
  files w !! chunks_file = Some (VList chunks) ->
  (1 <= batch_size)%Z ->
  build_invoice_vectordb SentenceTransformer p chunks_file db_path name model
    batch_size w = (Ok h, w') ->
  exists entries,
    chroma w' !! (db_path, name) = Some (Collection cosine entries)
    /\ (forall id e, entries !! id = Some e ->
          exists chunk metadata file_name source_index has_image,
            chunk ∈ chunks
            /\ getitem chunk "id" = Ok (VStr id)
            /\ getitem chunk "metadata" = Ok metadata
            /\ getitem metadata "file_name" = Ok file_name
            /\ getitem metadata "source_index" = Ok source_index
            /\ getitem metadata "has_image" = Ok has_image
            /\ e_metadata e = [ ("file_name", file_name);
                                ("source_index", source_index);
                                ("has_image", has_image) ]
            /\ dict_get (e_metadata e) "structured_data" = None)
    /\ (forall chunk, chunk ∈ chunks ->
          exists id, getitem chunk "id" = Ok (VStr id) /\ is_Some (entries !! id)).
Proof.
  intros Hfile Hb Hbuild.
  destruct (build_Ok_inv SentenceTransformer p model _ any_embeddings
              _ _ _ _ _ _ _ _ Hfile Hb Hbuild)
    as (-> & rs & entries & Hrs & Hadd & Hchroma).
  exists entries. split; [by rewrite Hchroma, lookup_insert_eq|]. split.
  - intros id e He.
    destruct (add_record_origin _ _ _ _ _ _ Hadd He) as [Hin|Hin];
      [by rewrite lookup_empty in Hin|].
    apply list_elem_of_lookup in Hin as [i Hi].
    destruct (Forall2_lookup_r _ _ _ _ _ Hrs Hi)
      as (chunk & Hchunk & Hid & _ & Hmeta & _).
    simpl in *.
    apply chunk_meta_Ok_inv in Hmeta as (m & fn & si & hi & Hm & Hfn & Hsi & Hhi & Hmeta).
    exists chunk, m, fn, si, hi. repeat split; try done.
    + apply list_elem_of_lookup. eauto.
    + by rewrite Hmeta.
  - intros chunk Hin. apply list_elem_of_lookup in Hin as [i Hi].
    destruct (Forall2_lookup_l _ _ _ _ _ Hrs Hi) as ([id e] & Hr & Hid & _).
    exists id. split; [done|].
    eapply add_record_stored; [exact Hadd|]. right.
    apply list_elem_of_fmap. exists (id, e). split; [done|].
    apply list_elem_of_lookup. eauto.
Qed.

End BuildProperties.

Lemma example_transformer_pointwise texts x embeddings x' :
  example_transformer "all-MiniLM-L6-v2" texts x = (Ok embeddings, x') ->
  embeddings = example_encode <$> texts.
Proof. by intros [= <- _]. Qed.

Lemma example_build_run (batch_size : Z) :
  batch_size = 1%Z \/ batch_size = 2%Z \/ batch_size = 32%Z ->
  build_invoice_vectordb example_transformer example_policy
    "data/chunks.json" "./chroma_db" "invoices_collection" "all-MiniLM-L6-v2"
    batch_size index_world
  = (Ok ("./chroma_db", "invoices_collection"), indexed_world batch_size).
Proof. intros [-> | [-> | ->]]; vm_compute; reflexivity. Qed.

Lemma example_chunk_ids_NoDup : NoDup (chunk_ids example_chunks).
Proof.
  unfold chunk_ids, example_chunks. simpl.
  repeat (apply NoDup_cons_2;
          [intros H;
           repeat (apply elem_of_cons in H as [H|H]; [discriminate H|]);
           by apply elem_of_nil in H|]).
  apply NoDup_nil_2.
Qed.



Lemma indexed_metadata_three_keys_witness :
  exists entries,
    chroma (indexed_world 2) !! ("./chroma_db", "invoices_collection")
      = Some (Collection cosine entries)
    /\ forall chunk, chunk ∈ example_chunks ->
         exists id, getitem chunk "id" = Ok (VStr id) /\ is_Some (entries !! id).
Proof.
  destruct (indexed_metadata_three_keys example_transformer example_policy
              "all-MiniLM-L6-v2" "data/chunks.json" "./chroma_db"
              "invoices_collection" 2 index_world
              ("./chroma_db", "invoices_collection") (indexed_world 2)
              example_chunks)
    as (entries & Hstored & _ & Hids).
  - reflexivity.
  - lia.
  - apply example_build_run. auto.
  - exists entries. split; [exact Hstored|exact Hids].
Defined.

(** ** The build goes through *)

Lemma records_zip_total (p : policy) keys documents embeddings metadatas :
  length documents = length keys ->
  length embeddings = length keys ->
  length metadatas = length keys ->
  (forall document meta, accepts p document meta = true) ->
  exists rs,
    res_map (fun r => match r with
                      | (id, (document, (emb, meta))) =>
                          res_bind (as_id id) (fun key =>
                            if accepts p document meta
                            then Ok (key, Entry emb document meta)
                            else Raise (ValueError "Expected a valid document and metadata"))
                      end)
            (zip (VStr <$> keys) (zip documents (zip embeddings metadatas))) = Ok rs
    /\ rs.*1 = keys.
Proof.
  intros Hd He Hm Hacc. revert documents embeddings metadatas Hd He Hm.
  induction keys as [|key keys IH];
    intros [|doc docs] [|emb embs] [|meta metas]; simpl; try done.
  - intros _ _ _. by exists [].
  - intros [= Hd] [= He] [= Hm].
    destruct (IH docs embs metas Hd He Hm) as (rs & Hrs & Hkeys).
    rewrite Hacc. simpl.
    change (list_fmap string value VStr keys) with (VStr <$> keys).
    rewrite Hrs. simpl.
    eexists. split; [done|]. rewrite fmap_cons. simpl. by f_equal.
Qed.

Lemma records_total (p : policy) keys documents embeddings metadatas :
  length documents = length keys ->
  length embeddings = length keys ->
  length metadatas = length keys ->
  (forall document meta, accepts p document meta = true) ->
  exists rs,
    records p (VStr <$> keys) documents embeddings metadatas = Ok rs
    /\ rs.*1 = keys.
Proof.
  intros Hd He Hm Hacc. unfold records.
  rewrite length_fmap, Hd, He, Hm, !Nat.eqb_refl. simpl.
  by apply records_zip_total.
Qed.

Lemma add_records_fresh (p : policy) rs entries :
  NoDup rs.*1 ->
  (forall k, k ∈ rs.*1 -> entries !! k = None) ->
  exists entries',
    add_records p entries rs = Ok entries'
    /\ forall k, is_Some (entries' !! k) -> is_Some (entries !! k) \/ k ∈ rs.*1.
Proof.
  intros Hnd Hfresh.
  destruct (add_record_fresh p rs entries Hnd Hfresh) as (entries' & Hrun & _ & _).
  exists entries'. split.
  - unfold add_records. rewrite bool_decide_eq_true_2 by exact Hnd.
    by rewrite andb_false_r.
  - intros k [e He].
    destruct (add_record_origin _ _ _ _ _ _ Hrun He) as [Ho|Ho]; [left; eauto|].
    right. apply list_elem_of_fmap. by exists (k, e).
Qed.

Lemma well_formed_chunk_inv chunk :
  well_formed_chunk chunk = true ->
  exists key text meta,
    getitem chunk "id" = Ok (VStr key)
    /\ getitem chunk "text" = Ok text
    /\ chunk_meta chunk = Ok meta.
Proof.
  unfold well_formed_chunk.
  destruct (getitem chunk "id") as [[| | | |key| |]|]; try done.
  destruct (getitem chunk "text") as [text|]; [|done].
  destruct (chunk_meta chunk) as [meta|]; [|done].
  intros _. by exists key, text, meta.
Qed.

(** What the three comprehensions of the loop body yield on well-formed
    chunks. *)
Lemma batch_fields_total batch :
  Forall (fun chunk => well_formed_chunk chunk = true) batch ->
  exists keys texts metadatas,
    res_map (fun chunk => getitem chunk "id") batch = Ok (VStr <$> keys)
    /\ res_map (fun chunk => getitem chunk "text") batch = Ok texts
    /\ batch_metadatas batch = Ok metadatas
    /\ length keys = length batch
    /\ length texts = length batch
    /\ length metadatas = length batch
    /\ chunk_ids batch = (fun key => Ok (VStr key)) <$> keys.
Proof.
  induction 1 as [|chunk batch Hwf _ IH].
  - exists [], [], []. by repeat split.
  - destruct IH as (keys & texts & metas & Hk & Ht & Hm & Hlk & Hlt & Hlm & Hids).
    apply well_formed_chunk_inv in Hwf as (key & text & meta & Hkey & Htext & Hmeta).
    exists (key :: keys), (text :: texts), (meta :: metas).
    apply batch_metadatas_Forall2 in Hm.
    repeat split; simpl; try (f_equal; done);
      try (by rewrite Hkey, Hk); try (by rewrite Htext, Ht);
      try (apply batch_metadatas_Forall2; by constructor);
      try (unfold chunk_ids in *; rewrite !fmap_cons; by rewrite Hkey, Hids).
Qed.

Section BuildTotal.
Context {Ext : Type}.
Variable SentenceTransformer :
  string -> list value -> Ext -> res (list embedding) * Ext.
Variable p : policy.
Variable model : string.
Implicit Types (w : world Ext).

(** The provider answers every call with one embedding per text, and the
    store accepts every document and metadata. *)
Hypothesis embedder_total :
  forall texts x, exists embeddings x',
    SentenceTransformer model texts x = (Ok embeddings, x')
    /\ length embeddings = length texts.
Hypothesis accepts_all : forall document meta, accepts p document meta = true.

Lemma index_batch_total h (chunks : list value) batch_size i w c :
  Forall (fun chunk => well_formed_chunk chunk = true) chunks ->
  chroma w !! h = Some c ->
  NoDup (chunk_ids (take (Z.to_nat batch_size) (drop i chunks))) ->
  (forall k, Ok (VStr k) ∈ chunk_ids (take (Z.to_nat batch_size) (drop i chunks)) ->
             c_entries c !! k = None) ->
  exists w' entries,
    index_batch p (SentenceTransformer model) h (VList chunks) batch_size i w
      = (Ok tt, w')
    /\ chroma w' = <[h := Collection (c_metadata c) entries]> (chroma w)
    /\ files w' = files w
    /\ (forall k, is_Some (entries !! k) ->
          is_Some (c_entries c !! k)
          \/ Ok (VStr k) ∈ chunk_ids (take (Z.to_nat batch_size) (drop i chunks))).
Proof.
  intros Hwf Hc Hnd Hfresh.
  destruct (batch_fields_total (take (Z.to_nat batch_size) (drop i chunks)))
    as (keys & texts & metas & Hk & Ht & Hm & Hlk & Hlt & Hlm & Hids).
  { by apply Forall_take, Forall_drop. }
  destruct (embedder_total texts (ext w)) as (embs & x' & Hcall & Hle).
  destruct (records_total p keys texts embs metas) as (rs & Hrs & Hkeys);
    [lia|lia|lia|exact accepts_all|].
  rewrite Hids in Hnd, Hfresh.
  apply NoDup_fmap_1 in Hnd.
  destruct (add_records_fresh p rs (c_entries c)) as (entries & Hadd & Horigin).
  { by rewrite Hkeys. }
  { intros k Hin. apply Hfresh. rewrite Hkeys in Hin.
    by apply (list_elem_of_fmap_2 (fun key => Ok (VStr key))). }
  exists (World (trace w ++ [Encoded texts]) (files w)
            (<[h := Collection (c_metadata c) entries]> (chroma w)) x'), entries.
  split; [|split; [done|split; [done|]]].
  - unfold index_batch, bind, lift, call, collection_add. cbn [batch_of].
    rewrite Hk, Ht, Hm, Hcall. cbn [chroma]. rewrite Hc, Hrs. cbn [res_bind].
    by rewrite Hadd.
  - intros k Hsome. destruct (Horigin k Hsome) as [Ho|Ho]; [by left|right].
    rewrite Hids, <- Hkeys. by apply (list_elem_of_fmap_2 (fun key => Ok (VStr key))).
Qed.


Lemma bind_Ok {A B} (m : M Ext A) (k : A -> M Ext B) w a w1 :
  m w = (Ok a, w1) -> bind m k w = k a w1.
Proof. unfold bind. by intros ->. Qed.

Lemma chunk_ids_split (chunks : list value) i n :
  chunk_ids chunks
  = chunk_ids (take i chunks) ++ chunk_ids (take n (drop i chunks))
    ++ chunk_ids (drop n (drop i chunks)).
Proof.
  unfold chunk_ids. rewrite <- !fmap_app. by rewrite !take_drop.
Qed.

(** From any batch on, the loop goes through: the ids stored so far are
    those of the chunks before the batch, so every id of the batch is new. *)
Lemma index_loop_total h (chunks : list value) batch_size m j w c :
  0 < Z.to_nat batch_size ->
  Forall (fun chunk => well_formed_chunk chunk = true) chunks ->
  NoDup (chunk_ids chunks) ->
  chroma w !! h = Some c ->
  (forall k, is_Some (c_entries c !! k) ->
             Ok (VStr k) ∈ chunk_ids (take (j * Z.to_nat batch_size) chunks)) ->
  exists w' entries,
    for_each (map (fun k => k * Z.to_nat batch_size) (seq j m))
      (index_batch p (SentenceTransformer model) h (VList chunks) batch_size) w
      = (Ok tt, w')
    /\ chroma w' = <[h := Collection (c_metadata c) entries]> (chroma w)
    /\ files w' = files w.
Proof.
  intros Hn Hwf Hnd. revert j w c.
  induction m as [|m IH]; intros j w c Hc Hinv.
  - exists w, (c_entries c). simpl. repeat split; try done.
    rewrite insert_id; [done|]. by destruct c.
  - cbn [seq map for_each].
    pose proof (chunk_ids_split chunks (j * Z.to_nat batch_size)
                  (Z.to_nat batch_size)) as Hsplit.
    rewrite Hsplit in Hnd.
    apply NoDup_app in Hnd as (_ & Hdisj & Hnd').
    apply NoDup_app in Hnd' as (Hbatch & _ & _).
    destruct (index_batch_total h chunks batch_size (j * Z.to_nat batch_size) w c
                Hwf Hc Hbatch)
      as (w1 & entries1 & Hrun1 & Hchroma1 & Hfiles1 & Horigin1).
    { intros k Hk. apply eq_None_not_Some. intros Hsome.
      apply (Hdisj _ (Hinv k Hsome)). apply elem_of_app. by left. }
    destruct (IH (S j) w1 (Collection (c_metadata c) entries1))
      as (w' & entries & Hrun & Hchroma & Hfiles).
    { by rewrite Hchroma1, lookup_insert_eq. }
    { intros k Hsome. simpl in Hsome.
      replace (S j * Z.to_nat batch_size)
        with (j * Z.to_nat batch_size + Z.to_nat batch_size) by lia.
      rewrite <- take_take_drop. unfold chunk_ids. rewrite fmap_app.
      apply elem_of_app.
      destruct (Horigin1 k Hsome) as [Ho|Ho]; [left; by apply Hinv|by right]. }
    exists w', entries. split; [|split].
    + by rewrite (bind_Ok _ _ _ _ _ Hrun1).
    + simpl in Hchroma. by rewrite Hchroma, Hchroma1, insert_insert_eq.
    + by rewrite Hfiles.
Qed.

(** The build goes through on every list of well-formed chunks with
    pairwise-distinct ids, for every batch size of at least 1 and from every
    world, with or without a collection already stored under the name. *)
Lemma build_succeeds chunks_file db_path name batch_size w (chunks : list value) :
  files w !! chunks_file = Some (VList chunks) ->
  (1 <= batch_size)%Z ->
  Forall (fun chunk => well_formed_chunk chunk = true) chunks ->
  NoDup (chunk_ids chunks) ->
  exists w',
    build_invoice_vectordb SentenceTransformer p chunks_file db_path name model
      batch_size w = (Ok (db_path, name), w').
Proof.
  intros Hfile Hb Hwf Hnd. unfold build_invoice_vectordb.
  erewrite bind_Ok by reflexivity.
  erewrite bind_Ok by reflexivity.
  erewrite bind_Ok by (unfold read_json; cbn [files print emit]; by rewrite Hfile).
  erewrite bind_Ok by reflexivity. cbn [py_len].
  erewrite bind_Ok by reflexivity.
  erewrite bind_Ok by reflexivity.
  erewrite bind_Ok by reflexivity.
  match goal with |- context [bind (try_except_pass ?m) ?k ?w0] =>
    assert (Htry : exists w1, try_except_pass m w0 = (Ok tt, w1)
                              /\ chroma w1 !! (db_path, name) = None
                              /\ files w1 = files w)
  end.
  { unfold try_except_pass, bind, delete_collection, print, emit. cbn [chroma files].
    destruct (chroma w !! (db_path, name)) eqn:Hlook.
    - eexists. split; [reflexivity|]. cbn. by rewrite lookup_delete_eq.
    - eexists. split; [reflexivity|]. by cbn. }
  destruct Htry as (w1 & Htry & Hnone & Hfiles1).
  rewrite (bind_Ok _ _ _ _ _ Htry).
  erewrite bind_Ok by (unfold create_collection; by rewrite Hnone).
  erewrite bind_Ok by reflexivity.
  assert (Hrange : py_range (length chunks) batch_size
                   = Ok (map (fun k => k * Z.to_nat batch_size)
                           (seq 0 ((length chunks + Z.to_nat batch_size - 1)
                                   / Z.to_nat batch_size)))).
  { unfold py_range. destruct (Z.eqb_spec batch_size 0); [lia|].
    by destruct (Z.ltb_spec batch_size 0); [lia|]. }
  erewrite bind_Ok by (unfold lift; by rewrite Hrange).
  match goal with |- context [bind (for_each ?starts ?body) ?k ?w0] =>
    destruct (index_loop_total (db_path, name) chunks batch_size
                ((length chunks + Z.to_nat batch_size - 1) / Z.to_nat batch_size)
                0 w0 (Collection cosine ∅))
      as (w2 & entries & Hloop & Hchroma2 & Hfiles2)
  end; [lia|done|done|
        |intros k [e He]; simpl in He; by rewrite lookup_empty in He|].
  { cbn [chroma print emit set_chroma]. by rewrite lookup_insert_eq. }
  rewrite (bind_Ok _ _ _ _ _ Hloop).
  erewrite bind_Ok by reflexivity.
  erewrite bind_Ok by reflexivity.
  erewrite bind_Ok by reflexivity.
  erewrite bind_Ok
    by (unfold collection_count; cbn [chroma]; by rewrite Hchroma2, lookup_insert_eq).
  erewrite bind_Ok by reflexivity.
  by eexists.
Qed.

End BuildTotal.

(* ===================================================================== *)
(** * Further properties of the four scripts *)
(* ===================================================================== *)

Import DownloadData InvoiceSearch Pipeline.

(** ** The Formatter *)

Lemma In_dict_get (d : dict) k v :
  NoDup d.*1 -> In (k, v) d -> dict_get d k = Some v.
Proof.
  induction d as [|[k' v'] d IH]; simpl; [done|].
  intros Hnd [Heq|Hin].
  - injection Heq as -> ->. by rewrite String.eqb_refl.
  - apply NoDup_cons in Hnd as [Hk' Hnd].
    destruct (String.eqb_spec k' k) as [->|Hne]; [|by apply IH].
    exfalso. apply Hk'. apply list_elem_of_fmap. exists (k, v).
    split; [done|]. by apply list_elem_of_In.
Qed.

Lemma dict_get_Permutation (d1 d2 : dict) k :
  NoDup d1.*1 -> Permutation d1 d2 -> dict_get d1 k = dict_get d2 k.
Proof.
  intros Hnd Hperm.
  assert (Hnd2 : NoDup d2.*1) by (by rewrite <- Hperm).
  destruct (dict_get d1 k) as [v|] eqn:H1.
  - symmetry. apply In_dict_get; [done|].
    apply list_elem_of_In. rewrite <- Hperm. apply list_elem_of_In.
    by apply dict_get_In.
  - destruct (dict_get d2 k) as [v|] eqn:H2; [|done].
    apply dict_get_In, list_elem_of_In in H2. rewrite <- Hperm in H2.
    apply list_elem_of_In, (In_dict_get _ _ _ Hnd) in H2. congruence.
Qed.



(** X2.  The lines of the preferred fields come first and do not depend on
    the order of the record: two records with the same fields, keys
    unique, in any order give the same preferred lines, and the output of
    each starts with them. *)
Theorem preferred_lines_order_independent (d1 d2 : dict) :
  NoDup d1.*1 ->
  Permutation d1 d2 ->
  preferred_part d1 = preferred_part d2
  /\ (exists rest, format_text_parts d1 = preferred_part d1 ++ rest)
  /\ (exists rest, format_text_parts d2 = preferred_part d1 ++ rest).
Proof.
  intros Hnd Hperm.
  assert (Heq : preferred_part d1 = preferred_part d2).
  { unfold preferred_part. apply fold_left_pointwise.
    intros tp [field label]. unfold format_mapped_field.
    by rewrite (dict_get_Permutation d1 d2 field Hnd Hperm). }
  split; [done|]. split.
  - eexists. unfold format_text_parts, preferred_part.
    rewrite (fold_left_pointwise _ (fun acc kv => acc ++ format_other_field [] kv))
      by (intros; apply format_other_field_acc).
    by rewrite fold_left_append.
  - eexists. rewrite Heq. unfold format_text_parts, preferred_part.
    rewrite (fold_left_pointwise _ (fun acc kv => acc ++ format_other_field [] kv))
      by (intros; apply format_other_field_acc).
    by rewrite fold_left_append.
Qed.

Lemma preferred_lines_order_independent_witness :
  preferred_part [("total", VInt 100); ("memo", VStr "paid"); ("vendor", VStr "Acme")]
  = preferred_part [("vendor", VStr "Acme"); ("total", VInt 100); ("memo", VStr "paid")].
Proof.
  apply (preferred_lines_order_independent
           [("total", VInt 100); ("memo", VStr "paid"); ("vendor", VStr "Acme")]
           [("vendor", VStr "Acme"); ("total", VInt 100); ("memo", VStr "paid")]).
  - simpl. repeat (apply NoDup_cons_2;
      [intros H; repeat (apply elem_of_cons in H as [H|H]; [discriminate H|]);
       by apply elem_of_nil in H|]). apply NoDup_nil_2.
  - symmetry.
    apply (Permutation_cons_append [("total", VInt 100); ("memo", VStr "paid")]
             ("vendor", VStr "Acme")).
Defined.

(** ** The Chunk Builder *)

Section ChunkBuilderMore.
Context {Ext : Type}.
Implicit Types (w : world Ext).

(** X3.  All or nothing: when one record of the list makes the loop raise (a
    missing key, a [data] that is not a mapping), the script raises that
    exception having only printed its first message; no output file is
    written, not even for the records before the bad one. *)
Theorem create_invoice_chunks_writes_nothing_on_bad_record
    data_file output_file w (invoices : list value) (e : exc) :
  files w !! data_file = Some (VList invoices) ->
  build_chunks invoices = Raise e ->
  create_invoice_chunks data_file output_file w
  = (Raise e,
     World (trace w ++ [Printed ("Loading invoice data from " +:+ data_file)])
           (files w) (chroma w) (ext w)).
Proof.
  intros Hfile Hbuild.
  unfold create_invoice_chunks, bind, print, emit, read_json, lift. simpl.
  rewrite Hfile. simpl. by rewrite Hbuild.
Qed.

(** X4.  On an empty list of records the script writes the empty chunk
    list to the output file and then raises [IndexError]: the sample print
    reads [chunks[0]]. *)
Theorem create_invoice_chunks_empty_list data_file output_file w :
  files w !! data_file = Some (VList []) ->
  create_invoice_chunks data_file output_file w
  = (Raise IndexError,
     World (trace w ++ [ Printed ("Loading invoice data from " +:+ data_file);
                         Printed "Created 0 invoice chunks";
                         Printed ("Saved to " +:+ output_file);
                         Printed (nl +:+ "Sample chunk:") ])
           (<[output_file := VList []]> (files w)) (chroma w) (ext w)).
Proof.
  intros Hfile.
  unfold create_invoice_chunks, bind, print, emit, read_json, lift, write_json.
  simpl. rewrite Hfile. simpl. by rewrite <- !app_assoc.
Qed.

End ChunkBuilderMore.

Lemma create_invoice_chunks_writes_nothing_on_bad_record_witness :
  create_invoice_chunks "data/invoices_data.json" "data/chunks.json" headless_world
  = (Raise (KeyError "metadata"),
     World [Printed "Loading invoice data from data/invoices_data.json"]
           (files headless_world) ∅ tt).
Proof.
  apply (create_invoice_chunks_writes_nothing_on_bad_record
           "data/invoices_data.json" "data/chunks.json" headless_world
           [example_invoice; headless_invoice] (KeyError "metadata"));
    reflexivity.
Defined.

Lemma create_invoice_chunks_empty_list_witness :
  fst (create_invoice_chunks "data/invoices_data.json" "data/chunks.json"
         empty_records_world) = Raise IndexError
  /\ files (snd (create_invoice_chunks "data/invoices_data.json" "data/chunks.json"
                   empty_records_world)) !! "data/chunks.json" = Some (VList []).
Proof.
  rewrite (create_invoice_chunks_empty_list
             "data/invoices_data.json" "data/chunks.json" empty_records_world
             eq_refl).
  split; reflexivity.
Defined.

Lemma invoice_chunk_well_formed invoice chunk key :
  invoice_chunk invoice = Ok chunk ->
  getitem invoice "id" = Ok (VStr key) ->
  getitem chunk "id" = Ok (VStr key) /\ well_formed_chunk chunk = true.
Proof.
  intros Hc Hkey.
  apply invoice_chunk_Ok_inv in Hc
    as (id & fn & d & m & si & hi & Hid & _ & _ & _ & _ & _ & ->).
  assert (id = VStr key) as -> by congruence. by split.
Qed.

(** X5.  The chunks carry the ids of the records, in order, so distinct
    record ids give distinct chunk ids; and when the record ids are
    strings, every chunk is one the Indexer can read (a string id, a text,
    and the three metadata entries it copies). *)
Theorem chunks_keep_record_ids (invoices chunks : list value) :
  build_chunks invoices = Ok chunks ->
  chunk_ids chunks = record_ids invoices
  /\ (NoDup (record_ids invoices) -> NoDup (chunk_ids chunks))
  /\ (Forall (fun invoice => exists key, getitem invoice "id" = Ok (VStr key))
        invoices ->
      Forall (fun chunk => well_formed_chunk chunk = true) chunks).
Proof.
  intros Hbuild. apply build_chunks_Forall2 in Hbuild.
  assert (Hids : chunk_ids chunks = record_ids invoices).
  { unfold chunk_ids, record_ids. symmetry.
    apply list_eq_Forall2, Forall2_fmap_2.
    eapply Forall2_impl; [exact Hbuild|]. intros invoice chunk Hc. simpl in Hc.
    apply invoice_chunk_Ok_inv in Hc
      as (id & fn & d & m & si & hi & Hid & _ & _ & _ & _ & _ & ->).
    by rewrite Hid. }
  split; [done|]. split; [by rewrite Hids|].
  intros Hstr. eapply Forall2_Forall_r; [exact Hbuild|].
  eapply Forall_impl; [exact Hstr|].
  intros invoice [key Hkey] chunk Hc.
  by destruct (invoice_chunk_well_formed _ _ _ Hc Hkey).
Qed.

Lemma chunks_keep_record_ids_witness :
  chunk_ids [example_chunk] = record_ids [example_invoice]
  /\ Forall (fun chunk => well_formed_chunk chunk = true) [example_chunk].
Proof.
  destruct (chunks_keep_record_ids [example_invoice] [example_chunk] eq_refl)
    as (Hids & _ & Hwf).
  split; [exact Hids|]. apply Hwf.
  repeat constructor. by exists "invoice_0".
Defined.

(** ** The Indexer and the rest of the world *)

Create HintDb confined.

Section Confinement.
Context {Ext : Type}.
Implicit Types (w : world Ext) (h : handle).

Lemma untouched_refl h w : untouched_outside h w w.
Proof. by split. Qed.

Lemma untouched_trans h w1 w2 w3 :
  untouched_outside h w1 w2 -> untouched_outside h w2 w3 ->
  untouched_outside h w1 w3.
Proof.
  intros [Hf1 Hc1] [Hf2 Hc2]. split; [congruence|].
  intros key Hkey. by rewrite Hc2, Hc1.
Qed.

Lemma confined_bind {A B} h (m : M Ext A) (k : A -> M Ext B) :
  confined_to h m -> (forall a, confined_to h (k a)) -> confined_to h (bind m k).
Proof.
  intros Hm Hk w r w'. unfold bind.
  destruct (m w) as [[a|e] w1] eqn:Hrun.
  - intros Hrest. eapply untouched_trans; [by eapply Hm|by eapply Hk].
  - intros [= <- <-]. by eapply Hm.
Qed.

Lemma confined_ret {A} h (a : A) : confined_to (Ext:=Ext) h (ret a).
Proof. intros w r w' [= <- <-]. apply untouched_refl. Qed.

Lemma confined_lift {A} h (r : res A) : confined_to (Ext:=Ext) h (lift r).
Proof. intros w r' w' [= <- <-]. apply untouched_refl. Qed.

Lemma confined_print h text : confined_to (Ext:=Ext) h (print text).
Proof. intros w r w' [= <- <-]. by split. Qed.

Lemma confined_call {A} h (e : event) (f : Ext -> res A * Ext) :
  confined_to h (call e f).
Proof.
  intros w r w'. unfold call. destruct (f (ext w)). intros [= <- <-]. by split.
Qed.

Lemma confined_read_json h path : confined_to (Ext:=Ext) h (read_json path).
Proof.
  intros w r w'. unfold read_json.
  destruct (files w !! path); intros [= <- <-]; apply untouched_refl.
Qed.

Lemma confined_delete_collection db_path name :
  confined_to (Ext:=Ext) (db_path, name) (delete_collection db_path name).
Proof.
  intros w r w'. unfold delete_collection.
  destruct (chroma w !! (db_path, name)); intros [= <- <-];
    [|apply untouched_refl].
  split; [done|]. intros key Hkey. simpl. by rewrite lookup_delete_ne.
Qed.

Lemma confined_create_collection db_path name metadata :
  confined_to (Ext:=Ext) (db_path, name) (create_collection db_path name metadata).
Proof.
  intros w r w'. unfold create_collection.
  destruct (chroma w !! (db_path, name)); intros [= <- <-];
    [apply untouched_refl|].
  split; [done|]. intros key Hkey. simpl. by rewrite lookup_insert_ne.
Qed.

(** The handle [create_collection] returns is the one asked for. *)
Lemma confined_bind_create {B} db_path name metadata (k : handle -> M Ext B) :
  confined_to (db_path, name) (k (db_path, name)) ->
  confined_to (db_path, name) (bind (create_collection db_path name metadata) k).
Proof.
  intros Hk w r w'. unfold bind.
  destruct (create_collection db_path name metadata w) as [[a|e] w1] eqn:Hrun.
  - assert (a = (db_path, name)) as ->.
    { unfold create_collection in Hrun.
      destruct (chroma w !! (db_path, name)); congruence. }
    intros Hrest. eapply untouched_trans; [|by eapply Hk].
    by eapply confined_create_collection.
  - intros [= <- <-]. by eapply confined_create_collection.
Qed.

Lemma confined_collection_add (p : policy) h ids documents embeddings metadatas :
  confined_to (Ext:=Ext) h (collection_add p h ids documents embeddings metadatas).
Proof.
  intros w r w'. unfold collection_add.
  destruct (chroma w !! h); [|intros [= <- <-]; apply untouched_refl].
  destruct (res_bind _ _); intros [= <- <-]; [|apply untouched_refl].
  split; [done|]. intros key Hkey. simpl. by rewrite lookup_insert_ne.
Qed.

Lemma confined_collection_count h : confined_to (Ext:=Ext) h (collection_count h).
Proof.
  intros w r w'. unfold collection_count.
  destruct (chroma w !! h); intros [= <- <-]; apply untouched_refl.
Qed.

Lemma confined_try_except_pass h (m : M Ext unit) :
  confined_to h m -> confined_to h (try_except_pass m).
Proof.
  intros Hm w r w'. unfold try_except_pass.
  destruct (m w) as [[a|e] w1] eqn:Hrun; intros [= <- <-]; by eapply Hm.
Qed.

Lemma confined_for_each {A} h (xs : list A) (body : A -> M Ext unit) :
  (forall x, confined_to h (body x)) -> confined_to h (for_each xs body).
Proof.
  intros Hbody. induction xs as [|x xs IH]; simpl.
  - apply confined_ret.
  - apply confined_bind; [apply Hbody|by intros _].
Qed.

End Confinement.

#[local] Hint Resolve confined_ret confined_lift confined_print confined_call
  confined_read_json confined_delete_collection confined_create_collection
  confined_collection_add confined_collection_count : confined.

Ltac confined :=
  repeat first
    [ apply confined_bind_create
    | apply confined_bind; [|intros ?]
    | apply confined_try_except_pass
    | apply confined_for_each; intros ?
    | solve [auto with confined] ].

Section BuildFrame.
Context {Ext : Type}.
Variable SentenceTransformer :
  string -> list value -> Ext -> res (list embedding) * Ext.
Variable p : policy.
Implicit Types (w : world Ext).

Lemma confined_index_batch embedder h chunks batch_size i :
  confined_to h (index_batch (Ext:=Ext) p embedder h chunks batch_size i).
Proof. unfold index_batch. confined. Qed.

Lemma confined_build chunks_file db_path name model batch_size :
  confined_to (db_path, name)
    (build_invoice_vectordb SentenceTransformer p chunks_file db_path name model
       batch_size).
Proof.
  unfold build_invoice_vectordb. confined.
Qed.

(** X6.  Whether it succeeds or raises, at whatever point, the build
    changes no file and no collection other than the one it is asked to
    build: every other collection of the store is as it was. *)
Theorem build_leaves_the_rest_untouched
    chunks_file db_path name model batch_size w r w' :
  build_invoice_vectordb SentenceTransformer p chunks_file db_path name model
    batch_size w = (r, w') ->
  files w' = files w
  /\ forall other_path other_name,
       (other_path, other_name) <> (db_path, name) ->
       chroma w' !! (other_path, other_name) = chroma w !! (other_path, other_name).
Proof.
  intros Hrun. destruct (confined_build _ _ _ _ _ _ _ _ Hrun) as [Hfiles Hrest].
  split; [done|]. intros other_path other_name. apply Hrest.
Qed.

(** X7.  When the chunks file is missing the build raises
    [FileNotFoundError] before it reaches the store: a collection already
    stored under the name is still there. *)
Theorem build_without_chunks_file
    chunks_file db_path name model batch_size w :
  files w !! chunks_file = None ->
  build_invoice_vectordb SentenceTransformer p chunks_file db_path name model
    batch_size w
  = (Raise (Exc "FileNotFoundError"
              ("[Errno 2] No such file or directory: " +:+ str_repr chunks_file)),
     World (trace w ++ [ Printed "Building invoice vector database...";
                         Printed ("Loading chunks from " +:+ chunks_file) ])
           (files w) (chroma w) (ext w)).
Proof.
  intros Hfile.
  unfold build_invoice_vectordb, bind, print, emit, read_json. simpl.
  rewrite Hfile. by rewrite <- app_assoc.
Qed.

End BuildFrame.

Lemma build_leaves_the_rest_untouched_witness :
  chroma (snd (build_invoice_vectordb example_transformer example_policy
                 "data/chunks.json" "./chroma_db" "invoices_collection"
                 "all-MiniLM-L6-v2" 0 shared_store_world))
    !! ("./chroma_db", "receipts")
  = Some stale_collection.
Proof.
  apply (proj2 (build_leaves_the_rest_untouched example_transformer example_policy
                  "data/chunks.json" "./chroma_db" "invoices_collection"
                  "all-MiniLM-L6-v2" 0 shared_store_world _ _
                  (surjective_pairing _))
           "./chroma_db" "receipts").
  discriminate.
Defined.

Lemma build_without_chunks_file_witness :
  chroma (snd (build_invoice_vectordb example_transformer example_policy
                 "data/chunks.json" "./chroma_db" "invoices_collection"
                 "all-MiniLM-L6-v2" 32 no_chunks_world))
    !! ("./chroma_db", "invoices_collection")
  = Some stale_collection.
Proof.
  rewrite (build_without_chunks_file example_transformer example_policy
             "data/chunks.json" "./chroma_db" "invoices_collection"
             "all-MiniLM-L6-v2" 32 no_chunks_world eq_refl).
  reflexivity.
Defined.

(** ** The Indexer: what is left in the store *)

Section Keeps.
Context {Ext : Type}.
Implicit Types (w : world Ext) (Q : world Ext -> Prop).









Variable SentenceTransformer :
  string -> list value -> Ext -> res (list embedding) * Ext.
Variable p : policy.
Variable model : string.






End Keeps.

Lemma add_record_size (p : policy) rs entries entries' :
  res_for rs (add_record p) entries = Ok entries' ->
  size entries' <= size entries + length rs.
Proof.
  revert entries. induction rs as [|[k e] rs IH]; intros entries; simpl.
  - intros [= <-]. lia.
  - intros H. apply res_bind_Ok_inv in H as (entries1 & H1 & H).
    apply IH in H.
    assert (size entries1 <= S (size entries)); [|lia].
    unfold add_record in H1. simpl in H1.
    destruct (entries !! k) eqn:Hk.
    + destruct (existing_id p); try done; injection H1 as <-;
        rewrite ?map_size_insert_Some by (by rewrite Hk); lia.
    + injection H1 as <-. rewrite map_size_insert_None by done. lia.
Qed.

Section StoreAfterBuild.
Context {Ext : Type}.
Variable SentenceTransformer :
  string -> list value -> Ext -> res (list embedding) * Ext.
Variable p : policy.
Variable model : string.
Implicit Types (w : world Ext).




(** X11.  After a successful build with a batch size of at least 1 the
    count never exceeds the number of chunks, ids repeated or not and
    whatever the store does with a repeated id. *)
Theorem build_count_at_most_chunks
    chunks_file db_path name batch_size w h w' (chunks : list value) :
  files w !! chunks_file = Some (VList chunks) ->
  (1 <= batch_size)%Z ->
  build_invoice_vectordb SentenceTransformer p chunks_file db_path name model
    batch_size w = (Ok h, w') ->
  exists count,
    collection_count h w' = (Ok count, w') /\ count <= length chunks.
Proof.
  intros Hfile Hb Hbuild.
  destruct (build_Ok_inv SentenceTransformer p model _
              (any_embeddings SentenceTransformer model)
              _ _ _ _ _ _ _ _ Hfile Hb Hbuild)
    as (-> & rs & entries & Hrs & Hadd & Hchroma).
  exists (size entries). split.
  - unfold collection_count. by rewrite Hchroma, lookup_insert_eq.
  - apply add_record_size in Hadd. rewrite map_size_empty in Hadd.
    by rewrite (Forall2_length _ _ _ Hrs).
Qed.

(** X12.  Rebuilding is idempotent: when the embedding of a text depends on
    the text alone, a second successful build over the same chunks file
    leaves the store exactly as the first one left it. *)
Theorem build_twice_same_store (encode : value -> embedding)
    chunks_file db_path name b1 b2 w h1 w1 h2 w2 (chunks : list value) :
  (forall texts x embeddings x',
     SentenceTransformer model texts x = (Ok embeddings, x') ->
     embeddings = encode <$> texts) ->
  files w !! chunks_file = Some (VList chunks) ->
  (1 <= b1)%Z -> (1 <= b2)%Z ->
  build_invoice_vectordb SentenceTransformer p chunks_file db_path name model
    b1 w = (Ok h1, w1) ->
  build_invoice_vectordb SentenceTransformer p chunks_file db_path name model
    b2 w1 = (Ok h2, w2) ->
  chroma w2 = chroma w1 /\ files w2 = files w1.
Proof.
  intros Hdet Hfile Hb1 Hb2 H1 H2.
  destruct (confined_build SentenceTransformer p _ _ _ _ _ _ _ _ H1) as [Hf1 _].
  destruct (confined_build SentenceTransformer p _ _ _ _ _ _ _ _ H2) as [Hf2 _].
  split; [|done].
  assert (Hfile1 : files w1 !! chunks_file = Some (VList chunks))
    by (by rewrite Hf1).
  destruct (build_deterministic SentenceTransformer p model encode
              _ _ _ _ _ _ _ _ _ _ _ _ _ Hdet Hfile Hfile1 Hb1 Hb2 H1 H2)
    as (_ & entries & Hc1 & Hc2).
  by rewrite Hc2, Hc1, insert_insert_eq.
Qed.

(** The provider answers every call with one embedding per text, and the
    store accepts every document and metadata. *)
Hypothesis embedder_total :
  forall texts x, exists embeddings x',
    SentenceTransformer model texts x = (Ok embeddings, x')
    /\ length embeddings = length texts.
Hypothesis accepts_all : forall document meta, accepts p document meta = true.

Lemma build_total_count chunks_file db_path name batch_size w (chunks : list value) :
  files w !! chunks_file = Some (VList chunks) ->
  (1 <= batch_size)%Z ->
  Forall (fun chunk => well_formed_chunk chunk = true) chunks ->
  NoDup (chunk_ids chunks) ->
  exists w',
    build_invoice_vectordb SentenceTransformer p chunks_file db_path name model
      batch_size w = (Ok (db_path, name), w')
    /\ collection_count (db_path, name) w' = (Ok (length chunks), w').
Proof.
  intros Hfile Hb Hwf Hnd.
  destruct (build_succeeds SentenceTransformer p model embedder_total accepts_all
              chunks_file db_path name batch_size w chunks Hfile Hb Hwf Hnd)
    as (w' & Hbuild).
  exists w'. split; [done|].
  destruct (build_Ok_inv SentenceTransformer p model _
              (any_embeddings SentenceTransformer model)
              _ _ _ _ _ _ _ _ Hfile Hb Hbuild)
    as (_ & rs & entries & Hrs & Hadd & Hchroma).
  destruct (add_record_fresh p rs ∅ (stored_ids_NoDup _ _ _ Hrs Hnd))
    as (entries' & Hadd' & Hsize & _); [intros; apply lookup_empty|].
  assert (entries' = entries) as -> by congruence.
  unfold collection_count. rewrite Hchroma, lookup_insert_eq. simpl.
  by rewrite Hsize, map_size_empty, <- (Forall2_length _ _ _ Hrs).
Qed.

(** X13.  The build goes through: when the provider answers every call
    with one embedding per text and the store accepts what it is given,
    then for every list of well-formed chunks with pairwise-distinct ids,
    every batch size of at least 1 and every store (holding the collection
    already or not), the build raises nothing and reports a count equal to
    the number of chunks. *)
Theorem build_goes_through
    chunks_file db_path name batch_size w (chunks : list value) :
  files w !! chunks_file = Some (VList chunks) ->
  (1 <= batch_size)%Z ->
  Forall (fun chunk => well_formed_chunk chunk = true) chunks ->
  NoDup (chunk_ids chunks) ->
  exists w',
    build_invoice_vectordb SentenceTransformer p chunks_file db_path name model
      batch_size w = (Ok (db_path, name), w')
    /\ collection_count (db_path, name) w' = (Ok (length chunks), w').
Proof. apply build_total_count. Qed.

Lemma chunks_then_build_total
    data_file chunks_file db_path name batch_size w (invoices : list value) :
  files w !! data_file = Some (VList invoices) ->
  invoices <> [] ->
  Forall (fun invoice => well_formed_invoice invoice = true) invoices ->
  Forall (fun invoice => exists key, getitem invoice "id" = Ok (VStr key)) invoices ->
  NoDup (record_ids invoices) ->
  (1 <= batch_size)%Z ->
  exists chunks w1 w2,
    create_invoice_chunks data_file chunks_file w = (Ok chunks, w1)
    /\ build_invoice_vectordb SentenceTransformer p chunks_file db_path name model
         batch_size w1 = (Ok (db_path, name), w2)
    /\ collection_count (db_path, name) w2 = (Ok (length invoices), w2).
Proof.
  intros Hfile Hne Hwf Hstr Hnd Hb.
  destruct (build_chunks_total invoices Hwf) as [chunks Hchunks].
  destruct (create_invoice_chunks_run data_file chunks_file w invoices chunks
              Hfile Hchunks) as [Hwritten Hreturned].
  destruct invoices as [|invoice invoices']; [done|].
  destruct (sample_text_total _ _ _ Hchunks) as [sample Hsample].
  specialize (Hreturned sample Hsample).
  assert (Hids : chunk_ids chunks = record_ids (invoice :: invoices')).
  { unfold chunk_ids, record_ids. symmetry.
    apply list_eq_Forall2, Forall2_fmap_2.
    eapply Forall2_impl; [by apply build_chunks_Forall2|].
    intros inv chunk Hc. simpl in Hc.
    apply invoice_chunk_Ok_inv in Hc
      as (id & fn & d & m & si & hi & Hid & _ & _ & _ & _ & _ & ->).
    by rewrite Hid. }
  assert (Hwfc : Forall (fun chunk => well_formed_chunk chunk = true) chunks).
  { eapply Forall2_Forall_r; [by apply build_chunks_Forall2|].
    eapply Forall_impl; [exact Hstr|].
    intros inv [key Hkey] chunk Hc.
    by destruct (invoice_chunk_well_formed _ _ _ Hc Hkey). }
  destruct (build_total_count chunks_file db_path name batch_size
              (snd (create_invoice_chunks data_file chunks_file w)) chunks
              Hwritten Hb Hwfc) as (w2 & Hbuild & Hcount).
  { by rewrite Hids. }
  exists chunks, (snd (create_invoice_chunks data_file chunks_file w)), w2.
  split; [|split; [done|]].
  - rewrite <- Hreturned. apply surjective_pairing.
  - rewrite Hcount. do 2 f_equal.
    apply build_chunks_Forall2, Forall2_length in Hchunks. done.
Qed.

(** X14.  The two build stages compose: for a non-empty list of records as
    the download step writes them, with pairwise-distinct string ids, the
    Chunk Builder returns its chunks and the build that reads the file it
    wrote goes through, with a count equal to the number of records. *)
Theorem chunks_then_build_go_through
    data_file chunks_file db_path name batch_size w (invoices : list value) :
  files w !! data_file = Some (VList invoices) ->
  invoices <> [] ->
  Forall (fun invoice => well_formed_invoice invoice = true) invoices ->
  Forall (fun invoice => exists key, getitem invoice "id" = Ok (VStr key)) invoices ->
  NoDup (record_ids invoices) ->
  (1 <= batch_size)%Z ->
  exists chunks w1 w2,
    create_invoice_chunks data_file chunks_file w = (Ok chunks, w1)
    /\ build_invoice_vectordb SentenceTransformer p chunks_file db_path name model
         batch_size w1 = (Ok (db_path, name), w2)
    /\ collection_count (db_path, name) w2 = (Ok (length invoices), w2).
Proof. apply chunks_then_build_total. Qed.

End StoreAfterBuild.

Lemma example_transformer_total texts (x : unit) :
  exists embeddings x',
    example_transformer "all-MiniLM-L6-v2" texts x = (Ok embeddings, x')
    /\ length embeddings = length texts.
Proof. eexists _, _. split; [reflexivity|]. by rewrite length_fmap. Qed.

Lemma example_policy_accepts_all document meta :
  accepts example_policy document meta = true.
Proof. reflexivity. Qed.




Lemma build_count_at_most_chunks_witness :
  exists count,
    collection_count ("./chroma_db", "invoices_collection") (indexed_world 2)
      = (Ok count, indexed_world 2)
    /\ count <= length example_chunks.
Proof.
  apply (build_count_at_most_chunks example_transformer example_policy
           "all-MiniLM-L6-v2" "data/chunks.json" "./chroma_db"
           "invoices_collection" 2 index_world
           ("./chroma_db", "invoices_collection") (indexed_world 2)
           example_chunks).
  - reflexivity.
  - lia.
  - apply example_build_run. auto.
Defined.

Lemma example_rebuild_run :
  build_invoice_vectordb example_transformer example_policy
    "data/chunks.json" "./chroma_db" "invoices_collection" "all-MiniLM-L6-v2"
    1 (indexed_world 2)
  = (Ok ("./chroma_db", "invoices_collection"),
     snd (build_invoice_vectordb example_transformer example_policy
            "data/chunks.json" "./chroma_db" "invoices_collection"
            "all-MiniLM-L6-v2" 1 (indexed_world 2))).
Proof. vm_compute. reflexivity. Qed.

Lemma build_twice_same_store_witness :
  chroma (snd (build_invoice_vectordb example_transformer example_policy
                 "data/chunks.json" "./chroma_db" "invoices_collection"
                 "all-MiniLM-L6-v2" 1 (indexed_world 2)))
  = chroma (indexed_world 2).
Proof.
  apply (build_twice_same_store example_transformer example_policy
           "all-MiniLM-L6-v2" example_encode "data/chunks.json" "./chroma_db"
           "invoices_collection" 2 1 index_world
           ("./chroma_db", "invoices_collection") (indexed_world 2)
           ("./chroma_db", "invoices_collection") _ example_chunks).
  - exact example_transformer_pointwise.
  - reflexivity.
  - lia.
  - lia.
  - apply example_build_run. auto.
  - exact example_rebuild_run.
Defined.

Lemma build_goes_through_witness :
  exists w',
    build_invoice_vectordb example_transformer example_policy
      "data/chunks.json" "./chroma_db" "invoices_collection" "all-MiniLM-L6-v2"
      32 index_world
    = (Ok ("./chroma_db", "invoices_collection"), w')
    /\ collection_count ("./chroma_db", "invoices_collection") w'
       = (Ok (length example_chunks), w').
Proof.
  apply (build_goes_through example_transformer example_policy
           "all-MiniLM-L6-v2" example_transformer_total
           example_policy_accepts_all "data/chunks.json" "./chroma_db"
           "invoices_collection" 32 index_world example_chunks).
  - reflexivity.
  - lia.
  - repeat constructor.
  - exact example_chunk_ids_NoDup.
Defined.

Lemma chunks_then_build_go_through_witness :
  exists chunks w1 w2,
    create_invoice_chunks "data/invoices_data.json" "data/chunks.json" example_world
      = (Ok chunks, w1)
    /\ build_invoice_vectordb example_transformer example_policy
         "data/chunks.json" "./chroma_db" "invoices_collection"
         "all-MiniLM-L6-v2" 32 w1
       = (Ok ("./chroma_db", "invoices_collection"), w2)
    /\ collection_count ("./chroma_db", "invoices_collection") w2
       = (Ok (length [example_invoice]), w2).
Proof.
  apply (chunks_then_build_go_through example_transformer example_policy
           "all-MiniLM-L6-v2" example_transformer_total
           example_policy_accepts_all "data/invoices_data.json"
           "data/chunks.json" "./chroma_db" "invoices_collection" 32
           example_world [example_invoice]).
  - reflexivity.
  - discriminate.
  - repeat constructor.
  - repeat constructor. by exists "invoice_0".
  - unfold record_ids. simpl. apply NoDup_singleton.
  - lia.
Defined.

(** ** The Answer Generator and the programmatic search *)

Section AnswerMore.
Context {Ext : Type}.
Implicit Types (self : InvoiceRAG Ext) (w : world Ext).

Lemma generation_calls_app t1 t2 :
  generation_calls (t1 ++ t2) = generation_calls t1 ++ generation_calls t2.
Proof. apply flat_map_app. Qed.

(** Retrieval never reaches the generation provider. *)
Lemma retrieve_no_generation self query n_results w r w' :
  retrieve self query n_results w = (r, w') ->
  generation_calls (trace w') = generation_calls (trace w)
  /\ files w' = files w /\ chroma w' = chroma w.
Proof.
  unfold retrieve, bind, call, ret.
  destruct (embedder self query (ext w)) as [[emb|e] x1]; cbn [ext trace].
  - destruct (collection self [emb] n_results x1) as [[results|e] x2];
      intros [= <- <-]; cbn; by rewrite !generation_calls_app, !app_nil_r.
  - intros [= <- <-]. cbn. by rewrite generation_calls_app, app_nil_r.
Qed.

(** X15.  When retrieval returns documents, [generate_answer] calls the
    generation provider exactly once, with the prompt built from the
    assembled context and the query, and hands back the provider's outcome
    as it is: the generated text, or the exception the provider raised. *)
Theorem generate_answer_forwards_the_provider_outcome
    self query n_results w query_embedding x1 results x2 doc docs context r x3 :
  embedder self query (ext w) = (Ok query_embedding, x1) ->
  collection self [query_embedding] n_results x1 = (Ok results, x2) ->
  first (documents results) = Ok (doc :: docs) ->
  format_retrieved_context results = Ok context ->
  llm self (build_prompt context query) x2 = (r, x3) ->
  generate_answer self query n_results w
  = (r, World (trace w ++ [ Printed (nl +:+ "Query: " +:+ query);
                            Encoded [VStr query];
                            Queried n_results;
                            Printed ("Retrieved " +:+ pretty (S (length docs))
                                     +:+ " relevant invoices");
                            Printed "Generating answer with Gemini...";
                            Generated (build_prompt context query) ])
              (files w) (chroma w) x3).
Proof.
  intros Henc Hquery Hdocs Hctx Hllm.
  unfold generate_answer, retrieve, bind, print, emit, call, lift, ret. simpl.
  rewrite Henc. simpl. rewrite Hquery. simpl. rewrite Hdocs. simpl.
  rewrite Hctx. simpl. rewrite Hllm.
  destruct r; by rewrite <- !app_assoc.
Qed.

(** X16.  When retrieval raises (the embedding provider or the store
    fails), [generate_answer] raises the same exception and the generation
    provider is not called. *)
Theorem generate_answer_retrieval_failure self query n_results w e w' :
  retrieve self query n_results
    (World (trace w ++ [Printed (nl +:+ "Query: " +:+ query)])
           (files w) (chroma w) (ext w))
  = (Raise e, w') ->
  generate_answer self query n_results w = (Raise e, w')
  /\ generation_calls (trace w') = generation_calls (trace w).
Proof.
  intros Hfail. split.
  - unfold generate_answer. unfold bind at 1. unfold print at 1, emit at 1.
    cbv beta iota zeta. unfold bind at 1. by rewrite Hfail.
  - apply retrieve_no_generation in Hfail as (Hgen & _).
    rewrite Hgen. cbn. by rewrite generation_calls_app, app_nil_r.
Qed.

Lemma found_invoices_map pairs :
  res_for pairs
    (fun invoices (item : string * dict) =>
       match item with
       | (doc, meta) =>
           res_bind (found_invoice doc meta)
                    (fun invoice => Ok (invoices ++ [invoice]))
       end) []
  = res_map (fun item => found_invoice (fst item) (snd item)) pairs.
Proof.
  rewrite (res_for_pointwise _
             (fun acc item =>
                res_bind (found_invoice (fst item) (snd item))
                         (fun y => Ok (acc ++ [y]))))
    by (by intros acc [doc meta]).
  rewrite res_for_append. by destruct (res_map _ pairs).
Qed.

(** X17.  [search_invoices] never calls the generation provider, whatever
    its outcome; and when retrieval answers with metadata that all hold
    [file_name] and [source_index], it returns one mapping per (document,
    metadata) pair, in result order, made of the file name, the document as
    [content] and the source index. *)
Theorem search_invoices_results self query n_results w :
  (forall r w', search_invoices self query n_results w = (r, w') ->
     generation_calls (trace w') = generation_calls (trace w))
  /\ (forall query_embedding x1 docs metas more_docs more_metas x2,
        embedder self query (ext w) = (Ok query_embedding, x1) ->
        collection self [query_embedding] n_results x1
          = (Ok (QueryResult (docs :: more_docs) (metas :: more_metas)), x2) ->
        Forall (fun meta => dict_contains meta "file_name" = true
                            /\ dict_contains meta "source_index" = true) metas ->
        exists invoices,
          search_invoices self query n_results w
          = (Ok invoices,
             World (trace w ++ [Encoded [VStr query]; Queried n_results])
                   (files w) (chroma w) x2)
          /\ length invoices = min (length docs) (length metas)
          /\ forall i doc meta,
               docs !! i = Some doc -> metas !! i = Some meta ->
               exists file_name source_index,
                 dict_get meta "file_name" = Some file_name
                 /\ dict_get meta "source_index" = Some source_index
                 /\ invoices !! i
                    = Some (VDict [ ("file_name", file_name);
                                    ("content", VStr doc);
                                    ("source_index", source_index) ])).
Proof.
  split.
  - intros r w'. unfold search_invoices. unfold bind at 1.
    destruct (retrieve self query n_results w) as [[results|e] w1] eqn:Hret;
      apply retrieve_no_generation in Hret as (Hgen & _).
    + unfold bind, lift.
      destruct (first (documents results)); [|by intros [= <- <-]].
      destruct (first (metadatas results)); by intros [= <- <-].
    + by intros [= <- <-].
  - intros emb x1 docs metas more_docs more_metas x2 Henc Hquery Hmetas.
    destruct (res_map_total (fun item => found_invoice (fst item) (snd item))
                (zip docs metas)) as [invoices Hinv].
    { apply Forall_forall. intros [doc meta] Hin.
      apply list_elem_of_lookup in Hin as [i Hi].
      rewrite lookup_zip_with in Hi.
      destruct (docs !! i) as [doc'|]; [|done]. simpl in Hi.
      destruct (metas !! i) as [meta'|] eqn:Hmeta; [|done]. simpl in Hi.
      injection Hi as -> ->.
      destruct (proj1 (Forall_forall _ _) Hmetas meta) as [Hfn Hsi].
      { apply list_elem_of_lookup. eauto. }
      unfold found_invoice, dict_contains in *. simpl.
      destruct (dict_get meta "file_name"); [|done].
      destruct (dict_get meta "source_index"); [|done]. by eexists. }
    exists invoices. split.
    { unfold search_invoices, retrieve, bind, call, lift, ret. simpl.
      rewrite Henc. simpl. rewrite Hquery. simpl.
      rewrite found_invoices_map, Hinv. by rewrite <- app_assoc. }
    apply res_map_Forall2 in Hinv. split.
    { by rewrite <- (Forall2_length _ _ _ Hinv), length_zip_with. }
    intros i doc meta Hdoc Hmeta.
    assert (Hi : zip docs metas !! i = Some (doc, meta))
      by (by rewrite lookup_zip_with, Hdoc, Hmeta).
    destruct (Forall2_lookup_l _ _ _ _ _ Hinv Hi) as (invoice & Hlook & Hfound).
    unfold found_invoice in Hfound. simpl in Hfound.
    destruct (dict_get meta "file_name") as [file_name|]; [|done].
    destruct (dict_get meta "source_index") as [source_index|]; [|done].
    injection Hfound as <-. by exists file_name, source_index.
Qed.

End AnswerMore.

Lemma generate_answer_forwards_the_provider_outcome_witness :
  fst (generate_answer answering_rag "total for acme?" 5 start_world)
  = Ok "The total is 100."
  /\ fst (generate_answer quota_rag "total for acme?" 5 start_world)
     = Raise (Exc "ResourceExhausted" "429 quota exceeded").
Proof.
  split.
  - rewrite (generate_answer_forwards_the_provider_outcome answering_rag
               "total for acme?" 5 start_world [FFinite "0.25" true] tt
               (QueryResult [["Invoice: acme.png"]]
                  [[ [("file_name", VStr "acme.png"); ("source_index", VInt 0);
                      ("has_image", VBool true)] ]])
               tt "Invoice: acme.png" []
               ("--- Invoice 1 (acme.png) ---" +:+ nl +:+ "Invoice: acme.png")
               (Ok "The total is 100.") tt
               eq_refl eq_refl eq_refl eq_refl eq_refl).
    reflexivity.
  - rewrite (generate_answer_forwards_the_provider_outcome quota_rag
               "total for acme?" 5 start_world [FFinite "0.25" true] tt
               (QueryResult [["Invoice: acme.png"]] [[ [("file_name", VStr "acme.png")] ]])
               tt "Invoice: acme.png" []
               ("--- Invoice 1 (acme.png) ---" +:+ nl +:+ "Invoice: acme.png")
               (Raise (Exc "ResourceExhausted" "429 quota exceeded")) tt
               eq_refl eq_refl eq_refl eq_refl eq_refl).
    reflexivity.
Defined.

Lemma generate_answer_retrieval_failure_witness :
  fst (generate_answer offline_rag "total for acme?" 5 start_world)
  = Raise (Exc "ConnectionError" "unreachable")
  /\ generation_calls
       (trace (snd (generate_answer offline_rag "total for acme?" 5 start_world)))
     = [].
Proof.
  destruct (generate_answer_retrieval_failure offline_rag "total for acme?" 5
              start_world (Exc "ConnectionError" "unreachable")
              (World [ Printed (nl +:+ "Query: " +:+ "total for acme?");
                       Encoded [VStr "total for acme?"] ] ∅ ∅ tt)
              eq_refl) as [Hrun Hcalls].
  rewrite Hrun. split; [reflexivity|exact Hcalls].
Defined.

Lemma search_invoices_results_witness :
  exists invoices,
    search_invoices answering_rag "acme" 5 start_world
    = (Ok invoices,
       World (trace start_world ++ [Encoded [VStr "acme"]; Queried 5])
             (files start_world) (chroma start_world) tt)
    /\ length invoices = 1.
Proof.
  destruct (proj2 (search_invoices_results answering_rag "acme" 5 start_world)
              [FFinite "0.25" true] tt ["Invoice: acme.png"]
              [ [("file_name", VStr "acme.png"); ("source_index", VInt 0);
                 ("has_image", VBool true)] ] [] [] tt eq_refl eq_refl)
    as (invoices & Hrun & Hlen & _).
  - repeat constructor.
  - exists invoices. split; [exact Hrun|exact Hlen].
Defined.

(** ** The interactive session, line by line *)

Section ChatMore.
Context {Ext : Type}.
Implicit Types (self : InvoiceRAG Ext) (w : world Ext).

Lemma is_exit_command_empty : is_exit_command "" = false.
Proof. reflexivity. Qed.

(** X18.  A line that is empty once stripped is skipped: after the prompt
    the loop reads the next line, no provider is called and nothing else is
    printed. *)
Theorem chat_skips_blank_lines self line rest w :
  strip line = "" ->
  chat_loop self (line :: rest) w
  = chat_loop self rest
      (World (trace w ++ [Prompted (nl +:+ "You: ")]) (files w) (chroma w) (ext w)).
Proof.
  intros Hblank. cbn [chat_loop]. unfold bind at 1. unfold emit at 1.
  cbv beta iota zeta. by rewrite Hblank.
Qed.

(** X19.  When a query is answered, the answer is printed after
    [Assistant: ] and the loop goes on with the next line. *)
Theorem chat_prints_the_answer self line rest w answer w' :
  is_exit_command (strip line) = false ->
  strip line <> "" ->
  generate_answer self (strip line) 5
    (World (trace w ++ [Prompted (nl +:+ "You: ")]) (files w) (chroma w) (ext w))
  = (Ok answer, w') ->
  chat_loop self (line :: rest) w
  = chat_loop self rest
      (World (trace w' ++ [Printed (nl +:+ "Assistant: " +:+ answer)])
             (files w') (chroma w') (ext w')).
Proof.
  intros Hcmd Hne Hgen.
  assert (Hempty : String.eqb (strip line) "" = false) by (by apply String.eqb_neq).
  cbn [chat_loop]. unfold bind at 1. unfold emit at 1. cbv beta iota zeta.
  rewrite Hcmd, Hempty.
  unfold bind at 1. unfold try_except_Exception.
  unfold bind at 1. simpl. rewrite Hgen. by unfold print, emit.
Qed.

(** X20.  The session ends abnormally in two ways only.  At the end of
    standard input, [input] raises [EOFError] once the prompt is written.
    And what is raised while a query is processed and is not an
    [Exception] (a keyboard interrupt) is not caught: the session raises
    it, nothing is printed and the lines that follow are not read. *)
Theorem chat_ends_on_eof_or_interrupt self w :
  chat_loop self [] w
  = (Raise EOFError,
     World (trace w ++ [Prompted (nl +:+ "You: ")]) (files w) (chroma w) (ext w))
  /\ forall line rest cls msg w',
       is_exit_command (strip line) = false ->
       strip line <> "" ->
       generate_answer self (strip line) 5
         (World (trace w ++ [Prompted (nl +:+ "You: ")]) (files w) (chroma w) (ext w))
       = (Raise (BaseExc cls msg), w') ->
       chat_loop self (line :: rest) w = (Raise (BaseExc cls msg), w').
Proof.
  split; [done|].
  intros line rest cls msg w' Hcmd Hne Hgen.
  assert (Hempty : String.eqb (strip line) "" = false) by (by apply String.eqb_neq).
  cbn [chat_loop]. unfold bind at 1. unfold emit at 1. cbv beta iota zeta.
  rewrite Hcmd, Hempty.
  unfold bind at 1. unfold try_except_Exception.
  unfold bind at 1. simpl. by rewrite Hgen.
Qed.

End ChatMore.

Lemma chat_skips_blank_lines_witness :
  chat_loop answering_rag ["   "; "q"] start_world
  = chat_loop answering_rag ["q"]
      (World [Prompted (nl +:+ "You: ")] ∅ ∅ tt).
Proof.
  apply (chat_skips_blank_lines answering_rag "   " ["q"] start_world).
  reflexivity.
Defined.

Lemma chat_prints_the_answer_witness :
  chat_loop answering_rag [" total for acme? "; "q"] start_world
  = chat_loop answering_rag ["q"]
      (World
         (trace (snd (generate_answer answering_rag "total for acme?" 5
                        (World [Prompted (nl +:+ "You: ")] ∅ ∅ tt)))
            ++ [Printed (nl +:+ "Assistant: " +:+ "The total is 100.")])
         ∅ ∅ tt).
Proof.
  apply (chat_prints_the_answer answering_rag " total for acme? " ["q"]
           start_world "The total is 100."
           (snd (generate_answer answering_rag "total for acme?" 5
                   (World [Prompted (nl +:+ "You: ")] ∅ ∅ tt))));
    [reflexivity|discriminate|reflexivity].
Defined.

Lemma chat_ends_on_eof_or_interrupt_witness :
  fst (chat_loop interrupted_rag [" total for acme? "; "never read"] start_world)
  = Raise (BaseExc "KeyboardInterrupt" "").
Proof.
  rewrite (proj2 (chat_ends_on_eof_or_interrupt interrupted_rag start_world)
             " total for acme? " ["never read"] "KeyboardInterrupt" ""
             (snd (generate_answer interrupted_rag "total for acme?" 5
                     (World [Prompted (nl +:+ "You: ")] ∅ ∅ tt)))
             eq_refl ltac:(discriminate) eq_refl).
  reflexivity.
Defined.

(** ** Padding and letter case of the exit command *)

Lemma str_app_nil_r (s : string) : s +:+ "" = s.
Proof.
  induction s as [|c s IH]; [done|].
  change (String c (s +:+ "") = String c s). by rewrite IH.
Qed.

Lemma str_app_assoc (a b c : string) : (a +:+ b) +:+ c = a +:+ (b +:+ c).
Proof.
  induction a as [|x a IH]; [done|].
  change (String x ((a +:+ b) +:+ c) = String x (a +:+ (b +:+ c))).
  by rewrite IH.
Qed.

Lemma str_rev_onto_app (s acc : string) :
  str_rev_onto s acc = str_rev s +:+ acc.
Proof.
  unfold str_rev. revert acc. induction s as [|c s IH]; intros acc; simpl; [done|].
  rewrite IH, (IH (String c "")). by rewrite str_app_assoc.
Qed.

Lemma str_rev_cons (c : ascii) (s : string) :
  str_rev (String c s) = str_rev s +:+ String c "".
Proof. unfold str_rev at 1. simpl. apply str_rev_onto_app. Qed.

Lemma str_rev_app (a b : string) : str_rev (a +:+ b) = str_rev b +:+ str_rev a.
Proof.
  induction a as [|c a IH].
  - change (str_rev b = str_rev b +:+ ""). by rewrite str_app_nil_r.
  - change (String c a +:+ b) with (String c (a +:+ b)).
    by rewrite !str_rev_cons, IH, str_app_assoc.
Qed.

Lemma str_rev_involutive (s : string) : str_rev (str_rev s) = s.
Proof.
  induction s as [|c s IH]; [done|].
  by rewrite str_rev_cons, str_rev_app, IH.
Qed.

Lemma all_space_app (a b : string) :
  all_space (a +:+ b) = all_space a && all_space b.
Proof.
  induction a as [|c a IH]; simpl; [done|]. by rewrite IH, andb_assoc.
Qed.

Lemma all_space_rev (s : string) : all_space (str_rev s) = all_space s.
Proof.
  induction s as [|c s IH]; [done|].
  rewrite str_rev_cons, all_space_app, IH. simpl.
  by rewrite andb_true_r, andb_comm.
Qed.

Lemma lstrip_all_space (pre s : string) :
  all_space pre = true -> lstrip (pre +:+ s) = lstrip s.
Proof.
  induction pre as [|c pre IH]; simpl; [done|].
  intros [Hc Hpre]%andb_true_iff. rewrite Hc. by apply IH.
Qed.

Lemma lstrip_only_space (s : string) : all_space s = true -> lstrip s = "".
Proof.
  induction s as [|c s IH]; simpl; [done|].
  intros [Hc Hs]%andb_true_iff. rewrite Hc. by apply IH.
Qed.

(** [lstrip] of a string followed by whitespace. *)
Lemma lstrip_before_space (s post : string) :
  all_space post = true ->
  lstrip (s +:+ post) = match lstrip s with
                        | EmptyString => EmptyString
                        | t => t +:+ post
                        end.
Proof.
  intros Hpost. induction s as [|c s IH]; simpl.
  - by apply lstrip_only_space.
  - destruct (isspace c); [exact IH|done].
Qed.

(** Whitespace around a string does not change what [strip] returns. *)
Lemma strip_padding (pre s post : string) :
  all_space pre = true -> all_space post = true ->
  strip (pre +:+ s +:+ post) = strip s.
Proof.
  intros Hpre Hpost. unfold strip.
  rewrite lstrip_all_space, lstrip_before_space by done.
  destruct (lstrip s) as [|c t] eqn:Ht; [done|].
  rewrite str_rev_app, lstrip_all_space; [done|].
  by rewrite all_space_rev.
Qed.

Lemma isspace_lower_char (c : ascii) : isspace c = true -> lower_char c = c.
Proof.
  destruct c as [[] [] [] [] [] [] [] []]; vm_compute; congruence.
Qed.

(** A string none of whose characters is whitespace. *)
Lemma strip_without_space (s : string) :
  (forall pre c post, s = pre +:+ String c post -> isspace c = false) ->
  strip s = s.
Proof.
  intros Hs. unfold strip.
  assert (Hl : forall t, (forall pre c post, t = pre +:+ String c post ->
                                             isspace c = false) ->
                         lstrip t = t).
  { intros [|c t] Ht; [done|]. simpl.
    by rewrite (Ht "" c t eq_refl). }
  rewrite (Hl s Hs), Hl; [apply str_rev_involutive|].
  intros pre c post Heq.
  apply (Hs (str_rev post) c (str_rev pre)).
  rewrite <- (str_rev_involutive s), Heq, str_rev_app, str_rev_cons.
  by rewrite str_app_assoc.
Qed.

Lemma lower_app_inv (s : string) (a : string) (c : ascii) (b : string) :
  s = a +:+ String c b ->
  lower s = lower a +:+ String (lower_char c) (lower b).
Proof.
  intros ->. induction a as [|x a IH]; simpl; [done|by rewrite IH].
Qed.

(** A command that reads [quit], [exit] or [q] once lowercased holds no
    whitespace. *)
Lemma exit_command_without_space (cmd : string) :
  lower cmd = "quit" \/ lower cmd = "exit" \/ lower cmd = "q" ->
  forall pre c post, cmd = pre +:+ String c post -> isspace c = false.
Proof.
  intros Hcmd pre c post Heq.
  destruct (isspace c) eqn:Hc; [|done]. exfalso.
  pose proof (isspace_lower_char c Hc) as Hlow.
  apply lower_app_inv in Heq. rewrite Hlow in Heq.
  assert (Hin : forall t, lower cmd = t ->
                  all_space (String c "") = true ->
                  (forall x, str_mem x t = true -> isspace x = false) -> False).
  { intros t Ht _ Hmem. rewrite Ht in Heq.
    assert (str_mem c t = true).
    { rewrite Heq. clear. induction (lower pre) as [|x a IH]; simpl.
      - by rewrite Ascii.eqb_refl.
      - by rewrite IH, orb_true_r. }
    rewrite (Hmem c) in Hc; done. }
  assert (Hsp : all_space (String c "") = true) by (simpl; by rewrite Hc).
  destruct Hcmd as [H|[H|H]]; apply (Hin _ H Hsp); intros x; simpl;
    rewrite ?orb_true_iff, ?Ascii.eqb_eq; intuition (subst; done).
Qed.

Section ChatExit.
Context {Ext : Type}.
Implicit Types (self : InvoiceRAG Ext) (w : world Ext).

(** X21.  The exit command is recognised whatever its letter case and
    whatever whitespace surrounds it: a line made of whitespace, a word
    that reads [quit], [exit] or [q] once lowercased, and whitespace again
    ends the loop with [Goodbye!], without any provider call. *)
Theorem chat_exit_ignores_padding_and_case self pre cmd post rest w :
  all_space pre = true ->
  all_space post = true ->
  lower cmd = "quit" \/ lower cmd = "exit" \/ lower cmd = "q" ->
  chat_loop self ((pre +:+ cmd +:+ post) :: rest) w
  = (Ok tt, World (trace w ++ [Prompted (nl +:+ "You: "); Printed "Goodbye!"])
                  (files w) (chroma w) (ext w)).
Proof.
  intros Hpre Hpost Hcmd.
  assert (Hstrip : strip (pre +:+ cmd +:+ post) = cmd).
  { rewrite strip_padding by done.
    apply strip_without_space. by apply exit_command_without_space. }
  cbn [chat_loop]. unfold bind, print, emit. simpl.
  rewrite Hstrip. rewrite (proj2 (is_exit_command_spec cmd) Hcmd). simpl.
  by rewrite <- app_assoc.
Qed.

End ChatExit.

Lemma chat_exit_ignores_padding_and_case_witness :
  fst (chat_loop answering_rag ["  ExIt  "; "never read"] start_world) = Ok tt.
Proof.
  exact (f_equal fst
           (chat_exit_ignores_padding_and_case answering_rag "  " "ExIt" "  "
              ["never read"] start_world eq_refl eq_refl
              (or_intror (or_introl eq_refl)))).
Defined.

(** ** The constructor after a build *)

Section InitAfterBuild.
Context {Ext : Type}.
Variable SentenceTransformer :
  string -> list value -> Ext -> res (list embedding) * Ext.
Variable p : policy.
Variable model : string.
Variable getenv : string -> Ext -> option string.
Implicit Types (self : InvoiceRAG Ext) (w : world Ext).



End InitAfterBuild.


(** ** The download step *)

Lemma invoice_id_inj :
  Inj (=) (=) (fun i : nat => @Ok value (VStr ("invoice_" +:+ pretty i))).
Proof.
  intros i j [= H]. change (pretty i = pretty j) in H.
  by apply (inj pretty) in H.
Qed.

Section Download.
Context {Ext Image : Type}.
Variable json_loads : string -> res value.
Variable load_dataset : string -> Ext -> res (list (item Image)) * Ext.
Variable image_save : Image -> string -> Ext -> res unit * Ext.
Implicit Types (w : world Ext) (row : item Image).

Lemma invoice_record_Ok_inv idx row record :
  invoice_record json_loads idx row = Ok record ->
  exists file_name data has_image,
    record = VDict [ ("id", VStr ("invoice_" +:+ pretty idx));
                     ("file_name", file_name);
                     ("data", data);
                     ("metadata",
                      VDict [ ("source_index", VInt (Z.of_nat idx));
                              ("has_image", VBool has_image) ]) ].
Proof.
  unfold invoice_record. intros H.
  apply res_bind_Ok_inv in H as (text & _ & H).
  apply res_bind_Ok_inv in H as (gt & _ & H).
  apply res_bind_Ok_inv in H as (data & _ & H).
  injection H as <-. by eexists _, _, _.
Qed.

(** One iteration of the loop: the files and the store are not touched,
    and a successful iteration appends the record of its row. *)
Lemma process_item_inv output_dir save_images acc idx row w r w' :
  process_item json_loads image_save output_dir save_images acc (idx, row) w
    = (r, w') ->
  files w' = files w /\ chroma w' = chroma w
  /\ forall out, r = Ok out ->
       exists record, invoice_record json_loads idx row = Ok record
                      /\ out = acc ++ [record].
Proof.
  unfold process_item, bind, lift, call_quiet, ret.
  destruct (invoice_record json_loads idx row) as [record|e]; cbn.
  - destruct save_images, (item_image row) as [image|]; cbn;
      try (intros [= <- <-]; repeat split; try done;
           intros out [= <-]; by exists record).
    destruct (image_save image _ (ext w)) as [[[]|e] x]; intros [= <- <-];
      repeat split; try done.
    intros out [= <-]. by exists record.
  - intros [= <- <-]. by repeat split.
Qed.

Lemma for_acc_process_inv output_dir save_images entries acc w r w' :
  for_acc entries (process_item json_loads image_save output_dir save_images)
    acc w = (r, w') ->
  files w' = files w /\ chroma w' = chroma w
  /\ forall out, r = Ok out ->
       exists new,
         out = acc ++ new
         /\ Forall2 (fun entry record =>
                       invoice_record json_loads (fst entry) (snd entry) = Ok record)
                    entries new.
Proof.
  revert acc w. induction entries as [|[idx row] entries IH]; intros acc w.
  - intros [= <- <-]. repeat split; try done.
    intros out [= <-]. exists []. by rewrite app_nil_r.
  - cbn [for_acc]. unfold bind at 1.
    destruct (process_item json_loads image_save output_dir save_images acc
                (idx, row) w) as [[acc1|e] w1] eqn:Hstep;
      apply process_item_inv in Hstep as (Hf1 & Hc1 & Hout1).
    + intros Hrest. apply IH in Hrest as (Hf & Hc & Hout).
      split; [congruence|]. split; [congruence|].
      intros out ->.
      destruct (Hout1 acc1 eq_refl) as (record & Hrecord & ->).
      destruct (Hout out eq_refl) as (new & -> & Hnew).
      exists (record :: new). split; [by rewrite <- app_assoc|].
      by constructor.
    + intros [= <- <-]. by repeat split.
Qed.

Lemma download_Ok_inv
    dataset_name output_dir save_images w (records : list value) w' :
  download_invoice_dataset json_loads load_dataset image_save dataset_name
    output_dir save_images w = (Ok records, w') ->
  exists rows x,
    load_dataset dataset_name (ext w) = (Ok rows, x)
    /\ files w' = <[output_dir +:+ "/invoices_data.json" := VList records]> (files w)
    /\ chroma w' = chroma w
    /\ length records = length rows
    /\ records <> []
    /\ (forall i row, rows !! i = Some row ->
          exists record,
            records !! i = Some record
            /\ invoice_record json_loads i row = Ok record
            /\ getitem record "id" = Ok (VStr ("invoice_" +:+ pretty i)))
    /\ NoDup (record_ids records).
Proof.
  unfold download_invoice_dataset. intros H.
  apply bind_Ok_inv in H as ([] & w1 & H1 & H).
  apply print_Ok_inv in H1 as (Hf1 & Hc1 & Hx1).
  apply bind_Ok_inv in H as (rows & w2 & Hload & H).
  unfold call_quiet in Hload.
  destruct (load_dataset dataset_name (ext w1)) as [r x] eqn:Hds.
  injection Hload as -> <-. rewrite Hx1 in Hds.
  apply bind_Ok_inv in H as (out & w3 & Hloop & H).
  apply for_acc_process_inv in Hloop as (Hf3 & Hc3 & Hout).
  destruct (Hout out eq_refl) as (new & -> & Hnew). simpl in *.
  apply bind_Ok_inv in H as ([] & w4 & Hwrite & H).
  unfold write_json in Hwrite. injection Hwrite as <-.
  apply bind_Ok_inv in H as ([] & w5 & H5 & H). apply print_Ok_inv in H5 as (Hf5 & Hc5 & _).
  apply bind_Ok_inv in H as ([] & w6 & H6 & H). apply print_Ok_inv in H6 as (Hf6 & Hc6 & _).
  apply bind_Ok_inv in H as ([] & w7 & H7 & H). apply print_Ok_inv in H7 as (Hf7 & Hc7 & _).
  apply bind_Ok_inv in H as (sample & w8 & H8 & H).
  apply lift_Ok_inv in H8 as (Hsample & ->).
  apply bind_Ok_inv in H as ([] & w9 & H9 & H). apply print_Ok_inv in H9 as (Hf9 & Hc9 & _).
  unfold ret in H. injection H as <- <-.
  assert (Hlen : length new = length rows).
  { rewrite <- (Forall2_length _ _ _ Hnew), length_zip_with, length_seq. lia. }
  assert (Hrows : forall i row, rows !! i = Some row ->
            exists record,
              new !! i = Some record
              /\ invoice_record json_loads i row = Ok record
              /\ getitem record "id" = Ok (VStr ("invoice_" +:+ pretty i))).
  { intros i row Hi.
    assert (Hz : zip (seq 0 (length rows)) rows !! i = Some (i, row)).
    { rewrite lookup_zip_with, Hi.
      rewrite lookup_seq_lt by (by eapply lookup_lt_Some). done. }
    destruct (Forall2_lookup_l _ _ _ _ _ Hnew Hz) as (record & Hlook & Hrec).
    simpl in Hrec. exists record. split; [done|]. split; [done|].
    by apply invoice_record_Ok_inv in Hrec as (fn & data & has & ->). }
  exists rows, x. split; [done|]. split.
  { rewrite Hf9, Hf7, Hf6, Hf5. simpl. by rewrite Hf3, Hf1. }
  split.
  { rewrite Hc9, Hc7, Hc6, Hc5. simpl. by rewrite Hc3, Hc1. }
  split; [done|]. split; [by destruct new|]. split; [done|].
  assert (Hids : record_ids new
                 = (fun i => Ok (VStr ("invoice_" +:+ pretty i)))
                     <$> seq 0 (length rows)).
  { unfold record_ids. apply list_eq_Forall2, Forall2_fmap_2.
    apply Forall2_same_length_lookup_2; [by rewrite length_seq|].
    intros i record j Hrec Hj.
    apply lookup_seq in Hj as [-> Hlt]. simpl.
    destruct (lookup_lt_is_Some_2 rows i Hlt) as [row Hrow].
    destruct (Hrows i row Hrow) as (record' & Hlook & _ & Hid).
    congruence. }
  rewrite Hids. apply (NoDup_fmap_2 _ (Inj0:=invoice_id_inj)). apply NoDup_seq.
Qed.


(** X23.  When the download returns, the records file holds one record per
    row of the dataset, in order: the record at position i has the id
    [invoice_i] and the source index i, so all ids are distinct; the vector store is
    not touched, and at least one row was there. *)
Theorem download_one_record_per_row
    dataset_name output_dir save_images w (records : list value) w' :
  download_invoice_dataset json_loads load_dataset image_save dataset_name
    output_dir save_images w = (Ok records, w') ->
  exists rows x,
    load_dataset dataset_name (ext w) = (Ok rows, x)
    /\ files w' = <[output_dir +:+ "/invoices_data.json" := VList records]> (files w)
    /\ chroma w' = chroma w
    /\ length records = length rows
    /\ records <> []
    /\ (forall i row, rows !! i = Some row ->
          exists record,
            records !! i = Some record
            /\ invoice_record json_loads i row = Ok record
            /\ getitem record "id" = Ok (VStr ("invoice_" +:+ pretty i)))
    /\ NoDup (record_ids records).
Proof. apply download_Ok_inv. Qed.

(** X24.  A failed download leaves no partial records file: whenever the
    download raises (the dataset cannot be loaded, a row has no ground
    truth, its ground truth does not parse or is not an object, an image
    cannot be saved), the files are exactly as before.  The one exception
    is the empty dataset: the empty list is written, and then the sample
    print raises [IndexError].  The vector store is never touched. *)
Theorem download_failure_leaves_no_partial_file
    dataset_name output_dir save_images w e w' :
  download_invoice_dataset json_loads load_dataset image_save dataset_name
    output_dir save_images w = (Raise e, w') ->
  chroma w' = chroma w
  /\ (files w' = files w
      \/ (exists x, load_dataset dataset_name (ext w) = (Ok [], x))
         /\ files w' = <[output_dir +:+ "/invoices_data.json" := VList []]> (files w)
         /\ e = IndexError).
Proof.
  unfold download_invoice_dataset. intros H.
  unfold bind at 1 in H. unfold print at 1, emit in H.
  unfold bind at 1 in H. unfold call_quiet at 1 in H. cbn [ext trace files chroma] in H.
  destruct (load_dataset dataset_name (ext w)) as [[rows|e0] x] eqn:Hds.
  2: { injection H as <- <-. split; [done|]. by left. }
  unfold bind at 1 in H.
  destruct (for_acc (zip (seq 0 (length rows)) rows)
              (process_item json_loads image_save output_dir save_images) []
              _) as [[out|e1] w3] eqn:Hloop;
    apply for_acc_process_inv in Hloop as (Hf3 & Hc3 & Hout);
    cbn [files chroma] in Hf3, Hc3.
  2: { injection H as <- <-. split; [done|]. by left. }
  destruct (Hout out eq_refl) as (new & -> & Hnew). simpl in H.
  destruct new as [|record new].
  - apply Forall2_length in Hnew.
    rewrite length_zip_with, length_seq in Hnew.
    destruct rows; [|simpl in Hnew; lia].
    revert H. unfold bind, write_json, print, emit, lift, ret.
    intros [= <- <-]. cbn [files chroma]. split; [done|]. right.
    split; [by exists x|]. by rewrite Hf3.
  - exfalso. revert H. unfold bind, write_json, print, emit, lift, ret. done.
Qed.

(** X25.  Saving the images changes neither the records nor the records
    file: two downloads of the same dataset from the same world that both
    return, one with [save_images] and one without, return the same
    records and leave the same files and the same vector store. *)
Theorem save_images_does_not_change_records
    dataset_name output_dir s1 s2 w (records1 records2 : list value) w1 w2 :
  download_invoice_dataset json_loads load_dataset image_save dataset_name
    output_dir s1 w = (Ok records1, w1) ->
  download_invoice_dataset json_loads load_dataset image_save dataset_name
    output_dir s2 w = (Ok records2, w2) ->
  records1 = records2 /\ files w1 = files w2 /\ chroma w1 = chroma w2.
Proof.
  intros H1 H2.
  apply download_Ok_inv in H1
    as (rows1 & x1 & Hds1 & Hf1 & Hc1 & Hlen1 & _ & Hrows1 & _).
  apply download_Ok_inv in H2
    as (rows2 & x2 & Hds2 & Hf2 & Hc2 & Hlen2 & _ & Hrows2 & _).
  assert (rows2 = rows1) as -> by congruence.
  assert (records1 = records2) as ->.
  { apply list_eq_same_length with (length rows1); [done..|].
    intros i r1 r2 Hi Hr1 Hr2.
    destruct (lookup_lt_is_Some_2 rows1 i Hi) as [row Hrow].
    destruct (Hrows1 i row Hrow) as (r1' & Hr1' & Hrec1 & _).
    destruct (Hrows2 i row Hrow) as (r2' & Hr2' & Hrec2 & _).
    congruence. }
  split; [done|]. split; congruence.
Qed.

End Download.

Section WholePipeline.
Context {Ext Image : Type}.
Variable json_loads : string -> res value.
Variable load_dataset : string -> Ext -> res (list (item Image)) * Ext.
Variable image_save : Image -> string -> Ext -> res unit * Ext.
Variable SentenceTransformer :
  string -> list value -> Ext -> res (list embedding) * Ext.
Variable p : policy.
Variable model : string.
Hypothesis embedder_total :
  forall texts x, exists embeddings x',
    SentenceTransformer model texts x = (Ok embeddings, x')
    /\ length embeddings = length texts.
Hypothesis accepts_all : forall document meta, accepts p document meta = true.

(** X26.  The three scripts compose.  When the download returns and
    every record's [data] is a mapping (each row's [gt_parse] is an object
    or absent), then chunking the file the download wrote and building the
    store from the chunks both go through, for every batch size of at
    least 1, and the store ends with one entry per row of the dataset. *)
Theorem download_then_chunks_then_build
    dataset_name output_dir save_images chunks_file db_path name batch_size
    (w : world Ext) (records : list value) w1 :
  download_invoice_dataset json_loads load_dataset image_save dataset_name
    output_dir save_images w = (Ok records, w1) ->
  Forall (fun record => exists d, getitem record "data" = Ok (VDict d)) records ->
  (1 <= batch_size)%Z ->
  exists rows x chunks w2 w3,
    load_dataset dataset_name (ext w) = (Ok rows, x)
    /\ create_invoice_chunks (output_dir +:+ "/invoices_data.json") chunks_file w1
       = (Ok chunks, w2)
    /\ build_invoice_vectordb SentenceTransformer p chunks_file db_path name model
         batch_size w2 = (Ok (db_path, name), w3)
    /\ collection_count (db_path, name) w3 = (Ok (length rows), w3).
Proof.
  intros Hrun Hdata Hb.
  apply download_Ok_inv in Hrun
    as (rows & x & Hds & Hf & _ & Hlen & Hne & Hrows & Hnd).
  assert (Hshape : forall record, record ∈ records ->
            well_formed_invoice record = true
            /\ exists key, getitem record "id" = Ok (VStr key)).
  { intros record Hin.
    apply list_elem_of_lookup in Hin as [i Hi].
    assert (Hlt : i < length rows) by (rewrite <- Hlen; by eapply lookup_lt_Some).
    destruct (lookup_lt_is_Some_2 rows i Hlt) as [row Hrow].
    destruct (Hrows i row Hrow) as (record' & Hi' & Hrec & Hid).
    assert (record' = record) as -> by congruence.
    split; [|by eexists].
    rewrite Forall_lookup in Hdata. destruct (Hdata i record Hi) as [d Hd].
    apply invoice_record_Ok_inv in Hrec as (fn & data & has & ->).
    injection Hd as ->. reflexivity. }
  destruct (chunks_then_build_total SentenceTransformer p model embedder_total
              accepts_all (output_dir +:+ "/invoices_data.json") chunks_file
              db_path name batch_size w1 records)
    as (chunks & w2 & w3 & Hchunks & Hbuild & Hcount); try done.
  - by rewrite Hf, lookup_insert_eq.
  - apply Forall_forall. intros record Hin. by apply Hshape.
  - apply Forall_forall. intros record Hin. by apply Hshape.
  - exists rows, x, chunks, w2, w3. by rewrite <- Hlen.
Qed.

End WholePipeline.

Lemma example_download_run save_images :
  example_download example_rows save_images
  = (Ok (downloaded_records save_images),
     snd (example_download example_rows save_images)).
Proof. destruct save_images; vm_compute; reflexivity. Qed.

Lemma download_one_record_per_row_witness :
  exists rows x,
    example_load_dataset example_rows "katanaml-org/invoices-donut-data-v1"
      (ext start_world) = (Ok rows, x)
    /\ files (snd (example_download example_rows false))
       = <["data" +:+ "/invoices_data.json" := VList (downloaded_records false)]>
           (files start_world)
    /\ chroma (snd (example_download example_rows false)) = chroma start_world
    /\ length (downloaded_records false) = length rows
    /\ downloaded_records false <> []
    /\ (forall i row, rows !! i = Some row ->
          exists record,
            downloaded_records false !! i = Some record
            /\ invoice_record example_json_loads i row = Ok record
            /\ getitem record "id" = Ok (VStr ("invoice_" +:+ pretty i)))
    /\ NoDup (record_ids (downloaded_records false)).
Proof.
  apply (download_one_record_per_row example_json_loads
           (example_load_dataset example_rows) example_image_save
           "katanaml-org/invoices-donut-data-v1" "data" false start_world
           (downloaded_records false)
           (snd (example_download example_rows false))).
  exact (example_download_run false).
Defined.

Lemma download_failure_leaves_no_partial_file_witness :
  chroma (snd (example_download broken_rows true)) = chroma start_world
  /\ (files (snd (example_download broken_rows true)) = files start_world
      \/ (exists x, example_load_dataset broken_rows
                      "katanaml-org/invoices-donut-data-v1" (ext start_world)
                    = (Ok [], x))
         /\ files (snd (example_download broken_rows true))
            = <["data" +:+ "/invoices_data.json" := VList []]> (files start_world)
         /\ Exc "JSONDecodeError" "Expecting value: line 1 column 1 (char 0)"
            = IndexError).
Proof.
  apply (download_failure_leaves_no_partial_file example_json_loads
           (example_load_dataset broken_rows) example_image_save
           "katanaml-org/invoices-donut-data-v1" "data" true start_world
           (Exc "JSONDecodeError" "Expecting value: line 1 column 1 (char 0)")
           (snd (example_download broken_rows true))).
  vm_compute. reflexivity.
Defined.

Lemma save_images_does_not_change_records_witness :
  downloaded_records false = downloaded_records true
  /\ files (snd (example_download example_rows false))
     = files (snd (example_download example_rows true))
  /\ chroma (snd (example_download example_rows false))
     = chroma (snd (example_download example_rows true)).
Proof.
  apply (save_images_does_not_change_records example_json_loads
           (example_load_dataset example_rows) example_image_save
           "katanaml-org/invoices-donut-data-v1" "data" false true start_world
           (downloaded_records false) (downloaded_records true)
           (snd (example_download example_rows false))
           (snd (example_download example_rows true))).
  - exact (example_download_run false).
  - exact (example_download_run true).
Defined.

Lemma download_then_chunks_then_build_witness :
  exists rows x chunks w2 w3,
    example_load_dataset example_rows "katanaml-org/invoices-donut-data-v1"
      (ext start_world) = (Ok rows, x)
    /\ create_invoice_chunks ("data" +:+ "/invoices_data.json") "data/chunks.json"
         (snd (example_download example_rows false))
       = (Ok chunks, w2)
    /\ build_invoice_vectordb example_transformer example_policy
         "data/chunks.json" "./chroma_db" "invoices_collection"
         "all-MiniLM-L6-v2" 32 w2
       = (Ok ("./chroma_db", "invoices_collection"), w3)
    /\ collection_count ("./chroma_db", "invoices_collection") w3
       = (Ok (length rows), w3).
Proof.
  apply (download_then_chunks_then_build example_json_loads
           (example_load_dataset example_rows) example_image_save
           example_transformer example_policy "all-MiniLM-L6-v2"
           example_transformer_total example_policy_accepts_all
           "katanaml-org/invoices-donut-data-v1" "data" false
           "data/chunks.json" "./chroma_db" "invoices_collection" 32
           start_world (downloaded_records false)
           (snd (example_download example_rows false))).
  - exact (example_download_run false).
  - repeat constructor; eexists; vm_compute; reflexivity.
  - lia.
Defined.
